(** * Veridano threat monitoring agent: a shallow embedding

    This development embeds [examples/threat-monitoring-agent.py] (the
    monitoring scheduler, the five category checks, the monitoring cycle and
    the two alert handlers) and states the properties of the design document
    against it.  It goes on with the assessment helpers of
    [examples/basic-agent.py] and with [list_tools] and [call_tool] of
    [mcp_client.py].

    Modelling conventions.
    - A Python [str] is a [string]; titles and bodies are taken to be ASCII
      text, so that one character of the model is one character of Python and
      [str.lower] is the ASCII lower-casing.
    - A document is a Python [dict] with string keys, a [gmap string value];
      its values are the scalar JSON values.
    - A Python number (an [int] or a finite [float]) is a rational: the only
      arithmetic the agent performs on scores is a comparison, which Python
      evaluates exactly.
    - An exception is a value of [exn]; code that may raise returns a
      [result].  Every exception of the model is a subclass of [Exception].
    - [print] calls are not modelled, except where they are the only output of
      a handler (the entries listed by the default alert handler).
    - The search service and the alert callback are parameters of the
      monitor; [_mock_search] is the search the agent ships with.
    - Time is a clock in seconds that [asyncio.sleep] advances.  The loop of
      [start_monitoring] need not end: it is run against a finite schedule
      that tells, turn by turn, whether [stop_monitoring] was called, and
      reports whether it returned or is still running when the schedule is
      used up. *)

From Stdlib Require Import ZArith QArith String Ascii List Lia Lqa.
From stdpp Require Import base option list strings gmap sorting pretty.

Close Scope Q_scope.
Open Scope list_scope.

(** ** Python strings *)

Module Py.

(** [c.lower()] on one ASCII character. *)
Definition lower_ascii (c : ascii) : ascii :=
  let n := N_of_ascii c in
  if ((65 <=? n) && (n <=? 90))%N then ascii_of_N (n + 32) else c.

(** [s.lower()] *)
Fixpoint lower (s : string) : string :=
  match s with
  | EmptyString => EmptyString
  | String c s' => String (lower_ascii c) (lower s')
  end.

(** [s.startswith(p)] *)
Fixpoint startswith (p s : string) : bool :=
  match p, s with
  | EmptyString, _ => true
  | String _ _, EmptyString => false
  | String a p', String b s' => bool_decide (a = b) && startswith p' s'
  end.

(** [sub in s] *)
Fixpoint contains (sub s : string) : bool :=
  startswith sub s ||
  match s with
  | EmptyString => false
  | String _ s' => contains sub s'
  end.

(** [s[:n]] *)
Fixpoint slice_to (n : nat) (s : string) : string :=
  match n, s with
  | O, _ => EmptyString
  | S _, EmptyString => EmptyString
  | S n', String c s' => String c (slice_to n' s')
  end.

(** [any(k in s for k in keywords)] *)
Definition any_in (keywords : list string) (s : string) : bool :=
  existsb (fun k => contains k s) keywords.

End Py.

(** ** Values, exceptions and results *)

(** The scalar values a document field can hold. *)
Inductive value :=
| VNone
| VBool (b : bool)
| VNum (q : Q)
| VStr (s : string).

Inductive exn :=
| KeyError (key : string)
| TypeError
| AttributeError
| Exception (msg : string).

Inductive result (A : Type) :=
| Ok (a : A)
| Raise (e : exn).
Arguments Ok {A} a.
Arguments Raise {A} e.

#[global] Instance result_ret : MRet result := @Ok.
#[global] Instance result_bind : MBind result :=
  fun A B f r => match r with Ok a => f a | Raise e => Raise e end.

(** [doc[k]] *)
Definition getitem (doc : gmap string value) (k : string) : result value :=
  match doc !! k with
  | Some v => Ok v
  | None => Raise (KeyError k)
  end.

(** [doc.get(k, d)] *)
Definition dict_get (doc : gmap string value) (k : string) (d : value) : value :=
  default d (doc !! k).

(** The number a value stands for in a comparison with a [float]: [bool] is a
    subclass of [int]; [None] and [str] do not compare with numbers. *)
Definition as_number (v : value) : result Q :=
  match v with
  | VNum q => Ok q
  | VBool b => Ok (if b then 1%Q else 0%Q)
  | VNone | VStr _ => Raise TypeError
  end.

(** [v >= threshold] *)
Definition py_ge (v : value) (threshold : Q) : result bool :=
  q ← as_number v; Ok (Qle_bool threshold q).

(** [v.lower()] *)
Definition py_lower (v : value) : result string :=
  match v with
  | VStr s => Ok (Py.lower s)
  | _ => Raise AttributeError
  end.

(** [v[:200] + "..."] *)
Definition summarize (v : value) : result value :=
  match v with
  | VStr s => Ok (VStr (Py.slice_to 200 s +:+ "..."))
  | _ => Raise TypeError
  end.

(** ** Alerts *)

Module Alert.
Record ThreatAlert := mk {
  id : value;
  title : value;
  source : value;
  severity : string;
  cvss_score : value;
  published_date : value;
  summary : value;
  recommended_action : string
}.
End Alert.
Abbreviation ThreatAlert := Alert.ThreatAlert.

(** The response of a search: [results.get("documents", [])] reads the
    [documents] key, which may be absent. *)
Record response := {
  documents : option (list (gmap string value));
  total_results : Z
}.

(** ** The five category checks *)

(** [for doc in ...: if <rule>: alerts.append(alert)], where [body] is the
    loop body: it raises, or yields the alert to append, if any. *)
Fixpoint for_documents (body : gmap string value -> result (option ThreatAlert))
    (docs : list (gmap string value)) (alerts : list ThreatAlert)
    : result (list ThreatAlert) :=
  match docs with
  | [] => Ok alerts
  | doc :: rest =>
      match body doc with
      | Raise e => Raise e
      | Ok None => for_documents body rest alerts
      | Ok (Some alert) => for_documents body rest (alerts ++ [alert])
      end
  end.

(** The keyword arguments of [ThreatAlert(...)] that every check reads from
    the document, in evaluation order. *)
Definition make_alert (doc : gmap string value) (severity : string)
    (cvss : value) (action : string) : result ThreatAlert :=
  id ← getitem doc "id";
  title ← getitem doc "title";
  source ← getitem doc "source";
  published ← getitem doc "published_date";
  content ← getitem doc "content";
  summary ← summarize content;
  Ok (Alert.mk id title source severity cvss published summary action).

(** ** The monitor *)

(** The attributes [__init__] sets on the monitor.  [alert_callback] is the
    sink the monitor is built with (a variable of the section below);
    [last_check] is a time in seconds. *)
Record VeridanoThreatMonitor := {
  monitoring_active : bool;
  last_check : Z;
  critical_cvss_threshold : Q;
  high_cvss_threshold : Q;
  alert_keywords : list string
}.

(** [VeridanoThreatMonitor.__init__], at time [now]. *)
Definition __init__ (now : Z) : VeridanoThreatMonitor := {|
  monitoring_active := false;
  last_check := now - 24 * 3600;
  critical_cvss_threshold := 9.0%Q;
  high_cvss_threshold := 7.0%Q;
  alert_keywords :=
    ["zero-day"; "active exploitation"; "emergency directive";
     "critical vulnerability"; "nation-state"; "APT campaign"]
|}.

(** What a sink does with an alert: the default handler lists it as entry
    [i]; the custom handler routes it to one of three channels. *)
Inductive sink_event :=
| Shown (i : nat) (alert : ThreatAlert)
| UrgentNotification (alert : ThreatAlert)
| StandardNotification (alert : ThreatAlert)
| LoggedAlert (alert : ThreatAlert).

(** The observable steps of the scheduler and of a cycle. *)
Inductive event :=
| Started (interval_minutes : Z)
| Dispatch (alerts : list ThreatAlert)
| Sink (e : sink_event)
| NoThreats
| CycleComplete (interval_minutes : Z)
| MonitoringError (e : exn)
| Sleep (seconds : Z)
| StopRequested.

(** The batches handed to [alert_callback], oldest first. *)
Definition dispatched (evs : list event) : list (list ThreatAlert) :=
  omap (fun ev => match ev with Dispatch alerts => Some alerts | _ => None end) evs.

(** The sleeps of the scheduler, oldest first. *)
Definition sleeps (evs : list event) : list Z :=
  omap (fun ev => match ev with Sleep s => Some s | _ => None end) evs.

(** *** Loop bodies of the category checks *)

(** Body of the loop of [_check_critical_vulnerabilities]. *)
Definition critical_vulnerability_doc (self : VeridanoThreatMonitor)
    (doc : gmap string value) : result (option ThreatAlert) :=
  let cvss := dict_get doc "cvss_score" (VNum 0) in
  qualifies ← py_ge cvss (critical_cvss_threshold self);
  if qualifies : bool then
    alert ← make_alert doc "CRITICAL" cvss "IMMEDIATE patching required";
    Ok (Some alert)
  else Ok None.

(** Body of the loop of [_check_emergency_directives]. *)
Definition emergency_directive_doc (doc : gmap string value)
    : result (option ThreatAlert) :=
  title ← getitem doc "title";
  lowered ← py_lower title;
  if Py.contains "emergency" lowered then
    alert ← make_alert doc "EMERGENCY" (VNum 10.0) "COMPLY immediately - Federal mandate";
    Ok (Some alert)
  else Ok None.

(** Body of the loop of [_check_apt_activity]. *)
Definition apt_activity_doc (doc : gmap string value) : result (option ThreatAlert) :=
  content ← getitem doc "content";
  lowered ← py_lower content;
  if Py.any_in ["apt"; "nation-state"; "attribution"] lowered then
    alert ← make_alert doc "HIGH" (VNum 8.5)
              "Review threat indicators and enhance monitoring";
    Ok (Some alert)
  else Ok None.

(** Body of the loop of [_check_zeroday_activity]. *)
Definition zeroday_activity_doc (doc : gmap string value) : result (option ThreatAlert) :=
  content ← getitem doc "content";
  lowered ← py_lower content;
  if Py.contains "zero-day" lowered then
    alert ← make_alert doc "CRITICAL" (VNum 9.5)
              "URGENT - Implement defensive measures immediately";
    Ok (Some alert)
  else Ok None.

(** Body of the loop of [_check_infrastructure_threats]. *)
Definition infrastructure_threat_doc (doc : gmap string value)
    : result (option ThreatAlert) :=
  content ← getitem doc "content";
  lowered ← py_lower content;
  if Py.any_in ["energy"; "water"; "transportation"; "manufacturing"] lowered then
    alert ← make_alert doc "HIGH" (VNum 8.0) "Coordinate with sector security teams";
    Ok (Some alert)
  else Ok None.

(** The categories of the design document and the loop body of each. *)
Inductive Category :=
| critical_vulnerability
| emergency_directive
| apt_activity
| zero_day
| infrastructure_threat.

Definition classify (self : VeridanoThreatMonitor) (category : Category)
    (doc : gmap string value) : result (option ThreatAlert) :=
  match category with
  | critical_vulnerability => critical_vulnerability_doc self doc
  | emergency_directive => emergency_directive_doc doc
  | apt_activity => apt_activity_doc doc
  | zero_day => zeroday_activity_doc doc
  | infrastructure_threat => infrastructure_threat_doc doc
  end.

(** ** Alert handlers *)

(** [sorted(l, key=key)]: Python's sort is stable, and a stable sort by an
    integer key has one result; it is computed here by insertion from the
    right, each element going before the first one whose key is not
    smaller. *)
Fixpoint insert_by {A : Type} (key : A -> nat) (x : A) (l : list A) : list A :=
  match l with
  | [] => [x]
  | y :: l' => if (key x <=? key y)%nat then x :: l else y :: insert_by key x l'
  end.

Definition sorted {A : Type} (key : A -> nat) (l : list A) : list A :=
  foldr (insert_by key) [] l.

Definition severity_order : gmap string nat :=
  {[ "EMERGENCY" := 0%nat; "CRITICAL" := 1%nat; "HIGH" := 2%nat;
     "MEDIUM" := 3%nat; "LOW" := 4%nat ]}.

(** [lambda x: severity_order.get(x.severity, 5)] *)
Definition severity_key (x : ThreatAlert) : nat :=
  default 5%nat (severity_order !! Alert.severity x).

(** [VeridanoThreatMonitor._default_alert_handler]: the alerts are listed in
    the order of [sorted_alerts], numbered from 1.  The handler keeps no
    state, whatever the sink state [H] is. *)
Definition _default_alert_handler {H : Type} (h : H) (alerts : list ThreatAlert)
    : H * list sink_event * result unit :=
  let sorted_alerts := sorted severity_key alerts in
  (h, imap (fun i alert => Shown (S i) alert) sorted_alerts, Ok tt).

(** The alerts the default handler lists, in order. *)
Definition shown (evs : list sink_event) : list ThreatAlert :=
  omap (fun ev => match ev with Shown _ alert => Some alert | _ => None end) evs.

(** [CustomAlertHandler.handle_alerts]; the state of the handler is its
    [alert_history]. *)
Fixpoint handle_alerts (alert_history : list ThreatAlert) (alerts : list ThreatAlert)
    : list ThreatAlert * list sink_event * result unit :=
  match alerts with
  | [] => (alert_history, [], Ok tt)
  | alert :: rest =>
      let alert_history := alert_history ++ [alert] in
      let notification :=
        if bool_decide (Alert.severity alert ∈ ["EMERGENCY"; "CRITICAL"])
        then UrgentNotification alert
        else if bool_decide (Alert.severity alert = "HIGH")
        then StandardNotification alert
        else LoggedAlert alert in
      let '(alert_history, evs, r) := handle_alerts alert_history rest in
      (alert_history, notification :: evs, r)
  end.

(** ** The monitoring cycle and the scheduler *)

Section Monitor.

(** The state of the sink the monitor was built with. *)
Variable H : Type.

(** The search service: the outcome of a query at a given time. *)
Variable search : Z -> string -> list string -> string -> result response.

(** [self.alert_callback] *)
Variable alert_callback : H -> list ThreatAlert -> H * list sink_event * result unit.

(** The monitor, the clock read by [datetime.now()] (seconds) and the sink. *)
Record world := {
  self : VeridanoThreatMonitor;
  clock : Z;
  sink : H
}.

Definition _check_critical_vulnerabilities (self : VeridanoThreatMonitor) (now : Z)
    : result (list ThreatAlert) :=
  results ← search now "critical vulnerability CVSS score 9.0"
              ["NVD"; "CISA"; "US-CERT"] "last_24_hours";
  let alerts := [] in
  for_documents (critical_vulnerability_doc self) (default [] (documents results)) alerts.

Definition _check_emergency_directives (now : Z) : result (list ThreatAlert) :=
  results ← search now "emergency directive immediate action required"
              ["CISA"; "DHS"] "last_48_hours";
  let alerts := [] in
  for_documents emergency_directive_doc (default [] (documents results)) alerts.

Definition _check_apt_activity (now : Z) : result (list ThreatAlert) :=
  results ← search now "advanced persistent threat nation-state attribution campaign"
              ["NSA"; "FBI"; "USCYBERCOM"] "last_72_hours";
  let alerts := [] in
  for_documents apt_activity_doc (default [] (documents results)) alerts.

Definition _check_zeroday_activity (now : Z) : result (list ThreatAlert) :=
  results ← search now "zero-day exploit active exploitation in the wild"
              ["FBI"; "CISA"; "US-CERT"] "last_48_hours";
  let alerts := [] in
  for_documents zeroday_activity_doc (default [] (documents results)) alerts.

Definition _check_infrastructure_threats (now : Z) : result (list ThreatAlert) :=
  results ← search now "critical infrastructure attack energy water transportation"
              ["CISA"; "DHS"; "ICS-CERT"] "last_48_hours";
  let alerts := [] in
  for_documents infrastructure_threat_doc (default [] (documents results)) alerts.

(** The first part of [_monitoring_cycle]: the five checks in turn, each
    result appended to [alerts].  An exception of a check leaves the
    function at once. *)
Definition collect_alerts (self : VeridanoThreatMonitor) (now : Z)
    : result (list ThreatAlert) :=
  let alerts := [] in
  critical_vulns ← _check_critical_vulnerabilities self now;
  let alerts := alerts ++ critical_vulns in
  emergency_alerts ← _check_emergency_directives now;
  let alerts := alerts ++ emergency_alerts in
  apt_alerts ← _check_apt_activity now;
  let alerts := alerts ++ apt_alerts in
  zeroday_alerts ← _check_zeroday_activity now;
  let alerts := alerts ++ zeroday_alerts in
  infra_alerts ← _check_infrastructure_threats now;
  let alerts := alerts ++ infra_alerts in
  Ok alerts.

Definition set_last_check (w : world) : world :=
  {| self := {| monitoring_active := monitoring_active (self w);
                last_check := clock w;
                critical_cvss_threshold := critical_cvss_threshold (self w);
                high_cvss_threshold := high_cvss_threshold (self w);
                alert_keywords := alert_keywords (self w) |};
     clock := clock w;
     sink := sink w |}.

Definition set_monitoring_active (b : bool) (w : world) : world :=
  {| self := {| monitoring_active := b;
                last_check := last_check (self w);
                critical_cvss_threshold := critical_cvss_threshold (self w);
                high_cvss_threshold := high_cvss_threshold (self w);
                alert_keywords := alert_keywords (self w) |};
     clock := clock w;
     sink := sink w |}.

Definition set_sink (h : H) (w : world) : world :=
  {| self := self w; clock := clock w; sink := h |}.

(** [VeridanoThreatMonitor._monitoring_cycle]: the new state, the events of
    the cycle and its outcome. *)
Definition _monitoring_cycle (w : world) : world * list event * result unit :=
  match collect_alerts (self w) (clock w) with
  | Raise e => (w, [], Raise e)
  | Ok alerts =>
      match alerts with
      | [] => (set_last_check w, [NoThreats], Ok tt)
      | _ :: _ =>
          let '(h, evs, r) := alert_callback (sink w) alerts in
          let w := set_sink h w in
          match r with
          | Raise e => (w, Dispatch alerts :: map Sink evs, Raise e)
          | Ok _ => (set_last_check w, Dispatch alerts :: map Sink evs, Ok tt)
          end
      end
  end.

(** [await asyncio.sleep(seconds)]: a delay that is not positive returns at
    once. *)
Definition sleep (seconds : Z) (w : world) : world :=
  {| self := self w; clock := clock w + Z.max 0 seconds; sink := sink w |}.

(** One turn of the [while] loop of [start_monitoring]: the [try] block and
    its [except Exception] handler. *)
Definition loop_body (interval_minutes : Z) (w : world) : world * list event :=
  match _monitoring_cycle w with
  | (w, evs, Ok _) =>
      (sleep (interval_minutes * 60) w,
       evs ++ [CycleComplete interval_minutes; Sleep (interval_minutes * 60)])
  | (w, evs, Raise e) =>
      (sleep 60 w, evs ++ [MonitoringError e; Sleep 60])
  end.

(** [VeridanoThreatMonitor.stop_monitoring] *)
Definition stop_monitoring (w : world) : world := set_monitoring_active false w.

(** How a run of the scheduler ends: the [while] condition was false and
    [start_monitoring] returned, or the schedule of the run was used up with
    the loop still running.  No exception leaves [start_monitoring]: what the
    [try] block raises is caught by its handler, and the statements outside
    the block do not raise. *)
Inductive run_end := Returned | StillRunning.

(** [while self.monitoring_active: ...].  [stop_monitoring] is called by
    another task while the loop is suspended; [stops] tells, for each turn of
    the loop in order, whether that happened during the turn.  The flag is
    read only by the loop condition, so the moment within the turn does not
    matter. *)
Fixpoint monitoring_loop (interval_minutes : Z) (stops : list bool) (w : world)
    : world * list event * run_end :=
  if monitoring_active (self w) then
    match stops with
    | [] => (w, [], StillRunning)
    | stop :: stops =>
        let '(w, evs) := loop_body interval_minutes w in
        let '(w, evs) :=
          if stop : bool then (stop_monitoring w, evs ++ [StopRequested]) else (w, evs) in
        let '(w, evs', r) := monitoring_loop interval_minutes stops w in
        (w, evs ++ evs', r)
    end
  else (w, [], Returned).

(** [VeridanoThreatMonitor.start_monitoring] *)
Definition start_monitoring (interval_minutes : Z) (stops : list bool) (w : world)
    : world * list event * run_end :=
  let w := set_monitoring_active true w in
  let '(w, evs, r) := monitoring_loop interval_minutes stops w in
  (w, Started interval_minutes :: evs, r).

End Monitor.

Arguments self {H} w.
Arguments clock {H} w.
Arguments sink {H} w.
Arguments Build_world {H} _ _ _.

(** [VeridanoThreatMonitor._mock_search]: one document whatever the query.
    [isoformat] renders the time of the call. *)
Definition _mock_search (isoformat : Z -> string) (now : Z) (query : string)
    (sources : list string) (timeframe : string) : result response :=
  Ok {| documents := Some [
          {[ "id" := VStr "MOCK-001";
             "title" := VStr ("Mock threat intelligence for: " +:+ Py.slice_to 50 query +:+ "...");
             "content" := VStr ("Mock content related to " +:+ query +:+
                 ". This would contain actual government intelligence in production.");
             "source" := VStr (match sources with s :: _ => s | [] => "MOCK" end);
             "cvss_score" := VNum 8.5;
             "published_date" := VStr (isoformat now) ]} ];
        total_results := 1 |}.

(** ** Findings *)

(** A document that carries the fields of a Finding: an identifier, a title
    and a body that are strings, a source and a publication date. *)
Definition is_finding (doc : gmap string value) : Prop :=
  is_Some (doc !! "id") ∧
  (∃ title, doc !! "title" = Some (VStr title)) ∧
  is_Some (doc !! "source") ∧
  is_Some (doc !! "published_date") ∧
  (∃ body, doc !! "content" = Some (VStr body)).

(** As the design document words the case-insensitive rule: some part of the
    text is the keyword up to the case of its letters. *)
Definition contains_ignoring_case (keyword text : string) : Prop :=
  ∃ pre mid post, text = pre +:+ (mid +:+ post) ∧ Py.lower mid = keyword.

(** As the design document words the summary: the first 200 characters and a
    marker when the body is longer, the body as it is otherwise. *)
Definition summary_as_specified (body : string) : string :=
  if (200 <? String.length body)%nat then Py.slice_to 200 body +:+ "..." else body.

(** ** Example documents *)

(** The emergency directive of the design document's scenario, with a short
    body. *)
Definition directive_doc : gmap string value :=
  {[ "id" := VStr "X-1";
     "title" := VStr "CISA Emergency Directive 24-02";
     "content" := VStr "Patch now";
     "source" := VStr "CISA";
     "published_date" := VStr "2024-01-19T00:00:00" ]}.

(** The vulnerability of the design document's scenario. *)
Definition cve_doc : gmap string value :=
  {[ "id" := VStr "CVE-2024-38063";
     "title" := VStr "Windows TCP/IP RCE";
     "content" := VStr "Remote code execution in the TCP/IP stack";
     "source" := VStr "NVD";
     "cvss_score" := VNum 9.8;
     "published_date" := VStr "2024-08-13T00:00:00" ]}.

(** A document whose [cvss_score] is JSON [null]. *)
Definition null_score_doc : gmap string value :=
  <[ "cvss_score" := VNone ]> cve_doc.

(** ** The order of a batch, as the design document words it *)

(** The number an alert carries as its score. *)
Definition alert_score (alert : ThreatAlert) : Q :=
  match Alert.cvss_score alert with
  | VNum q => q
  | VBool true => 1
  | _ => 0
  end.

(** An alert goes before another one when its severity is higher or, the
    severities being equal, when its score is not lower. *)
Definition dispatch_order_as_specified (a b : ThreatAlert) : Prop :=
  (severity_key a < severity_key b)%nat ∨
  (severity_key a = severity_key b ∧ (alert_score b <= alert_score a)%Q).

(** The order the default handler follows: severity alone. *)
Definition severity_le (a b : ThreatAlert) : Prop :=
  (severity_key a ≤ severity_key b)%nat.

(** What the sink did during a run, oldest first. *)
Definition sink_events (evs : list event) : list sink_event :=
  omap (fun ev => match ev with Sink e => Some e | _ => None end) evs.

(** ** Example runs *)

Definition isoformat_example (t : Z) : string := "2024-01-01T00:00:00".

(** A monitor just built, with the default alert handler. *)
Definition fresh_world : world unit :=
  {| self := __init__ 0; clock := 0; sink := tt |}.

(** A monitor just built, with a [CustomAlertHandler] as sink. *)
Definition fresh_custom_world : world (list ThreatAlert) :=
  {| self := __init__ 0; clock := 0; sink := [] |}.

Definition cve_doc_91 : gmap string value :=
  {[ "id" := VStr "CVE-2024-0001";
     "title" := VStr "Buffer overflow in a VPN gateway";
     "content" := VStr "Unauthenticated remote code execution";
     "source" := VStr "NVD";
     "cvss_score" := VNum 9.1;
     "published_date" := VStr "2024-01-01T00:00:00" ]}.

Definition zeroday_doc : gmap string value :=
  {[ "id" := VStr "AA24-001";
     "title" := VStr "Exploitation of a browser engine";
     "content" := VStr "A zero-day in a browser engine is exploited in the wild";
     "source" := VStr "CISA";
     "published_date" := VStr "2024-01-01T00:00:00" ]}.

(** A search service that knows one critical vulnerability and one zero-day
    report, and nothing in the other categories. *)
Definition two_criticals_search (now : Z) (query : string) (sources : list string)
    (timeframe : string) : result response :=
  if bool_decide (query = "critical vulnerability CVSS score 9.0")
  then Ok {| documents := Some [cve_doc_91]; total_results := 1 |}
  else if bool_decide (query = "zero-day exploit active exploitation in the wild")
  then Ok {| documents := Some [zeroday_doc]; total_results := 1 |}
  else Ok {| documents := Some []; total_results := 0 |}.

(** A search service whose APT-activity query fails with a transport error;
    the other four queries answer as the mock search does. *)
Definition apt_down_search (now : Z) (query : string) (sources : list string)
    (timeframe : string) : result response :=
  if bool_decide (query = "advanced persistent threat nation-state attribution campaign")
  then Raise (Exception "Cannot connect to host")
  else _mock_search isoformat_example now query sources timeframe.

(** Four alerts of the severities HIGH, EMERGENCY, LOW and CRITICAL. *)
Definition sample_alert (name severity : string) (score : Q) : ThreatAlert :=
  Alert.mk (VStr name) (VStr "Sample") (VStr "CISA") severity (VNum score)
    (VStr "2024-01-01T00:00:00") (VStr "Sample...") "Review".

Definition sample_batch : list ThreatAlert :=
  [sample_alert "A-1" "HIGH" 8.0; sample_alert "A-2" "EMERGENCY" 10.0;
   sample_alert "A-3" "LOW" 2.0; sample_alert "A-4" "CRITICAL" 9.5].

(** The mock search of the agent, with a fixed rendering of the time. *)
Definition mock_search : Z → string → list string → string → result response :=
  _mock_search isoformat_example.


(** A monitor whose scheduler is running. *)
Definition running_world : world unit := set_monitoring_active () true fresh_world.


(** ** More of the monitor: rules on the body, and example documents *)

(** Some keyword of the list occurs in the text, up to the case of its
    letters. *)
Definition contains_any_ignoring_case (keywords : list string) (text : string) : Prop :=
  ∃ keyword, keyword ∈ keywords ∧ contains_ignoring_case keyword text.

(** The severities [severity_order] knows. *)
Definition known_severities : list string :=
  ["EMERGENCY"; "CRITICAL"; "HIGH"; "MEDIUM"; "LOW"].

Definition apt_doc : gmap string value :=
  {[ "id" := VStr "AA24-038A";
     "title" := VStr "State-sponsored actors on IT networks";
     "content" := VStr "Attribution of the campaign to a Nation-State actor";
     "source" := VStr "NSA";
     "published_date" := VStr "2024-02-07T00:00:00" ]}.

Definition infrastructure_doc : gmap string value :=
  {[ "id" := VStr "ICSA-24-004";
     "title" := VStr "Controller firmware advisory";
     "content" := VStr "Affects pumping stations of Water utilities";
     "source" := VStr "ICS-CERT";
     "published_date" := VStr "2024-01-04T00:00:00" ]}.

(** A zero-day report that lacks its identifier. *)
Definition zeroday_doc_without_id : gmap string value := delete "id" zeroday_doc.

(** A search service whose every answer lacks the [documents] key. *)
Definition no_documents_search (now : Z) (query : string) (sources : list string)
    (timeframe : string) : result response :=
  Ok {| documents := None; total_results := 0 |}.

(** An alert callback that fails after taking note of the batch size. *)
Definition failing_callback (calls : list nat) (alerts : list ThreatAlert)
    : list nat * list sink_event * result unit :=
  (calls ++ [length alerts], [], Raise (Exception "sink unreachable")).

Definition fresh_counting_world : world (list nat) :=
  {| self := __init__ 0; clock := 0; sink := [] |}.

(** A callback under observation: it does what the callback [cb] does, on
    the state of [cb], and keeps beside it the batches it was called with,
    oldest first.  A call of the callback is a new entry of that list, and
    nothing else changes it. *)
Definition recording {H : Type}
    (cb : H → list ThreatAlert → H * list sink_event * result unit)
    (observed : list (list ThreatAlert) * H) (alerts : list ThreatAlert)
    : (list (list ThreatAlert) * H) * list sink_event * result unit :=
  let '(h, evs, r) := cb observed.2 alerts in
  ((observed.1 ++ [alerts], h), evs, r).

(** A monitor just built, with the default alert handler under
    observation. *)
Definition fresh_recording_world : world (list (list ThreatAlert) * unit) :=
  {| self := __init__ 0; clock := 0; sink := ([], tt) |}.

(** A document whose [cvss_score] is a string. *)
Definition text_score_doc : gmap string value :=
  <[ "cvss_score" := VStr "9.8" ]> cve_doc.

(** A search service whose critical-vulnerability answer holds a document
    with a [null] score before the vulnerability of the design document's
    scenario; the other queries answer as the mock search does. *)
Definition null_score_search (now : Z) (query : string) (sources : list string)
    (timeframe : string) : result response :=
  if bool_decide (query = "critical vulnerability CVSS score 9.0")
  then Ok {| documents := Some [null_score_doc; cve_doc]; total_results := 2 |}
  else _mock_search isoformat_example now query sources timeframe.

(** ** Continuous monitoring, as the scheduler announces it *)

(** [start_monitoring] announces a check every [interval_minutes] minutes;
    after a cycle it reports "Monitoring cycle complete - next check in
    [interval_minutes] minutes" and on an exception "Monitoring error", with
    the comment "Wait 1 minute on error". *)

(** The wait that follows a cycle, by the outcome of the cycle. *)
Definition wait_after (interval_minutes : Z) (outcome : result unit) : Z :=
  match outcome with
  | Ok _ => interval_minutes * 60
  | Raise _ => 60
  end.

(** What the scheduler reports after a cycle, by the outcome of the cycle. *)
Definition report_after (interval_minutes : Z) (outcome : result unit) : event :=
  match outcome with
  | Ok _ => CycleComplete interval_minutes
  | Raise e => MonitoringError e
  end.

Section Continuous.

Variable H : Type.
Variable search : Z → string → list string → string → result response.
Variable alert_callback : H → list ThreatAlert → H * list sink_event * result unit.

(** [n] cycles in a row: each cycle is run on the state the wait before it
    left, and is followed by the report of its outcome and by the wait for
    the next one.  The state after the last wait, and the events. *)
Fixpoint continuous_monitoring (interval_minutes : Z) (n : nat) (w : world H)
    : world H * list event :=
  match n with
  | O => (w, [])
  | S n =>
      let '(w1, evs, outcome) := _monitoring_cycle H search alert_callback w in
      let seconds := wait_after interval_minutes outcome in
      let '(w2, evs') := continuous_monitoring interval_minutes n (sleep H seconds w1) in
      (w2, evs ++ [report_after interval_minutes outcome; Sleep seconds] ++ evs')
  end.

End Continuous.

(** * The basic agent ([examples/basic-agent.py])

    The helpers of [CybersecurityIntelligenceAgent] that turn the documents
    of a search into an assessment.  They are pure: a report method of the
    agent calls them on the documents the client returned. *)

Module BasicAgent.

(** [sub in v]: only a string can be searched. *)
Definition py_in (sub : string) (v : value) : result bool :=
  match v with
  | VStr s => Ok (Py.contains sub s)
  | _ => Raise TypeError
  end.

(** [bool(v)] *)
Definition truthy (v : value) : bool :=
  match v with
  | VNone => false
  | VBool b => b
  | VNum q => negb (Qeq_bool q 0)
  | VStr s => negb (bool_decide (s = ""))
  end.

(** [s.split('.')]: the pieces between the periods; there is always one. *)
Fixpoint split_dot (s : string) : list string :=
  match s with
  | EmptyString => [EmptyString]
  | String c s' =>
      if bool_decide (c = "."%char) then EmptyString :: split_dot s'
      else match split_dot s' with
           | [] => [String c EmptyString]
           | piece :: pieces => String c piece :: pieces
           end
  end.

(** [v.split('.')] *)
Definition py_split_dot (v : value) : result (list string) :=
  match v with
  | VStr s => Ok (split_dot s)
  | _ => Raise AttributeError
  end.

(** [c.isspace()] on one ASCII character: tab to carriage return, the four
    separators and the space. *)
Definition is_space (c : ascii) : bool :=
  let n := N_of_ascii c in
  (((9 <=? n) && (n <=? 13)) || ((28 <=? n) && (n <=? 32)))%N.

(** [s.lstrip()], [s.rstrip()] and [s.strip()] *)
Fixpoint lstrip (s : string) : string :=
  match s with
  | EmptyString => EmptyString
  | String c s' => if is_space c then lstrip s' else s
  end.

Fixpoint rstrip (s : string) : string :=
  match s with
  | EmptyString => EmptyString
  | String c s' =>
      match rstrip s' with
      | EmptyString => if is_space c then EmptyString else String c EmptyString
      | r => String c r
      end
  end.

Definition strip (s : string) : string := lstrip (rstrip s).

(** [[d for d in docs if p(d)]], where the test may raise. *)
Fixpoint filter_docs (p : gmap string value → result bool)
    (docs : list (gmap string value)) : result (list (gmap string value)) :=
  match docs with
  | [] => Ok []
  | d :: rest =>
      keep ← p d;
      kept ← filter_docs p rest;
      Ok (if keep : bool then d :: kept else kept)
  end.

(** [for doc in docs: ... items.append(...)], where [body] is the loop body:
    it raises, or yields the item to append, if any. *)
Fixpoint for_each {A : Type} (body : gmap string value → result (option A))
    (docs : list (gmap string value)) (items : list A) : result (list A) :=
  match docs with
  | [] => Ok items
  | doc :: rest =>
      match body doc with
      | Raise e => Raise e
      | Ok None => for_each body rest items
      | Ok (Some item) => for_each body rest (items ++ [item])
      end
  end.

(** ["2024" in d.get("published_date", "")] *)
Definition is_recent (d : gmap string value) : result bool :=
  py_in "2024" (dict_get d "published_date" (VStr "")).

(** [CybersecurityIntelligenceAgent._assess_threat_level] *)
Definition _assess_threat_level (documents : list (gmap string value)) : result string :=
  match documents with
  | [] => Ok "UNKNOWN"
  | _ :: _ =>
      recent ← filter_docs is_recent documents;
      let recent_docs := length recent in
      if (5 <=? recent_docs)%nat then Ok "HIGH"
      else if (2 <=? recent_docs)%nat then Ok "MEDIUM"
      else Ok "LOW"
  end.

(** [CybersecurityIntelligenceAgent._assess_vulnerability_severity] *)
Definition _assess_vulnerability_severity (nvd_docs : list (gmap string value))
    : result string :=
  match nvd_docs with
  | [] => Ok "UNKNOWN"
  | first :: _ =>
      let cvss_score := dict_get first "cvss_score" (VNum 0) in
      critical ← py_ge cvss_score 9.0;
      if critical : bool then Ok "CRITICAL" else
      high ← py_ge cvss_score 7.0;
      if high : bool then Ok "HIGH" else
      medium ← py_ge cvss_score 4.0;
      if medium : bool then Ok "MEDIUM" else Ok "LOW"
  end.

(** [CybersecurityIntelligenceAgent._calculate_priority] *)
Definition _calculate_priority (nvd_docs exploit_docs : list (gmap string value))
    : result string :=
  let cvss :=
    match nvd_docs with
    | first :: _ => dict_get first "cvss_score" (VNum 0)
    | [] => VNum 0
    end in
  let exploitation := bool_decide (0 < length exploit_docs)%nat in
  critical ← py_ge cvss 9.0;
  if critical && exploitation then Ok "EMERGENCY" else
  high ← py_ge cvss 7.0;
  if high && exploitation then Ok "HIGH" else
  high ← py_ge cvss 7.0;
  if high || exploitation then Ok "MEDIUM" else Ok "LOW".

(** [any(keyword in doc.get("content", "").lower() for keyword in
    critical_keywords)] *)
Definition mentions_critical (doc : gmap string value) : result bool :=
  lowered ← py_lower (dict_get doc "content" (VStr ""));
  Ok (Py.any_in ["critical"; "emergency"; "immediate"; "active exploitation"] lowered).

(** [CybersecurityIntelligenceAgent._assess_sector_risk] *)
Definition _assess_sector_risk (threat_docs : list (gmap string value)) : result string :=
  match threat_docs with
  | [] => Ok "LOW"
  | _ :: _ =>
      recent_threats ← filter_docs is_recent threat_docs;
      critical ← filter_docs mentions_critical recent_threats;
      let critical_count := length critical in
      if (3 <=? critical_count)%nat then Ok "CRITICAL"
      else if (1 <=? critical_count)%nat || (5 <=? length recent_threats)%nat then Ok "HIGH"
      else if (2 <=? length recent_threats)%nat then Ok "MEDIUM"
      else Ok "LOW"
  end.

Section Formatting.

(** How an f-string renders a number ([repr] of a float, digits of an
    int); the helpers below only splice the rendering into their text. *)
Variable str_of_number : Q → string.

(** [f"{v}"] *)
Definition py_str (v : value) : string :=
  match v with
  | VNone => "None"
  | VBool true => "True"
  | VBool false => "False"
  | VNum q => str_of_number q
  | VStr s => s
  end.

(** Body of the loop of [_extract_key_findings]. *)
Definition key_finding (doc : gmap string value) : result (option string) :=
  let content := dict_get doc "content" (VStr "") in
  if truthy content then
    pieces ← py_split_dot content;
    let first_sentence := default "" (head pieces) +:+ "." in
    source ← getitem doc "source";
    Ok (Some (py_str source +:+ ": " +:+ first_sentence))
  else Ok None.

(** [CybersecurityIntelligenceAgent._extract_key_findings] *)
Definition _extract_key_findings (documents : list (gmap string value))
    : result (list string) :=
  let findings := [] in
  for_each key_finding (take 5 documents) findings.

(** Body of the loop of [_generate_recommendations]; the inner loop stops at
    the first sentence that mentions a recommendation. *)
Definition recommendation (doc : gmap string value) : result (option string) :=
  let content := dict_get doc "content" (VStr "") in
  lowered ← py_lower content;
  if Py.contains "recommend" lowered then
    sentences ← py_split_dot content;
    match list_find (fun sentence => Py.contains "recommend" (Py.lower sentence) = true)
            sentences with
    | Some (_, sentence) => Ok (Some (strip sentence +:+ "."))
    | None => Ok None
    end
  else Ok None.

(** [CybersecurityIntelligenceAgent._generate_recommendations] *)
Definition _generate_recommendations (mitigation_docs : list (gmap string value))
    : result (list string) :=
  let recommendations := [] in
  for_each recommendation (take 3 mitigation_docs) recommendations.

(** Body of the loop of [_identify_sector_priorities]. *)
Definition sector_priority (doc : gmap string value) : result (option string) :=
  let content := dict_get doc "content" (VStr "") in
  let title := dict_get doc "title" (VStr "") in
  lowered_title ← py_lower title;
  if Py.contains "emergency" lowered_title then
    source ← getitem doc "source";
    Ok (Some ("URGENT: Review " +:+ py_str source +:+ " emergency guidance - "
              +:+ py_str title))
  else
    lowered_content ← py_lower content;
    if Py.contains "critical" lowered_content then
      source ← getitem doc "source";
      Ok (Some ("HIGH: Implement " +:+ py_str source +:+ " security recommendations"))
    else
      source ← getitem doc "source";
      Ok (Some ("MEDIUM: Monitor " +:+ py_str source +:+ " threat developments")).

(** [CybersecurityIntelligenceAgent._identify_sector_priorities] *)
Definition _identify_sector_priorities (threat_docs : list (gmap string value))
    : result (list string) :=
  let priorities := [] in
  for_each sector_priority (take 3 threat_docs) priorities.

End Formatting.

End BasicAgent.

(** ** The assessments, as read off the helpers *)

Module Assess.

(** The score the helpers read from the first document of a lookup. *)
Definition cvss_of (nvd_docs : list (gmap string value)) : value :=
  match nvd_docs with
  | first :: _ => dict_get first "cvss_score" (VNum 0)
  | [] => VNum 0
  end.

(** The document carries "2024" in a publication date that is a string. *)
Definition published_in_2024 (d : gmap string value) : bool :=
  match dict_get d "published_date" (VStr "") with
  | VStr date => Py.contains "2024" date
  | _ => false
  end.

(** The publication date is a string, or is missing. *)
Definition date_is_text (d : gmap string value) : Prop :=
  ∃ date, dict_get d "published_date" (VStr "") = VStr date.

(** The body is a string, or is missing. *)
Definition content_is_text (d : gmap string value) : Prop :=
  ∃ body, dict_get d "content" (VStr "") = VStr body.

(** The body is a string with one of the critical keywords, up to case. *)
Definition critical_wording (d : gmap string value) : bool :=
  match dict_get d "content" (VStr "") with
  | VStr body =>
      Py.any_in ["critical"; "emergency"; "immediate"; "active exploitation"]
        (Py.lower body)
  | _ => false
  end.

(** The body is a string that mentions a recommendation, up to case. *)
Definition recommends (d : gmap string value) : bool :=
  match dict_get d "content" (VStr "") with
  | VStr body => Py.contains "recommend" (Py.lower body)
  | _ => false
  end.

(** The text has no period. *)
Definition no_period (s : string) : Prop := Py.contains "." s = false.

End Assess.

(** Example documents of the basic agent. *)
Definition ransomware_doc : gmap string value :=
  {[ "id" := VStr "AA24-131A";
     "title" := VStr "CISA Analysis of Ransomware Trends and Tactics";
     "content" := VStr "Comprehensive analysis of ransomware trends. CISA Recommends offline backups.  Critical sectors first.";
     "source" := VStr "CISA";
     "published_date" := VStr "2024-05-10T00:00:00Z" ]}.

Definition undated_doc : gmap string value :=
  {[ "id" := VStr "FBI-0042";
     "title" := VStr "Emergency bulletin";
     "content" := VNone;
     "source" := VStr "FBI" ]}.

Definition guidance_doc : gmap string value :=
  {[ "content" :=
       VStr "Overview. Agencies should follow the Recommendations of CISA . Then report";
     "source" := VStr "NIST" ]}.

(** A rendering of numbers for the examples. *)
Definition str_of_number_example (q : Q) : string := "9.8".

(** * The MCP client ([mcp_client.py])

    [list_tools] and [call_tool].  The endpoint is a parameter: what
    [session.post] answers to a payload; so is [json.dumps].  A run of
    [call_tool] yields the payloads it posted and the content it returns. *)

Module McpClient.

(** A JSON value, as the arguments of a tool call and the payload hold
    them. *)
#[local] Unset Elimination Schemes.
Inductive json :=
| JNull
| JBool (b : bool)
| JNum (q : Q)
| JStr (s : string)
| JList (items : list json)
| JObject (fields : list (string * json)).
#[local] Set Elimination Schemes.

(** [bool(v)] *)
Definition truthy (v : json) : bool :=
  match v with
  | JNull => false
  | JBool b => b
  | JNum q => negb (Qeq_bool q 0)
  | JStr s => negb (bool_decide (s = ""))
  | JList [] => false
  | JList (_ :: _) => true
  | JObject [] => false
  | JObject (_ :: _) => true
  end.

(** [arguments.get(k, d)] *)
Definition get (arguments : gmap string json) (k : string) (d : json) : json :=
  default d (arguments !! k).

(** One property of an input schema. *)
Record Property := {
  property : string;
  type : string;
  description : string;
  default_value : option json;
  items : option string
}.

Record Tool := {
  name : string;
  tool_description : string;
  properties : list Property;
  required : list string
}.

(** The tools of [list_tools]. *)
Definition top_k_property : Property :=
  {| property := "top_k"; type := "integer";
     description := "Number of results to return (default: 5)";
     default_value := Some (JNum 5); items := None |}.

Definition semantic_search_tool : Tool :=
  {| name := "semantic_search";
     tool_description :=
       "Search across 11 U.S. government cybersecurity data sources using semantic similarity";
     properties :=
       [ {| property := "query"; type := "string";
            description := "Search query for cybersecurity intelligence";
            default_value := None; items := None |};
         top_k_property;
         {| property := "min_score"; type := "number";
            description := "Minimum similarity score (0.0-1.0, default: 0.6)";
            default_value := Some (JNum 0.6); items := None |};
         {| property := "sources"; type := "array";
            description :=
              "Specific sources to search: CISA, FBI, NIST, DHS, NSA, USCYBERCOM, White House, NVD, ICS-CERT, US-CERT, FedRAMP";
            default_value := None; items := Some "string" |} ];
     required := ["query"] |}.

Definition get_cve_details_tool : Tool :=
  {| name := "get_cve_details";
     tool_description :=
       "Get detailed information about specific CVE vulnerabilities from NIST NVD";
     properties :=
       [ {| property := "cve_id"; type := "string";
            description := "CVE identifier (e.g., CVE-2024-1234)";
            default_value := None; items := None |} ];
     required := ["cve_id"] |}.

Definition threat_intelligence_summary_tool : Tool :=
  {| name := "threat_intelligence_summary";
     tool_description :=
       "Get summarized threat intelligence for specific threats or attack patterns";
     properties :=
       [ {| property := "threat_type"; type := "string";
            description := "Type of threat (e.g., ransomware, APT, supply chain)";
            default_value := None; items := None |};
         {| property := "time_range"; type := "string";
            description :=
              "Time range for analysis (e.g., '30_days', '90_days', 'year')";
            default_value := Some (JStr "30_days"); items := None |} ];
     required := ["threat_type"] |}.

(** [list_tools] *)
Definition list_tools : list Tool :=
  [semantic_search_tool; get_cve_details_tool; threat_intelligence_summary_tool].

(** [types.TextContent] *)
Record TextContent := {
  content_type : string;
  text : string
}.

(** An HTTP response: its status, and what awaiting [response.json()] and
    [response.text()] gives, the message of the exception ([inl]) or the
    value ([inr]). *)
Record response := {
  status : Z;
  json_body : string + json;
  text_body : string + string
}.

(** What posting a payload gives: an exception, with its message, or a
    response. *)
Inductive reply :=
| Refused (message : string)
| Received (r : response).

Section CallTool.

(** [session.post(VERIDANO_ENDPOINT, json=payload)] *)
Variable post : gmap string json → reply.

(** [json.dumps(result, indent=2)] *)
Variable dumps : json → string.

(** The handler of [except Exception as e]. *)
Definition connection_error (message : string) : list TextContent :=
  [ {| content_type := "text";
       text := "Error connecting to Veridano: " +:+ message |} ].

(** The [async with session.post(...)] block, which is the same in the
    three branches of [call_tool]. *)
Definition request (payload : gmap string json)
    : list (gmap string json) * list TextContent :=
  ([payload],
   match post payload with
   | Refused message => connection_error message
   | Received response =>
       if bool_decide (status response = 200%Z) then
         match json_body response with
         | inr result => [ {| content_type := "text"; text := dumps result |} ]
         | inl message => connection_error message
         end
       else
         match text_body response with
         | inr error_text =>
             [ {| content_type := "text";
                  text := "Error " +:+ pretty (status response) +:+ ": " +:+ error_text |} ]
         | inl message => connection_error message
         end
   end).

(** The payload of each tool. *)
Definition semantic_search_payload (arguments : gmap string json) : gmap string json :=
  let query := get arguments "query" (JStr "") in
  let top_k := get arguments "top_k" (JNum 5) in
  let min_score := get arguments "min_score" (JNum 0.6) in
  let sources := get arguments "sources" (JList []) in
  let payload : gmap string json :=
    {[ "action" := JStr "semantic_search"; "query" := query;
       "top_k" := top_k; "min_score" := min_score ]} in
  if truthy sources then <[ "sources" := sources ]> payload else payload.

Definition get_cve_details_payload (arguments : gmap string json) : gmap string json :=
  let cve_id := get arguments "cve_id" (JStr "") in
  {[ "action" := JStr "get_cve_details"; "cve_id" := cve_id ]}.

Definition threat_intelligence_summary_payload (arguments : gmap string json)
    : gmap string json :=
  let threat_type := get arguments "threat_type" (JStr "") in
  let time_range := get arguments "time_range" (JStr "30_days") in
  {[ "action" := JStr "threat_intelligence_summary";
     "threat_type" := threat_type; "time_range" := time_range ]}.

(** [call_tool]: the payloads posted and the content returned. *)
Definition call_tool (tool : string) (arguments : gmap string json)
    : list (gmap string json) * list TextContent :=
  if bool_decide (tool = "semantic_search") then
    request (semantic_search_payload arguments)
  else if bool_decide (tool = "get_cve_details") then
    request (get_cve_details_payload arguments)
  else if bool_decide (tool = "threat_intelligence_summary") then
    request (threat_intelligence_summary_payload arguments)
  else
    ([], [ {| content_type := "text"; text := "Unknown tool: " +:+ tool |} ]).

End CallTool.

End McpClient.

(** An endpoint that answers every payload with a server error, and one
    that echoes the payload as a JSON answer. *)
Definition failing_endpoint (payload : gmap string McpClient.json) : McpClient.reply :=
  McpClient.Received {| McpClient.status := 503%Z;
                        McpClient.json_body := inl "not JSON";
                        McpClient.text_body := inr "Service Unavailable" |}.

Definition dumps_example (v : McpClient.json) : string := "{}".

Definition search_arguments : gmap string McpClient.json :=
  {[ "query" := McpClient.JStr "ransomware";
     "sources" := McpClient.JList [McpClient.JStr "CISA"];
     "action" := McpClient.JStr "delete_everything";
     "limit" := McpClient.JNum 100 ]}.
(** * Properties *)

(** ** Strings *)

Module PyFacts.

Lemma app_nil (b : string) : "" +:+ b = b.
Proof. reflexivity. Qed.

Lemma app_cons (x : ascii) (a b : string) : String x a +:+ b = String x (a +:+ b).
Proof. reflexivity. Qed.

Ltac str_simpl := repeat (rewrite ?app_nil, ?app_cons in *; simpl in *).

Lemma lower_app (a b : string) : Py.lower (a +:+ b) = Py.lower a +:+ Py.lower b.
Proof. induction a as [|x a IH]; str_simpl; [done | by f_equal]. Qed.

(** A split of [lower s] comes from a split of [s]. *)
Lemma lower_split (s a b : string) :
  Py.lower s = a +:+ b →
  ∃ a' b', s = a' +:+ b' ∧ Py.lower a' = a ∧ Py.lower b' = b.
Proof.
  revert s. induction a as [|x a IH]; intros s Hs.
  - exists "", s. done.
  - destruct s as [|c s]; str_simpl; [done |].
    injection Hs as Hc Hs. destruct (IH s Hs) as (a' & b' & -> & Ha & Hb).
    exists (String c a'), b'. str_simpl. by rewrite Hc, Ha.
Qed.

Lemma startswith_spec (p s : string) :
  Py.startswith p s = true ↔ ∃ rest, s = p +:+ rest.
Proof.
  revert s. induction p as [|a p IH]; intros s; simpl.
  - split; [intros _; by exists s | done].
  - destruct s as [|b s].
    + split; [done | intros [rest Hr]; done].
    + rewrite andb_true_iff, bool_decide_eq_true, IH. split.
      * intros [-> [rest ->]]. by exists rest.
      * intros [rest Hr]. rewrite app_cons in Hr. injection Hr as -> ->.
        split; [done | by exists rest].
Qed.

(** [sub in s] holds exactly when [s] is [pre + sub + post]. *)
Lemma contains_spec (sub s : string) :
  Py.contains sub s = true ↔ ∃ pre post, s = pre +:+ (sub +:+ post).
Proof.
  induction s as [|c s IH]; simpl; rewrite orb_true_iff, startswith_spec.
  - split.
    + intros [[rest Hr] | ?]; [| done]. by exists "", rest.
    + intros (pre & post & Hs). left. destruct pre; [by exists post | done].
  - rewrite IH. split.
    + intros [[rest Hr] | (pre & post & ->)].
      * by exists "", rest.
      * by exists (String c pre), post.
    + intros (pre & post & Hs). destruct pre as [|x pre].
      * left. by exists post.
      * right. rewrite app_cons in Hs. injection Hs as -> ->. by exists pre, post.
Qed.

(** [sub in s.lower()] holds exactly when some part of [s] is [sub] up to the
    case of its letters. *)
Lemma contains_lower_spec (sub s : string) :
  Py.contains sub (Py.lower s) = true ↔
  ∃ pre mid post, s = pre +:+ (mid +:+ post) ∧ Py.lower mid = sub.
Proof.
  rewrite contains_spec. split.
  - intros (pre & post & Hs).
    destruct (lower_split _ _ _ Hs) as (pre' & rest & -> & _ & Hrest).
    destruct (lower_split _ _ _ Hrest) as (mid & post' & -> & Hmid & _).
    by exists pre', mid, post'.
  - intros (pre & mid & post & -> & <-).
    exists (Py.lower pre), (Py.lower post). by rewrite !lower_app.
Qed.

Lemma slice_to_short (n : nat) (s : string) :
  (String.length s ≤ n)%nat → Py.slice_to n s = s.
Proof.
  revert s. induction n as [|n IH]; intros [|c s]; simpl; try done; [lia |].
  intros Hn. rewrite IH; [done | lia].
Qed.

Lemma slice_to_length (n : nat) (s : string) :
  String.length (Py.slice_to n s) = (n `min` String.length s)%nat.
Proof.
  revert s. induction n as [|n IH]; intros [|c s]; simpl; try done.
  by rewrite IH.
Qed.

Lemma slice_to_prefix (n : nat) (s : string) :
  ∃ rest, s = Py.slice_to n s +:+ rest.
Proof.
  revert s. induction n as [|n IH]; intros s; simpl; [by exists s |].
  destruct s as [|c s]; [by exists "" |].
  destruct (IH s) as [rest Hr]. exists rest. rewrite app_cons. by rewrite <- Hr.
Qed.

End PyFacts.

(** ** Classification *)

Section Classification.

Implicit Types (doc : gmap string value) (alert : ThreatAlert).

#[local] Arguments Py.any_in : simpl never.
#[local] Arguments Py.contains : simpl never.

Lemma getitem_Some doc k v : doc !! k = Some v → getitem doc k = Ok v.
Proof. unfold getitem. by intros ->. Qed.

Lemma getitem_Ok doc k v : getitem doc k = Ok v → doc !! k = Some v.
Proof. unfold getitem. destruct (doc !! k); [congruence | done]. Qed.

(** On a finding, [ThreatAlert(...)] is built, with the fields of the
    document. *)
Lemma make_alert_finding doc sev cvss action :
  is_finding doc → ∃ alert, make_alert doc sev cvss action = Ok alert.
Proof.
  intros ([i Hi] & [t Ht] & [s Hs] & [p Hp] & [b Hb]).
  unfold make_alert.
  rewrite (getitem_Some _ _ _ Hi), (getitem_Some _ _ _ Ht),
    (getitem_Some _ _ _ Hs), (getitem_Some _ _ _ Hp), (getitem_Some _ _ _ Hb).
  simpl. eauto.
Qed.

Lemma make_alert_fields doc sev cvss action alert :
  make_alert doc sev cvss action = Ok alert →
  Alert.severity alert = sev ∧ Alert.cvss_score alert = cvss ∧
  Alert.recommended_action alert = action ∧
  doc !! "id" = Some (Alert.id alert) ∧
  doc !! "title" = Some (Alert.title alert) ∧
  doc !! "source" = Some (Alert.source alert) ∧
  doc !! "published_date" = Some (Alert.published_date alert) ∧
  ∃ body, doc !! "content" = Some (VStr body) ∧
          Alert.summary alert = VStr (Py.slice_to 200 body +:+ "...").
Proof.
  unfold make_alert.
  destruct (getitem doc "id") as [i|] eqn:Hi; [|done].
  destruct (getitem doc "title") as [t|] eqn:Ht; [|done].
  destruct (getitem doc "source") as [s|] eqn:Hs; [|done].
  destruct (getitem doc "published_date") as [p|] eqn:Hp; [|done].
  destruct (getitem doc "content") as [c|] eqn:Hc; [|done].
  destruct c as [| | |body]; simpl; try done.
  intros [= <-]. simpl.
  repeat split; try by apply getitem_Ok.
  exists body. split; [by apply getitem_Ok | done].
Qed.

(** A loop body that yields an alert built it with [make_alert]. *)
Lemma classify_make_alert self category doc alert :
  classify self category doc = Ok (Some alert) →
  ∃ sev cvss action, make_alert doc sev cvss action = Ok alert.
Proof.
  destruct category; simpl.
  - unfold critical_vulnerability_doc.
    destruct (py_ge _ _) as [[|]|]; simpl; try done.
    destruct (make_alert _ _ _ _) as [a|] eqn:Ha; simpl; [|done].
    intros [= <-]. eauto.
  - unfold emergency_directive_doc.
    destruct (getitem doc "title") as [t|]; simpl; [|done].
    destruct (py_lower t) as [l|]; simpl; [|done].
    destruct (Py.contains _ _); [|done].
    destruct (make_alert _ _ _ _) as [a|] eqn:Ha; simpl; [|done].
    intros [= <-]. eauto.
  - unfold apt_activity_doc.
    destruct (getitem doc "content") as [t|]; simpl; [|done].
    destruct (py_lower t) as [l|]; simpl; [|done].
    destruct (Py.any_in _ _); [|done].
    destruct (make_alert _ _ _ _) as [a|] eqn:Ha; simpl; [|done].
    intros [= <-]. eauto.
  - unfold zeroday_activity_doc.
    destruct (getitem doc "content") as [t|]; simpl; [|done].
    destruct (py_lower t) as [l|]; simpl; [|done].
    destruct (Py.contains _ _); [|done].
    destruct (make_alert _ _ _ _) as [a|] eqn:Ha; simpl; [|done].
    intros [= <-]. eauto.
  - unfold infrastructure_threat_doc.
    destruct (getitem doc "content") as [t|]; simpl; [|done].
    destruct (py_lower t) as [l|]; simpl; [|done].
    destruct (Py.any_in _ _); [|done].
    destruct (make_alert _ _ _ _) as [a|] eqn:Ha; simpl; [|done].
    intros [= <-]. eauto.
Qed.

(** The loop of a check, when no document makes the body raise: the alerts
    of the qualifying documents, in the order of the documents. *)
Lemma for_documents_total body (docs : list (gmap string value)) alerts :
  Forall (fun doc => ∃ o, body doc = Ok o) docs →
  for_documents body docs alerts =
  Ok (alerts ++ omap (fun doc => match body doc with Ok o => o | Raise _ => None end) docs).
Proof.
  intros Hdocs. revert alerts.
  induction Hdocs as [|doc docs [o Ho] _ IH]; intros alerts; simpl.
  - by rewrite app_nil_r.
  - rewrite Ho. destruct o as [alert|]; rewrite IH; [|done].
    by rewrite <- app_assoc.
Qed.

(** A document that makes the body raise ends the loop with its exception,
    whatever was collected before it. *)
Lemma for_documents_raise body (before after : list (gmap string value)) doc e alerts :
  Forall (fun doc => ∃ o, body doc = Ok o) before →
  body doc = Raise e →
  for_documents body (before ++ doc :: after) alerts = Raise e.
Proof.
  intros Hbefore He. revert alerts.
  induction Hbefore as [|d ds [o Ho] _ IH]; intros alerts; simpl.
  - by rewrite He.
  - rewrite Ho. destruct o; apply IH.
Qed.

(** On findings the loop bodies of the emergency-directive and of the
    critical-vulnerability checks raise nothing. *)
Lemma emergency_directive_doc_total doc :
  is_finding doc → ∃ o, emergency_directive_doc doc = Ok o.
Proof.
  intros Hdoc. pose proof Hdoc as (_ & [t Ht] & _).
  unfold emergency_directive_doc. rewrite (getitem_Some _ _ _ Ht). simpl.
  destruct (Py.contains _ _); [|eauto].
  destruct (make_alert_finding doc "EMERGENCY" (VNum 10.0)
              "COMPLY immediately - Federal mandate" Hdoc) as [a ->].
  simpl. eauto.
Qed.

Lemma critical_vulnerability_doc_total self doc :
  is_finding doc →
  doc !! "cvss_score" = None ∨ (∃ q, doc !! "cvss_score" = Some (VNum q)) →
  ∃ o, critical_vulnerability_doc self doc = Ok o.
Proof.
  intros Hdoc Hscore. unfold critical_vulnerability_doc, dict_get, py_ge.
  assert (Hnum : ∃ q, default (VNum 0) (doc !! "cvss_score") = VNum q).
  { destruct Hscore as [-> | [q ->]]; simpl; eauto. }
  destruct Hnum as [q Hq]. rewrite Hq. simpl.
  destruct (Qle_bool _ _); [|eauto].
  destruct (make_alert_finding doc "CRITICAL" (VNum q)
              "IMMEDIATE patching required" Hdoc) as [a ->].
  simpl. eauto.
Qed.

End Classification.

(** ** The classification rules *)

Section Rules.

Implicit Types (doc : gmap string value) (alert : ThreatAlert).

#[local] Arguments Py.any_in : simpl never.
#[local] Arguments Py.contains : simpl never.

(** C5. Under the emergency-directive check a finding yields an alert
    exactly when its title contains "emergency" up to case; the alert has
    severity EMERGENCY and score 10.0, whatever score the finding carries. *)
Theorem emergency_directive_rule doc title :
  is_finding doc →
  doc !! "title" = Some (VStr title) →
  ((∃ alert, emergency_directive_doc doc = Ok (Some alert)) ↔
   contains_ignoring_case "emergency" title) ∧
  (¬ contains_ignoring_case "emergency" title → emergency_directive_doc doc = Ok None) ∧
  (∀ alert, emergency_directive_doc doc = Ok (Some alert) →
     Alert.severity alert = "EMERGENCY" ∧ Alert.cvss_score alert = VNum 10.0).
Proof.
  intros Hdoc Htitle. unfold emergency_directive_doc, contains_ignoring_case.
  rewrite (getitem_Some _ _ _ Htitle). simpl.
  rewrite <- PyFacts.contains_lower_spec.
  destruct (make_alert_finding doc "EMERGENCY" (VNum 10.0)
              "COMPLY immediately - Federal mandate" Hdoc) as [a Ha].
  destruct (Py.contains "emergency" (Py.lower title)) eqn:Hc.
  - rewrite Ha. simpl. split_and!.
    + split; [done | by exists a].
    + intros Hn. by destruct Hn.
    + intros alert [= <-]. by destruct (make_alert_fields _ _ _ _ _ Ha) as (? & ? & _).
  - split_and!; [| done | done].
    split; [by intros [? ?] | done].
Qed.

Lemma emergency_directive_rule_witness :
  (∃ alert, emergency_directive_doc directive_doc = Ok (Some alert)) ↔
  contains_ignoring_case "emergency" "CISA Emergency Directive 24-02".
Proof.
  assert (Hf : is_finding directive_doc).
  { repeat split; eexists; reflexivity. }
  exact (proj1 (emergency_directive_rule directive_doc
                  "CISA Emergency Directive 24-02" Hf eq_refl)).
Defined.

(** The scenario of the design document for an emergency directive. *)
Example emergency_directive_scenario :
  emergency_directive_doc directive_doc =
  Ok (Some (Alert.mk (VStr "X-1") (VStr "CISA Emergency Directive 24-02") (VStr "CISA")
              "EMERGENCY" (VNum 10.0) (VStr "2024-01-19T00:00:00")
              (VStr "Patch now...") "COMPLY immediately - Federal mandate")).
Proof. reflexivity. Qed.

(** C6. Under the critical-vulnerability check a finding with a numeric
    score yields an alert exactly when the score is at least 9.0; the alert
    has severity CRITICAL, the score of the finding and the action
    "IMMEDIATE patching required". *)
Theorem critical_vulnerability_rule self doc score :
  critical_cvss_threshold self = 9.0%Q →
  is_finding doc →
  doc !! "cvss_score" = Some (VNum score) →
  ((∃ alert, critical_vulnerability_doc self doc = Ok (Some alert)) ↔
   (9.0 <= score)%Q) ∧
  (¬ (9.0 <= score)%Q → critical_vulnerability_doc self doc = Ok None) ∧
  (∀ alert, critical_vulnerability_doc self doc = Ok (Some alert) →
     Alert.severity alert = "CRITICAL" ∧
     Alert.cvss_score alert = VNum score ∧
     Alert.recommended_action alert = "IMMEDIATE patching required").
Proof.
  intros Hthr Hdoc Hscore. unfold critical_vulnerability_doc, dict_get, py_ge.
  rewrite Hthr, Hscore. simpl.
  rewrite <- Qle_bool_iff.
  destruct (make_alert_finding doc "CRITICAL" (VNum score)
              "IMMEDIATE patching required" Hdoc) as [a Ha].
  destruct (Qle_bool 9.0 score) eqn:Hq.
  - rewrite Ha. simpl. split_and!.
    + split; [done | by exists a].
    + intros Hn. by destruct Hn.
    + intros alert [= <-]. by destruct (make_alert_fields _ _ _ _ _ Ha) as (? & ? & ? & _).
  - split_and!; [| done | done].
    split; [by intros [? ?] | done].
Qed.

Lemma critical_vulnerability_rule_witness :
  (∃ alert, critical_vulnerability_doc (__init__ 0) cve_doc = Ok (Some alert)) ↔
  (9.0 <= 9.8)%Q.
Proof.
  assert (Hf : is_finding cve_doc).
  { repeat split; eexists; reflexivity. }
  exact (proj1 (critical_vulnerability_rule (__init__ 0) cve_doc 9.8%Q eq_refl Hf eq_refl)).
Defined.

(** The scenario of the design document for a critical vulnerability. *)
Example critical_vulnerability_scenario :
  critical_vulnerability_doc (__init__ 0) cve_doc =
  Ok (Some (Alert.mk (VStr "CVE-2024-38063") (VStr "Windows TCP/IP RCE") (VStr "NVD")
              "CRITICAL" (VNum 9.8) (VStr "2024-08-13T00:00:00")
              (VStr "Remote code execution in the TCP/IP stack...")
              "IMMEDIATE patching required")).
Proof. reflexivity. Qed.

(** C10, as the check has it.  A document without a [cvss_score] key is
    given the score 0 by the critical-vulnerability check: whatever positive
    threshold the monitor has (9.0 as built), the document yields no alert
    and raises nothing, and the loop goes on with the next document.  A
    document whose [cvss_score] key is present and holds [null] or a string
    has no numeric score either, and is not given the score 0: the comparison
    with the threshold raises [TypeError], which ends the loop of the check
    at that document, whatever the documents before it yielded. *)
Theorem missing_cvss_score_is_zero self doc :
  (0 < critical_cvss_threshold self)%Q →
  (doc !! "cvss_score" = None →
   dict_get doc "cvss_score" (VNum 0) = VNum 0 ∧
   critical_vulnerability_doc self doc = Ok None ∧
   ∀ docs alerts,
     for_documents (critical_vulnerability_doc self) (doc :: docs) alerts =
     for_documents (critical_vulnerability_doc self) docs alerts) ∧
  (doc !! "cvss_score" = Some VNone ∨ (∃ s, doc !! "cvss_score" = Some (VStr s)) →
   dict_get doc "cvss_score" (VNum 0) ≠ VNum 0 ∧
   critical_vulnerability_doc self doc = Raise TypeError ∧
   ∀ docs alerts,
     for_documents (critical_vulnerability_doc self) (doc :: docs) alerts =
     Raise TypeError).
Proof.
  intros Hthr. split.
  - intros Hnone.
    assert (Hbody : critical_vulnerability_doc self doc = Ok None).
    { unfold critical_vulnerability_doc, dict_get, py_ge. rewrite Hnone. simpl.
      destruct (Qle_bool (critical_cvss_threshold self) 0) eqn:Hle; [|done].
      apply Qle_bool_iff in Hle. by destruct (Qlt_not_le _ _ Hthr). }
    split_and!; [by unfold dict_get; rewrite Hnone | done |].
    intros docs alerts. simpl. by rewrite Hbody.
  - intros Hpresent.
    assert (Hbody : critical_vulnerability_doc self doc = Raise TypeError).
    { unfold critical_vulnerability_doc, dict_get, py_ge.
      by destruct Hpresent as [-> | [s ->]]. }
    split_and!; [| done |].
    + unfold dict_get. by destruct Hpresent as [-> | [s ->]].
    + intros docs alerts. simpl. by rewrite Hbody.
Qed.

Lemma missing_cvss_score_is_zero_witness :
  critical_vulnerability_doc (__init__ 0) directive_doc = Ok None ∧
  critical_vulnerability_doc (__init__ 0) text_score_doc = Raise TypeError.
Proof.
  split.
  - refine (proj1 (proj2 (proj1
      (missing_cvss_score_is_zero (__init__ 0) directive_doc _) _))).
    + reflexivity.
    + reflexivity.
  - refine (proj1 (proj2 (proj2
      (missing_cvss_score_is_zero (__init__ 0) text_score_doc _) _))).
    + reflexivity.
    + right. exists "9.8". reflexivity.
Defined.

(** C10, as the design document words it, fails.  A document whose
    [cvss_score] is [null], or a string, lacks a numeric score, yet the check
    does not treat its score as 0: the comparison with the threshold raises
    [TypeError].  The exception ends the critical-vulnerability check before
    the vulnerability of score 9.8 that follows is looked at, and ends the
    cycle, which hands nothing to the callback. *)
Lemma non_numeric_cvss_score_raises :
  (∀ q, null_score_doc !! "cvss_score" ≠ Some (VNum q)) ∧
  (∀ q, text_score_doc !! "cvss_score" ≠ Some (VNum q)) ∧
  critical_vulnerability_doc (__init__ 0) null_score_doc = Raise TypeError ∧
  critical_vulnerability_doc (__init__ 0) text_score_doc = Raise TypeError ∧
  _check_critical_vulnerabilities null_score_search (__init__ 0) 0 = Raise TypeError ∧
  _monitoring_cycle _ null_score_search (recording _default_alert_handler)
    fresh_recording_world = (fresh_recording_world, [], Raise TypeError).
Proof.
  split; [by intros q |]. split; [by intros q |].
  split; [reflexivity |]. split; [reflexivity |].
  split; vm_compute; reflexivity.
Qed.

End Rules.

(** ** The summary of an alert *)

(** C3, as the checks have it.  Whatever the category, the summary of
    an alert is the first 200 characters of the body followed by the marker
    "...": as specified for a body of more than 200 characters, and the whole
    body followed by the marker for a shorter one. *)
Theorem summary_always_marked (self : VeridanoThreatMonitor) (category : Category)
    (doc : gmap string value) (alert : ThreatAlert) :
  classify self category doc = Ok (Some alert) →
  ∃ body,
    doc !! "content" = Some (VStr body) ∧
    Alert.summary alert = VStr (Py.slice_to 200 body +:+ "...") ∧
    String.length (Py.slice_to 200 body) = (200 `min` String.length body)%nat ∧
    (∃ rest, body = Py.slice_to 200 body +:+ rest) ∧
    ((200 < String.length body)%nat →
     Alert.summary alert = VStr (summary_as_specified body)) ∧
    ((String.length body ≤ 200)%nat → Alert.summary alert = VStr (body +:+ "...")).
Proof.
  intros Hc. destruct (classify_make_alert _ _ _ _ Hc) as (sev & cvss & action & Ha).
  destruct (make_alert_fields _ _ _ _ _ Ha) as (_ & _ & _ & _ & _ & _ & _ & body & Hb & Hs).
  exists body. split_and!; [done | done | | | |].
  - apply PyFacts.slice_to_length.
  - apply PyFacts.slice_to_prefix.
  - intros Hlong. rewrite Hs. unfold summary_as_specified.
    by rewrite (proj2 (Nat.ltb_lt _ _) Hlong).
  - intros Hshort. by rewrite Hs, PyFacts.slice_to_short.
Qed.

Lemma summary_always_marked_witness :
  ∃ body,
    directive_doc !! "content" = Some (VStr body) ∧
    Alert.summary (Alert.mk (VStr "X-1") (VStr "CISA Emergency Directive 24-02")
       (VStr "CISA") "EMERGENCY" (VNum 10.0) (VStr "2024-01-19T00:00:00")
       (VStr "Patch now...") "COMPLY immediately - Federal mandate")
    = VStr (Py.slice_to 200 body +:+ "...").
Proof.
  destruct (summary_always_marked (__init__ 0) emergency_directive directive_doc _ eq_refl)
    as (body & Hb & Hs & _).
  exists body. by split.
Defined.

(** C3, as the design document words it, fails on a short body: the
    emergency directive whose body is "Patch now" gets the summary
    "Patch now...", not the body as it is. *)
Lemma short_body_summary_is_marked :
  ∃ alert,
    classify (__init__ 0) emergency_directive directive_doc = Ok (Some alert) ∧
    directive_doc !! "content" = Some (VStr "Patch now") ∧
    (String.length "Patch now" ≤ 200)%nat ∧
    Alert.summary alert = VStr "Patch now..." ∧
    Alert.summary alert ≠ VStr (summary_as_specified "Patch now").
Proof.
  eexists. split; [reflexivity |]. split; [reflexivity |].
  split; [simpl; lia |]. split; [reflexivity |]. discriminate.
Qed.

(** ** The default alert handler *)

Section Sorting.

Context {A : Type} (key : A → nat).

Lemma insert_by_perm (x : A) (l : list A) : insert_by key x l ≡ₚ x :: l.
Proof.
  induction l as [|y l IH]; simpl; [done |].
  destruct (key x <=? key y)%nat; [done |].
  by rewrite IH, Permutation_swap.
Qed.

Lemma sorted_perm (l : list A) : sorted key l ≡ₚ l.
Proof.
  induction l as [|x l IH]; simpl; [done |].
  by rewrite insert_by_perm, IH.
Qed.

Lemma insert_by_sorted (x : A) (l : list A) :
  StronglySorted (fun a b => key a ≤ key b)%nat l →
  StronglySorted (fun a b => key a ≤ key b)%nat (insert_by key x l).
Proof.
  induction 1 as [|y l Hl IH Hy]; simpl.
  - repeat constructor.
  - destruct (key x <=? key y)%nat eqn:Hxy.
    + apply Nat.leb_le in Hxy. constructor; [by constructor |].
      constructor; [done |]. eapply Forall_impl; [exact Hy |].
      intros z Hz. simpl in Hz. lia.
    + apply Nat.leb_gt in Hxy. constructor; [done |].
      rewrite insert_by_perm. constructor; [lia | done].
Qed.

Lemma sorted_sorted (l : list A) :
  StronglySorted (fun a b => key a ≤ key b)%nat (sorted key l).
Proof.
  induction l as [|x l IH]; simpl; [constructor | by apply insert_by_sorted].
Qed.

(** The elements of one key keep the order they had. *)
Lemma insert_by_stable (k : nat) (x : A) (l : list A) :
  filter (fun a => key a = k) (insert_by key x l) =
  filter (fun a => key a = k) (x :: l).
Proof.
  induction l as [|y l IH]; simpl; [done |].
  destruct (key x <=? key y)%nat eqn:Hxy; [done |].
  apply Nat.leb_gt in Hxy.
  rewrite !filter_cons in *. rewrite IH.
  repeat case_decide; try done; lia.
Qed.

Lemma sorted_stable (k : nat) (l : list A) :
  filter (fun a => key a = k) (sorted key l) = filter (fun a => key a = k) l.
Proof.
  induction l as [|x l IH]; simpl; [done |].
  rewrite insert_by_stable, !filter_cons, IH. done.
Qed.

End Sorting.

Lemma shown_imap (l : list ThreatAlert) :
  shown (imap (fun i alert => Shown (S i) alert) l) = l.
Proof.
  unfold shown.
  assert (Hgen : ∀ f : nat → nat,
    omap (fun ev => match ev with Shown _ alert => Some alert | _ => None end)
         (imap (fun i alert => Shown (f i) alert) l) = l).
  { induction l as [|a l IH]; intros f; simpl; [done |]. f_equal. apply (IH (f ∘ S)). }
  apply (Hgen S).
Qed.

(** C4, as the handler has it.  The default alert handler lists a batch
    by severity alone, EMERGENCY first, then CRITICAL, HIGH, MEDIUM and LOW:
    the listing is a rearrangement of the batch in which severities never
    decrease in rank, and alerts of one severity keep the order they had in
    the batch, whatever their scores.  A batch of severities HIGH, EMERGENCY,
    LOW, CRITICAL is listed as EMERGENCY, CRITICAL, HIGH, LOW. *)
Theorem default_handler_sorts_by_severity {H : Type} (h : H)
    (alerts : list ThreatAlert) (a b c d : ThreatAlert) :
  Alert.severity a = "HIGH" →
  Alert.severity b = "EMERGENCY" →
  Alert.severity c = "LOW" →
  Alert.severity d = "CRITICAL" →
  let listed l := shown (_default_alert_handler h l).1.2 in
  listed alerts ≡ₚ alerts ∧
  StronglySorted severity_le (listed alerts) ∧
  (∀ k, filter (fun x => severity_key x = k) (listed alerts) =
        filter (fun x => severity_key x = k) alerts) ∧
  (severity_order !! "EMERGENCY" = Some 0 ∧ severity_order !! "CRITICAL" = Some 1 ∧
   severity_order !! "HIGH" = Some 2 ∧ severity_order !! "MEDIUM" = Some 3 ∧
   severity_order !! "LOW" = Some 4)%nat ∧
  listed [a; b; c; d] = [b; d; a; c].
Proof.
  intros Ha Hb Hc Hd listed.
  assert (Hl : ∀ l, listed l = sorted severity_key l).
  { intros l. unfold listed, _default_alert_handler. simpl. apply shown_imap. }
  rewrite !Hl. split_and!; try done.
  - apply sorted_perm.
  - apply sorted_sorted.
  - intros k. apply sorted_stable.
  - assert (Ka : severity_key a = 2%nat) by (unfold severity_key; by rewrite Ha).
    assert (Kb : severity_key b = 0%nat) by (unfold severity_key; by rewrite Hb).
    assert (Kc : severity_key c = 4%nat) by (unfold severity_key; by rewrite Hc).
    assert (Kd : severity_key d = 1%nat) by (unfold severity_key; by rewrite Hd).
    unfold sorted. cbn [foldr insert_by].
    repeat (rewrite ?Ka, ?Kb, ?Kc, ?Kd; cbn [Nat.leb insert_by]). done.
Qed.

Lemma default_handler_sorts_by_severity_witness :
  shown (_default_alert_handler () sample_batch).1.2 =
  [sample_alert "A-2" "EMERGENCY" 10.0; sample_alert "A-4" "CRITICAL" 9.5;
   sample_alert "A-1" "HIGH" 8.0; sample_alert "A-3" "LOW" 2.0].
Proof.
  exact (proj2 (proj2 (proj2 (proj2
    (default_handler_sorts_by_severity () sample_batch
       (sample_alert "A-1" "HIGH" 8.0) (sample_alert "A-2" "EMERGENCY" 10.0)
       (sample_alert "A-3" "LOW" 2.0) (sample_alert "A-4" "CRITICAL" 9.5)
       eq_refl eq_refl eq_refl eq_refl))))).
Defined.

(** C4, as the design document words it, fails.  A cycle that finds a
    critical vulnerability of score 9.1 and a zero-day report (score 9.5)
    hands both alerts, of severity CRITICAL, to the default handler, which
    lists the one of score 9.1 first. *)
Lemma equal_severity_listed_in_batch_order :
  ∃ a b,
    shown (sink_events
      (_monitoring_cycle () two_criticals_search _default_alert_handler fresh_world).1.2)
    = [a; b] ∧
    Alert.severity a = "CRITICAL" ∧ Alert.severity b = "CRITICAL" ∧
    Alert.cvss_score a = VNum 9.1 ∧ Alert.cvss_score b = VNum 9.5 ∧
    ¬ dispatch_order_as_specified a b.
Proof.
  eexists _, _. split; [vm_compute; reflexivity |].
  split; [reflexivity |]. split; [reflexivity |].
  split; [reflexivity |]. split; [reflexivity |].
  intros [Hlt | [_ Hle]].
  - vm_compute in Hlt. lia.
  - vm_compute in Hle. by apply Hle.
Qed.

(** ** The monitoring cycle *)

Section Cycle.

#[local] Open Scope Z_scope.

Variable H : Type.
Variable search : Z → string → list string → string → result response.
Variable alert_callback : H → list ThreatAlert → H * list sink_event * result unit.

Let cycle := _monitoring_cycle H search alert_callback.
Let turn := loop_body H search alert_callback.
Let loop := monitoring_loop H search alert_callback.
Let start := start_monitoring H search alert_callback.
Let collect := collect_alerts search.

Implicit Types (w : world H) (e : exn).

Lemma dispatched_sink (evs : list sink_event) : dispatched (map Sink evs) = [].
Proof. induction evs as [|ev evs IH]; simpl; [done | exact IH]. Qed.

(** The three ways a cycle ends. *)
Lemma cycle_raise w e :
  collect (self w) (clock w) = Raise e → cycle w = (w, [], Raise e).
Proof. unfold cycle, _monitoring_cycle, collect. by intros ->. Qed.

Lemma cycle_no_alerts w :
  collect (self w) (clock w) = Ok [] →
  cycle w = (set_last_check H w, [NoThreats], Ok ()).
Proof. unfold cycle, _monitoring_cycle, collect. by intros ->. Qed.

Lemma cycle_alerts w alert alerts :
  collect (self w) (clock w) = Ok (alert :: alerts) →
  ∃ h evs r,
    alert_callback (sink w) (alert :: alerts) = (h, evs, r) ∧
    (cycle w).1.2 = Dispatch (alert :: alerts) :: map Sink evs.
Proof.
  unfold cycle, _monitoring_cycle, collect. intros ->.
  destruct (alert_callback _ _) as [[h evs] r]. exists h, evs, r.
  split; [done |]. by destruct r.
Qed.

(** A cycle touches neither the running flag, nor the thresholds, nor the
    clock. *)
Lemma cycle_preserves w :
  monitoring_active (self (cycle w).1.1) = monitoring_active (self w) ∧
  critical_cvss_threshold (self (cycle w).1.1) = critical_cvss_threshold (self w) ∧
  clock (cycle w).1.1 = clock w.
Proof.
  unfold cycle, _monitoring_cycle.
  destruct (collect_alerts _ _ _) as [[|a l]|]; simpl; try done.
  destruct (alert_callback _ _) as [[h evs] r]. by destruct r.
Qed.



(** The two checks with a rule on the finding itself, on an answer made
    of findings: the alerts of the qualifying documents, in the order of the
    answer. *)
Lemma check_emergency_directives_findings now results docs :
  search now "emergency directive immediate action required"
    ["CISA"; "DHS"] "last_48_hours" = Ok results →
  documents results = Some docs →
  Forall is_finding docs →
  _check_emergency_directives search now =
  Ok (omap (fun doc => match emergency_directive_doc doc with
                       | Ok o => o
                       | Raise _ => None
                       end) docs).
Proof.
  intros Hs Hd Hdocs. unfold _check_emergency_directives. rewrite Hs. simpl.
  rewrite Hd. simpl. rewrite for_documents_total; [done |].
  eapply Forall_impl; [exact Hdocs |]. apply emergency_directive_doc_total.
Qed.

Lemma check_critical_vulnerabilities_findings (monitor : VeridanoThreatMonitor)
    now results docs :
  search now "critical vulnerability CVSS score 9.0"
    ["NVD"; "CISA"; "US-CERT"] "last_24_hours" = Ok results →
  documents results = Some docs →
  Forall (fun doc => is_finding doc ∧
            (doc !! "cvss_score" = None ∨ ∃ q, doc !! "cvss_score" = Some (VNum q)))
         docs →
  _check_critical_vulnerabilities search monitor now =
  Ok (omap (fun doc => match critical_vulnerability_doc monitor doc with
                       | Ok o => o
                       | Raise _ => None
                       end) docs).
Proof.
  intros Hs Hd Hdocs. unfold _check_critical_vulnerabilities. rewrite Hs. simpl.
  rewrite Hd. simpl. rewrite for_documents_total; [done |].
  eapply Forall_impl; [exact Hdocs |].
  intros doc [Hf Hscore]. by apply critical_vulnerability_doc_total.
Qed.

(** The batches a cycle hands to the callback. *)
Lemma cycle_dispatched w :
  dispatched (cycle w).1.2 =
    match collect (self w) (clock w) with
    | Ok (alert :: alerts) => [alert :: alerts]
    | _ => []
    end.
Proof.
  destruct (collect (self w) (clock w)) as [[|alert alerts]|e] eqn:Hc.
  - by rewrite (cycle_no_alerts _ Hc).
  - destruct (cycle_alerts _ _ _ Hc) as (h & evs & r & _ & ->). simpl.
    by rewrite dispatched_sink.
  - by rewrite (cycle_raise _ _ Hc).
Qed.

(** The five checks all return exactly when the collection of the cycle
    does, and the batch is then what they returned, in their order. *)
Lemma collect_alerts_checks (monitor : VeridanoThreatMonitor) now alerts :
  collect monitor now = Ok alerts ↔
  ∃ c em ap z i,
    _check_critical_vulnerabilities search monitor now = Ok c ∧
    _check_emergency_directives search now = Ok em ∧
    _check_apt_activity search now = Ok ap ∧
    _check_zeroday_activity search now = Ok z ∧
    _check_infrastructure_threats search now = Ok i ∧
    alerts = c ++ em ++ ap ++ z ++ i.
Proof.
  unfold collect, collect_alerts. split.
  - destruct (_check_critical_vulnerabilities _ _ _) as [c|]; simpl; [|done].
    destruct (_check_emergency_directives _ _) as [em|]; simpl; [|done].
    destruct (_check_apt_activity _ _) as [ap|]; simpl; [|done].
    destruct (_check_zeroday_activity _ _) as [z|]; simpl; [|done].
    destruct (_check_infrastructure_threats _ _) as [i|]; simpl; [|done].
    intros [= <-]. exists c, em, ap, z, i. by rewrite <- !app_assoc.
  - intros (c & em & ap & z & i & -> & -> & -> & -> & -> & ->). simpl.
    by rewrite <- !app_assoc.
Qed.

(** When one of the five checks raises, so does the collection. *)
Lemma collect_alerts_failure (monitor : VeridanoThreatMonitor) now e :
  _check_critical_vulnerabilities search monitor now = Raise e ∨
  _check_emergency_directives search now = Raise e ∨
  _check_apt_activity search now = Raise e ∨
  _check_zeroday_activity search now = Raise e ∨
  _check_infrastructure_threats search now = Raise e →
  ∃ e', collect monitor now = Raise e'.
Proof.
  intros Hfail. unfold collect, collect_alerts.
  destruct (_check_critical_vulnerabilities _ _ _) as [c|e1]; simpl; [|eauto].
  destruct (_check_emergency_directives _ _) as [em|e2]; simpl; [|eauto].
  destruct (_check_apt_activity _ _) as [ap|e3]; simpl; [|eauto].
  destruct (_check_zeroday_activity _ _) as [z|e4]; simpl; [|eauto].
  destruct (_check_infrastructure_threats _ _) as [i|e5]; simpl; [|eauto].
  by destruct Hfail as [?|[?|[?|[?|?]]]].
Qed.

(** C9, as the cycle has it.  The cycle is run with the callback under
    observation, whatever the callback is.  The callback is called exactly
    once in the cycle if and only if the five checks all returned and their
    batch is not empty; the call is made with the whole batch, on the state
    the callback had, and the cycle takes from it its events, the new state
    of the callback and its outcome.  When the checks return no alert the
    callback is not called, and when a check raises it is not called either:
    the cycle ends at once with the exception. *)
Theorem dispatch_once_iff_alerts (w : world (list (list ThreatAlert) * H)) :
  let observed := _monitoring_cycle _ search (recording alert_callback) w in
  let calls := (sink w).1 in
  let calls' := (sink observed.1.1).1 in
  (length calls' = S (length calls) ↔
   ∃ alerts, collect (self w) (clock w) = Ok alerts ∧ alerts ≠ []) ∧
  (∀ alerts, collect (self w) (clock w) = Ok alerts → alerts ≠ [] →
     let called := alert_callback (sink w).2 alerts in
     calls' = calls ++ [alerts] ∧
     (sink observed.1.1).2 = called.1.1 ∧
     observed.1.2 = Dispatch alerts :: map Sink called.1.2 ∧
     observed.2 = called.2) ∧
  (collect (self w) (clock w) = Ok [] →
     observed = (set_last_check _ w, [NoThreats], Ok ()) ∧ calls' = calls) ∧
  (∀ e, collect (self w) (clock w) = Raise e →
     observed = (w, [], Raise e) ∧ calls' = calls) ∧
  (∀ e,
     _check_critical_vulnerabilities search (self w) (clock w) = Raise e ∨
     _check_emergency_directives search (clock w) = Raise e ∨
     _check_apt_activity search (clock w) = Raise e ∨
     _check_zeroday_activity search (clock w) = Raise e ∨
     _check_infrastructure_threats search (clock w) = Raise e →
     ∃ e', observed = (w, [], Raise e') ∧ calls' = calls) ∧
  (∀ alerts, collect (self w) (clock w) = Ok alerts ↔
     ∃ c em ap z i,
       _check_critical_vulnerabilities search (self w) (clock w) = Ok c ∧
       _check_emergency_directives search (clock w) = Ok em ∧
       _check_apt_activity search (clock w) = Ok ap ∧
       _check_zeroday_activity search (clock w) = Ok z ∧
       _check_infrastructure_threats search (clock w) = Ok i ∧
       alerts = c ++ em ++ ap ++ z ++ i).
Proof.
  intros observed calls calls'.
  split; [| split; [| split; [| split; [| split;
    [| intros alerts; exact (collect_alerts_checks _ _ _)]]]]];
    [| | | | intros e0 Hfail; apply collect_alerts_failure in Hfail as [e' Hfail];
             exists e'; revert Hfail];
    subst observed calls calls'; unfold _monitoring_cycle, collect;
    destruct (collect_alerts search (self w) (clock w)) as [[|alert alerts]|e].
  - split; [simpl; lia | by intros (alerts & [= <-] & ?)].
  - unfold recording.
    destruct (alert_callback (sink w).2 (alert :: alerts)) as [[h evs] r].
    split; [intros _; by exists (alert :: alerts) |].
    intros _. destruct r; simpl; rewrite length_app; simpl; lia.
  - split; [simpl; lia | by intros (alerts & ? & ?)].
  - by intros alerts [= <-].
  - intros ? [= <-] _. unfold recording.
    by destruct (alert_callback (sink w).2 (alert :: alerts)) as [[h evs] [[]|e]].
  - done.
  - done.
  - done.
  - done.
  - done.
  - done.
  - by intros e' [= <-].
  - done.
  - done.
  - by intros [= <-].
Qed.



(** C2, as the cycle has it.  The exception of a category check is not
    caught inside the cycle: the cycle ends with an exception, hands nothing
    to the callback and leaves the monitor as it was; the handler of the
    scheduler loop catches it and waits 60 seconds. *)
Theorem category_failure_aborts_cycle w e :
  _check_critical_vulnerabilities search (self w) (clock w) = Raise e ∨
  _check_emergency_directives search (clock w) = Raise e ∨
  _check_apt_activity search (clock w) = Raise e ∨
  _check_zeroday_activity search (clock w) = Raise e ∨
  _check_infrastructure_threats search (clock w) = Raise e →
  ∃ e', cycle w = (w, [], Raise e') ∧
        dispatched (cycle w).1.2 = [] ∧
        ∀ interval_minutes,
          turn interval_minutes w = (sleep H 60 w, [MonitoringError e'; Sleep 60]).
Proof.
  intros Hfail.
  assert (Hc : ∃ e', collect (self w) (clock w) = Raise e').
  { unfold collect, collect_alerts.
    destruct (_check_critical_vulnerabilities _ _ _) as [c|e1]; simpl; [|eauto].
    destruct (_check_emergency_directives _ _) as [em|e2]; simpl; [|eauto].
    destruct (_check_apt_activity _ _) as [ap|e3]; simpl; [|eauto].
    destruct (_check_zeroday_activity _ _) as [z|e4]; simpl; [|eauto].
    destruct (_check_infrastructure_threats _ _) as [i|e5]; simpl; [|eauto].
    by destruct Hfail as [?|[?|[?|[?|?]]]]. }
  destruct Hc as [e' Hc]. exists e'.
  pose proof (cycle_raise _ _ Hc) as Hcycle. split_and!.
  - done.
  - by rewrite Hcycle.
  - intros interval_minutes. unfold turn, loop_body. fold cycle. by rewrite Hcycle.
Qed.

(** The exception that leaves the cycle is the one of the first check that
    fails; for the APT-activity check: *)
Lemma apt_failure_is_raised w c em e :
  _check_critical_vulnerabilities search (self w) (clock w) = Ok c →
  _check_emergency_directives search (clock w) = Ok em →
  _check_apt_activity search (clock w) = Raise e →
  cycle w = (w, [], Raise e).
Proof.
  intros Hc Hem Hapt. apply cycle_raise.
  unfold collect, collect_alerts. by rewrite Hc, Hem, Hapt.
Qed.

(** ** The scheduler *)

(** A turn of the loop starts with a cycle. *)
Lemma turn_events interval_minutes w :
  ∃ rest, (turn interval_minutes w).2 = (cycle w).1.2 ++ rest.
Proof.
  unfold turn, loop_body. fold cycle.
  destruct (cycle w) as [[w1 evs] [u|e]]; simpl; eauto.
Qed.

(** While the flag is set, the loop takes a turn. *)
Lemma loop_turn interval_minutes stop stops w :
  monitoring_active (self w) = true →
  ∃ rest, (loop interval_minutes (stop :: stops) w).1.2 =
          (turn interval_minutes w).2 ++ rest.
Proof.
  intros Hactive. unfold loop. simpl. rewrite Hactive. fold turn.
  destruct (turn interval_minutes w) as [w1 evs].
  destruct stop;
    match goal with |- context [monitoring_loop ?a ?b ?c ?d ?l ?x] =>
      destruct (monitoring_loop a b c d l x) as [[w3 evs3] r3] end;
    simpl; eexists; rewrite <- ?app_assoc; reflexivity.
Qed.

(** A turn during which nobody asks to stop is followed by the rest of the
    loop. *)
Lemma loop_turn_no_stop interval_minutes stops w :
  monitoring_active (self w) = true →
  (loop interval_minutes (false :: stops) w).1.2 =
  (turn interval_minutes w).2 ++ (loop interval_minutes stops (turn interval_minutes w).1).1.2.
Proof.
  intros Hactive. unfold loop. simpl. rewrite Hactive. fold turn.
  destruct (turn interval_minutes w) as [w1 evs]. simpl.
  by destruct (monitoring_loop _ _ _ _ stops w1) as [[w3 evs3] r3].
Qed.

(** C8. When a cycle raises while the scheduler runs, the handler of the
    loop catches the exception, the scheduler waits 60 seconds, not the
    configured interval, stays running, and the next turn of the loop starts
    a new cycle. *)
Theorem failed_cycle_backs_off interval_minutes w w1 evs e :
  monitoring_active (self w) = true →
  cycle w = (w1, evs, Raise e) →
  turn interval_minutes w = (sleep H 60 w1, evs ++ [MonitoringError e; Sleep 60]) ∧
  sleeps (turn interval_minutes w).2 = [60%Z] ∧
  monitoring_active (self (sleep H 60 w1)) = true ∧
  clock (sleep H 60 w1) = clock w + 60 ∧
  ∀ stop stops, ∃ rest,
    (loop interval_minutes (false :: stop :: stops) w).1.2 =
    evs ++ [MonitoringError e; Sleep 60] ++ (cycle (sleep H 60 w1)).1.2 ++ rest.
Proof.
  intros Hactive Hcycle.
  destruct (cycle_preserves w) as (Hact & _ & Hclock).
  fold cycle in Hact, Hclock. rewrite Hcycle in Hact, Hclock. simpl in Hact, Hclock.
  assert (Hturn : turn interval_minutes w =
                  (sleep H 60 w1, evs ++ [MonitoringError e; Sleep 60])).
  { unfold turn, loop_body. fold cycle. by rewrite Hcycle. }
  assert (Hno_sleep : sleeps evs = []).
  { assert (Hevs : evs = (cycle w).1.2) by by rewrite Hcycle.
    rewrite Hevs. unfold cycle, _monitoring_cycle.
    destruct (collect_alerts _ _ _) as [[|a l]|]; simpl; try done.
    destruct (alert_callback _ _) as [[h sevs] r].
    assert (Hs : sleeps (map Sink sevs) = []).
    { clear. induction sevs as [|s sevs IH]; simpl; [done | exact IH]. }
    destruct r; simpl; exact Hs. }
  split_and!.
  - done.
  - rewrite Hturn. simpl. unfold sleeps in *. by rewrite omap_app, Hno_sleep.
  - simpl. by rewrite Hact.
  - simpl. rewrite Hclock. lia.
  - intros stop stops. rewrite (loop_turn_no_stop _ _ _ Hactive), Hturn. cbn [fst snd].
    assert (Hact1 : monitoring_active (self (sleep H 60 w1)) = true)
      by (simpl; by rewrite Hact).
    destruct (loop_turn interval_minutes stop stops _ Hact1) as [rest1 ->].
    destruct (turn_events interval_minutes (sleep H 60 w1)) as [rest2 ->].
    exists (rest2 ++ rest1). by rewrite <- !app_assoc.
Qed.

(** A turn leaves the running flag as it was. *)
Lemma turn_keeps_flag interval_minutes w :
  monitoring_active (self (turn interval_minutes w).1) = monitoring_active (self w).
Proof.
  destruct (cycle_preserves w) as (Hact & _ & _).
  unfold turn, loop_body. fold cycle.
  by destruct (cycle w) as [[w1 evs] [u|e]].
Qed.

(** As long as nobody asks to stop, the loop is still running, with its
    flag set, when the schedule is used up. *)
Lemma loop_still_running interval_minutes (stops : list bool) w :
  monitoring_active (self w) = true →
  Forall (fun stop => stop = false) stops →
  (loop interval_minutes stops w).2 = StillRunning ∧
  monitoring_active (self (loop interval_minutes stops w).1.1) = true.
Proof.
  intros Hactive Hquiet. revert w Hactive.
  induction Hquiet as [|stop stops -> _ IH]; intros w Hactive.
  - unfold loop. simpl. by rewrite Hactive.
  - pose proof (turn_keeps_flag interval_minutes w) as Hflag. rewrite Hactive in Hflag.
    specialize (IH _ Hflag). unfold loop in *. simpl. rewrite Hactive. fold turn.
    destruct (turn interval_minutes w) as [w1 evs1]. simpl in *.
    by destruct (monitoring_loop _ _ _ _ stops w1) as [[w3 evs3] r3].
Qed.

(** C7, as the scheduler has it.  [start_monitoring] does not look at
    the sign of the interval.  Started with an interval that is not
    positive, it reports the start and runs the first cycle at once, on the
    state it was called in with the running flag set.  After a cycle that
    ends normally the sleep takes no time: the turn ends at the time it
    began, and the next turn of the loop runs the next cycle there and
    then.  However many turns the loop takes without a call of
    [stop_monitoring], the scheduler is still running afterwards, with its
    flag set: nothing was raised. *)
Theorem start_monitoring_any_interval interval_minutes stop stops w :
  (interval_minutes ≤ 0)%Z →
  let started := set_monitoring_active H true w in
  let first := cycle started in
  let run := start interval_minutes (stop :: stops) w in
  (∃ rest, run.1.2 = Started interval_minutes :: first.1.2 ++ rest) ∧
  (first.2 = Ok () →
     turn interval_minutes started =
       (sleep H (interval_minutes * 60) first.1.1,
        first.1.2 ++ [CycleComplete interval_minutes; Sleep (interval_minutes * 60)]) ∧
     clock (turn interval_minutes started).1 = clock w ∧
     (stop = false → ∀ stop', ∃ rest,
        (start interval_minutes (stop :: stop' :: stops) w).1.2 =
        Started interval_minutes :: first.1.2 ++
        [CycleComplete interval_minutes; Sleep (interval_minutes * 60)] ++
        (cycle (turn interval_minutes started).1).1.2 ++ rest)) ∧
  (Forall (fun stop => stop = false) (stop :: stops) →
     run.2 = StillRunning ∧ monitoring_active (self run.1.1) = true).
Proof.
  intros Hneg started first run.
  assert (Hstart : ∀ schedule,
    start interval_minutes schedule w =
    ((loop interval_minutes schedule started).1.1,
     Started interval_minutes :: (loop interval_minutes schedule started).1.2,
     (loop interval_minutes schedule started).2)).
  { intros schedule. unfold start, start_monitoring. fold started. fold loop.
    by destruct (loop interval_minutes schedule started) as [[w3 evs3] r3]. }
  split_and!.
  - subst run. rewrite Hstart. cbn [fst snd].
    destruct (loop_turn interval_minutes stop stops started eq_refl) as [rest1 ->].
    destruct (turn_events interval_minutes started) as [rest2 ->].
    exists (rest2 ++ rest1). by rewrite <- app_assoc.
  - intros Hok.
    destruct (cycle_preserves started) as (_ & _ & Hclock). fold cycle first in Hclock.
    assert (Hturn : turn interval_minutes started =
      (sleep H (interval_minutes * 60) first.1.1,
       first.1.2 ++ [CycleComplete interval_minutes; Sleep (interval_minutes * 60)])).
    { unfold turn, loop_body. fold cycle. fold first.
      destruct first as [[w1 evs] [u|e]]; [done | discriminate]. }
    split_and!; [done | |].
    + rewrite Hturn. cbn [fst snd sleep clock]. rewrite Hclock. subst started. simpl. lia.
    + intros -> stop'. rewrite Hstart. cbn [fst snd].
      rewrite (loop_turn_no_stop _ _ _ (eq_refl : monitoring_active (self started) = true)).
      pose proof (turn_keeps_flag interval_minutes started) as Hflag.
      destruct (loop_turn interval_minutes stop' stops _ Hflag) as [rest1 ->].
      destruct (turn_events interval_minutes (turn interval_minutes started).1)
        as [rest2 ->].
      exists (rest2 ++ rest1). rewrite Hturn at 1. cbn [fst snd].
      by rewrite <- !app_assoc.
  - intros Hquiet. subst run. rewrite Hstart. cbn [fst snd].
    by apply loop_still_running.
Qed.

End Cycle.

(** ** The cycle and the scheduler on example runs *)



(** The history of a [CustomAlertHandler] after the same two cycles holds
    every alert twice. *)
Example custom_handler_history_repeats :
  let first := _monitoring_cycle _ mock_search handle_alerts fresh_custom_world in
  let second := _monitoring_cycle _ mock_search handle_alerts first.1.1 in
  Alert.id <$> sink second.1.1 = replicate 8 (VStr "MOCK-001").
Proof. vm_compute. reflexivity. Qed.

Lemma category_failure_aborts_cycle_witness :
  ∃ e', _monitoring_cycle () apt_down_search _default_alert_handler fresh_world
          = (fresh_world, [], Raise e') ∧
        dispatched (_monitoring_cycle () apt_down_search _default_alert_handler
                      fresh_world).1.2 = [] ∧
        ∀ interval_minutes,
          loop_body () apt_down_search _default_alert_handler interval_minutes fresh_world
          = (sleep () 60 fresh_world, [MonitoringError e'; Sleep 60]).
Proof.
  apply (category_failure_aborts_cycle () apt_down_search _default_alert_handler
           fresh_world (Exception "Cannot connect to host")).
  right. right. left. vm_compute. reflexivity.
Defined.

(** C2, as the design document words it, fails.  When the APT-activity
    query fails and the other four answer, three of them with a qualifying
    document, the exception leaves the cycle and nothing is dispatched. *)
Lemma apt_failure_loses_other_alerts :
  _check_critical_vulnerabilities apt_down_search (__init__ 0) 0 = Ok [] ∧
  (∃ alert, _check_emergency_directives apt_down_search 0 = Ok [alert]) ∧
  _check_apt_activity apt_down_search 0 = Raise (Exception "Cannot connect to host") ∧
  (∃ alert, _check_zeroday_activity apt_down_search 0 = Ok [alert]) ∧
  (∃ alert, _check_infrastructure_threats apt_down_search 0 = Ok [alert]) ∧
  _monitoring_cycle () apt_down_search _default_alert_handler fresh_world
    = (fresh_world, [], Raise (Exception "Cannot connect to host")) ∧
  dispatched (_monitoring_cycle () apt_down_search _default_alert_handler fresh_world).1.2
    = [].
Proof.
  split; [vm_compute; reflexivity |].
  split; [eexists; vm_compute; reflexivity |].
  split; [vm_compute; reflexivity |].
  split; [eexists; vm_compute; reflexivity |].
  split; [eexists; vm_compute; reflexivity |].
  split; vm_compute; reflexivity.
Qed.

Lemma failed_cycle_backs_off_witness :
  loop_body () apt_down_search _default_alert_handler 15 running_world =
  (sleep () 60 running_world,
   [MonitoringError (Exception "Cannot connect to host"); Sleep 60]).
Proof.
  refine (proj1 (failed_cycle_backs_off () apt_down_search _default_alert_handler 15
                   running_world running_world [] (Exception "Cannot connect to host")
                   _ _)).
  - reflexivity.
  - vm_compute. reflexivity.
Defined.

Lemma dispatch_once_iff_alerts_witness :
  ∃ batch,
    collect_alerts mock_search (__init__ 0) 0 = Ok batch ∧
    length batch = 4%nat ∧
    (sink (_monitoring_cycle _ mock_search (recording _default_alert_handler)
             fresh_recording_world).1.1).1 = [] ++ [batch].
Proof.
  eexists. split; [vm_compute; reflexivity |]. split; [reflexivity |].
  refine (proj1 (proj1 (proj2
    (dispatch_once_iff_alerts unit mock_search _default_alert_handler
       fresh_recording_world)) _ _ _)).
  - vm_compute. reflexivity.
  - discriminate.
Defined.

(** C9, as the design document words it, fails.  When the APT-activity
    query fails, the emergency-directive check before it has produced an
    alert, yet the callback is not called in the cycle: the exception leaves
    the cycle and the alert is lost. *)
Lemma produced_alert_is_not_dispatched :
  let observed :=
    _monitoring_cycle _ apt_down_search (recording _default_alert_handler)
      fresh_recording_world in
  (∃ alert, _check_emergency_directives apt_down_search (clock fresh_recording_world)
            = Ok [alert]) ∧
  _check_apt_activity apt_down_search (clock fresh_recording_world)
    = Raise (Exception "Cannot connect to host") ∧
  (sink observed.1.1).1 = [] ∧
  observed.1.2 = [] ∧
  observed.2 = Raise (Exception "Cannot connect to host").
Proof.
  split; [eexists; vm_compute; reflexivity |].
  split; [vm_compute; reflexivity |].
  split; [vm_compute; reflexivity |].
  split; vm_compute; reflexivity.
Qed.

Lemma start_monitoring_any_interval_witness :
  (∃ rest,
     (start_monitoring () mock_search _default_alert_handler (-15) [false] fresh_world).1.2 =
     Started (-15) ::
     (_monitoring_cycle () mock_search _default_alert_handler running_world).1.2 ++ rest) ∧
  clock (loop_body () mock_search _default_alert_handler (-15) running_world).1 = 0%Z ∧
  (start_monitoring () mock_search _default_alert_handler (-15) [false] fresh_world).2
    = StillRunning.
Proof.
  pose proof (start_monitoring_any_interval () mock_search _default_alert_handler
                (-15) false [] fresh_world) as Hthm.
  cbv zeta in Hthm.
  assert (Hneg : (-15 ≤ 0)%Z) by lia.
  destruct (Hthm Hneg) as (Hfirst & Hnormal & Hquiet).
  split; [exact Hfirst |]. split.
  - refine (proj1 (proj2 (Hnormal _))). vm_compute. reflexivity.
  - refine (proj1 (Hquiet _)). repeat constructor.
Defined.

(** C7, as the design document words it, fails.  Started with an
    interval of 0 or of -15 minutes, the scheduler sets the running flag and
    runs a cycle that dispatches a batch; nothing is raised, and the loop is
    still running when the turn is over. *)
Lemma nonpositive_interval_starts_monitoring :
  let run interval :=
    start_monitoring () mock_search _default_alert_handler interval [false] fresh_world in
  (monitoring_active (self (run 0%Z).1.1) = true ∧
   length (dispatched (run 0%Z).1.2) = 1%nat ∧
   sleeps (run 0%Z).1.2 = [0%Z] ∧ (run 0%Z).2 = StillRunning) ∧
  (monitoring_active (self (run (-15)%Z).1.1) = true ∧
   length (dispatched (run (-15)%Z).1.2) = 1%nat ∧
   sleeps (run (-15)%Z).1.2 = [(-900)%Z] ∧ (run (-15)%Z).2 = StillRunning).
Proof. vm_compute. done. Qed.

(** * Further properties of the monitor *)

(** ** The rules on the body of a finding *)

Section BodyRules.

Implicit Types (doc : gmap string value) (alert : ThreatAlert).

#[local] Arguments Py.any_in : simpl never.
#[local] Arguments Py.contains : simpl never.

Lemma any_in_lower_spec (keywords : list string) (text : string) :
  Py.any_in keywords (Py.lower text) = true ↔ contains_any_ignoring_case keywords text.
Proof.
  unfold Py.any_in, contains_any_ignoring_case, contains_ignoring_case.
  rewrite existsb_exists. split.
  - intros (k & Hk & Hc). exists k. split; [by apply list_elem_of_In |].
    by apply PyFacts.contains_lower_spec.
  - intros (k & Hk & Hc). exists k. split; [by apply list_elem_of_In |].
    by apply PyFacts.contains_lower_spec.
Qed.

(** X1. Under the APT-activity check a finding yields an alert exactly
    when its body contains "apt", "nation-state" or "attribution" up to
    case; the alert has severity HIGH, score 8.5 and the action of the
    check. *)
Theorem apt_activity_rule doc body :
  is_finding doc →
  doc !! "content" = Some (VStr body) →
  ((∃ alert, apt_activity_doc doc = Ok (Some alert)) ↔
   contains_any_ignoring_case ["apt"; "nation-state"; "attribution"] body) ∧
  (¬ contains_any_ignoring_case ["apt"; "nation-state"; "attribution"] body →
   apt_activity_doc doc = Ok None) ∧
  (∀ alert, apt_activity_doc doc = Ok (Some alert) →
     Alert.severity alert = "HIGH" ∧ Alert.cvss_score alert = VNum 8.5 ∧
     Alert.recommended_action alert = "Review threat indicators and enhance monitoring").
Proof.
  intros Hdoc Hbody. unfold apt_activity_doc.
  rewrite (getitem_Some _ _ _ Hbody). simpl.
  rewrite <- any_in_lower_spec.
  destruct (make_alert_finding doc "HIGH" (VNum 8.5)
              "Review threat indicators and enhance monitoring" Hdoc) as [a Ha].
  destruct (Py.any_in _ (Py.lower body)) eqn:Hc.
  - rewrite Ha. simpl. split_and!.
    + split; [done | by exists a].
    + intros Hn. by destruct Hn.
    + intros alert [= <-]. by destruct (make_alert_fields _ _ _ _ _ Ha) as (? & ? & ? & _).
  - split_and!; [| done | done].
    split; [by intros [? ?] | done].
Qed.

Lemma apt_activity_rule_witness :
  (∃ alert, apt_activity_doc apt_doc = Ok (Some alert)) ↔
  contains_any_ignoring_case ["apt"; "nation-state"; "attribution"]
    "Attribution of the campaign to a Nation-State actor".
Proof.
  assert (Hf : is_finding apt_doc).
  { repeat split; eexists; reflexivity. }
  exact (proj1 (apt_activity_rule apt_doc _ Hf eq_refl)).
Defined.

(** X2. Under the zero-day check a finding yields an alert exactly when
    its body contains "zero-day" up to case; the alert has severity CRITICAL,
    score 9.5 and the action of the check. *)
Theorem zeroday_activity_rule doc body :
  is_finding doc →
  doc !! "content" = Some (VStr body) →
  ((∃ alert, zeroday_activity_doc doc = Ok (Some alert)) ↔
   contains_ignoring_case "zero-day" body) ∧
  (¬ contains_ignoring_case "zero-day" body → zeroday_activity_doc doc = Ok None) ∧
  (∀ alert, zeroday_activity_doc doc = Ok (Some alert) →
     Alert.severity alert = "CRITICAL" ∧ Alert.cvss_score alert = VNum 9.5 ∧
     Alert.recommended_action alert =
       "URGENT - Implement defensive measures immediately").
Proof.
  intros Hdoc Hbody. unfold zeroday_activity_doc, contains_ignoring_case.
  rewrite (getitem_Some _ _ _ Hbody). simpl.
  rewrite <- PyFacts.contains_lower_spec.
  destruct (make_alert_finding doc "CRITICAL" (VNum 9.5)
              "URGENT - Implement defensive measures immediately" Hdoc) as [a Ha].
  destruct (Py.contains "zero-day" (Py.lower body)) eqn:Hc.
  - rewrite Ha. simpl. split_and!.
    + split; [done | by exists a].
    + intros Hn. by destruct Hn.
    + intros alert [= <-]. by destruct (make_alert_fields _ _ _ _ _ Ha) as (? & ? & ? & _).
  - split_and!; [| done | done].
    split; [by intros [? ?] | done].
Qed.

Lemma zeroday_activity_rule_witness :
  (∃ alert, zeroday_activity_doc zeroday_doc = Ok (Some alert)) ↔
  contains_ignoring_case "zero-day"
    "A zero-day in a browser engine is exploited in the wild".
Proof.
  assert (Hf : is_finding zeroday_doc).
  { repeat split; eexists; reflexivity. }
  exact (proj1 (zeroday_activity_rule zeroday_doc _ Hf eq_refl)).
Defined.

(** X3. Under the infrastructure check a finding yields an alert exactly
    when its body contains "energy", "water", "transportation" or
    "manufacturing" up to case; the alert has severity HIGH, score 8.0 and
    the action of the check. *)
Theorem infrastructure_threat_rule doc body :
  is_finding doc →
  doc !! "content" = Some (VStr body) →
  ((∃ alert, infrastructure_threat_doc doc = Ok (Some alert)) ↔
   contains_any_ignoring_case
     ["energy"; "water"; "transportation"; "manufacturing"] body) ∧
  (¬ contains_any_ignoring_case
       ["energy"; "water"; "transportation"; "manufacturing"] body →
   infrastructure_threat_doc doc = Ok None) ∧
  (∀ alert, infrastructure_threat_doc doc = Ok (Some alert) →
     Alert.severity alert = "HIGH" ∧ Alert.cvss_score alert = VNum 8.0 ∧
     Alert.recommended_action alert = "Coordinate with sector security teams").
Proof.
  intros Hdoc Hbody. unfold infrastructure_threat_doc.
  rewrite (getitem_Some _ _ _ Hbody). simpl.
  rewrite <- any_in_lower_spec.
  destruct (make_alert_finding doc "HIGH" (VNum 8.0)
              "Coordinate with sector security teams" Hdoc) as [a Ha].
  destruct (Py.any_in _ (Py.lower body)) eqn:Hc.
  - rewrite Ha. simpl. split_and!.
    + split; [done | by exists a].
    + intros Hn. by destruct Hn.
    + intros alert [= <-]. by destruct (make_alert_fields _ _ _ _ _ Ha) as (? & ? & ? & _).
  - split_and!; [| done | done].
    split; [by intros [? ?] | done].
Qed.

Lemma infrastructure_threat_rule_witness :
  (∃ alert, infrastructure_threat_doc infrastructure_doc = Ok (Some alert)) ↔
  contains_any_ignoring_case ["energy"; "water"; "transportation"; "manufacturing"]
    "Affects pumping stations of Water utilities".
Proof.
  assert (Hf : is_finding infrastructure_doc).
  { repeat split; eexists; reflexivity. }
  exact (proj1 (infrastructure_threat_rule infrastructure_doc _ Hf eq_refl)).
Defined.

End BodyRules.

(** ** What an alert takes from its document *)

Section AlertFields.

Implicit Types (doc : gmap string value) (alert : ThreatAlert).

#[local] Arguments Py.any_in : simpl never.
#[local] Arguments Py.contains : simpl never.

Lemma string_app_length (a b : string) :
  String.length (a +:+ b) = (String.length a + String.length b)%nat.
Proof.
  induction a as [|x a IH]; [done |].
  rewrite PyFacts.app_cons. simpl. by rewrite IH.
Qed.

(** X4. Whatever the category, an alert carries the identifier, the
    title, the source and the publication date of the document it was made
    from, unchanged. *)
Theorem alert_copies_document_fields self category doc alert :
  classify self category doc = Ok (Some alert) →
  doc !! "id" = Some (Alert.id alert) ∧
  doc !! "title" = Some (Alert.title alert) ∧
  doc !! "source" = Some (Alert.source alert) ∧
  doc !! "published_date" = Some (Alert.published_date alert).
Proof.
  intros Hc. destruct (classify_make_alert _ _ _ _ Hc) as (sev & cvss & action & Ha).
  by destruct (make_alert_fields _ _ _ _ _ Ha) as (_ & _ & _ & ? & ? & ? & ? & _).
Qed.

Lemma alert_copies_document_fields_witness :
  zeroday_doc !! "id" = Some (VStr "AA24-001").
Proof.
  destruct (alert_copies_document_fields (__init__ 0) zero_day zeroday_doc
    (Alert.mk (VStr "AA24-001") (VStr "Exploitation of a browser engine") (VStr "CISA")
       "CRITICAL" (VNum 9.5) (VStr "2024-01-01T00:00:00")
       (VStr "A zero-day in a browser engine is exploited in the wild...")
       "URGENT - Implement defensive measures immediately") eq_refl) as (Hid & _).
  exact Hid.
Defined.

(** X5. Whatever the category, the summary of an alert is a string of
    three characters more than the body when the body has at most 200
    characters and of 203 characters otherwise: it never exceeds 203. *)
Theorem summary_is_bounded self category doc alert :
  classify self category doc = Ok (Some alert) →
  ∃ body text,
    doc !! "content" = Some (VStr body) ∧
    Alert.summary alert = VStr text ∧
    String.length text = (200 `min` String.length body + 3)%nat ∧
    (String.length text ≤ 203)%nat.
Proof.
  intros Hc. destruct (classify_make_alert _ _ _ _ Hc) as (sev & cvss & action & Ha).
  destruct (make_alert_fields _ _ _ _ _ Ha) as (_ & _ & _ & _ & _ & _ & _ & body & Hb & Hs).
  exists body, (Py.slice_to 200 body +:+ "...").
  rewrite string_app_length, PyFacts.slice_to_length.
  change (String.length "...") with 3%nat.
  split_and!; [done | done | done | lia].
Qed.

Lemma summary_is_bounded_witness :
  ∃ body text,
    zeroday_doc !! "content" = Some (VStr body) ∧
    VStr "A zero-day in a browser engine is exploited in the wild..." = VStr text ∧
    String.length text = (200 `min` String.length body + 3)%nat ∧
    (String.length text ≤ 203)%nat.
Proof.
  exact (summary_is_bounded (__init__ 0) zero_day zeroday_doc
    (Alert.mk (VStr "AA24-001") (VStr "Exploitation of a browser engine") (VStr "CISA")
       "CRITICAL" (VNum 9.5) (VStr "2024-01-01T00:00:00")
       (VStr "A zero-day in a browser engine is exploited in the wild...")
       "URGENT - Implement defensive measures immediately") eq_refl).
Defined.

(** The fields [ThreatAlert(...)] reads from a document. *)
Lemma getitem_delete doc k k' :
  getitem (delete k doc) k' =
  if decide (k = k') then Raise (KeyError k') else getitem doc k'.
Proof.
  unfold getitem. case_decide as Hk.
  - subst. by rewrite lookup_delete_eq.
  - by rewrite lookup_delete_ne.
Qed.

Lemma make_alert_without_field doc sev cvss action alert k :
  make_alert doc sev cvss action = Ok alert →
  k ∈ ["id"; "title"; "source"; "published_date"; "content"] →
  make_alert (delete k doc) sev cvss action = Raise (KeyError k).
Proof.
  intros Ha Hk.
  destruct (make_alert_fields _ _ _ _ _ Ha) as (_ & _ & _ & Hi & Ht & Hs & Hp & body & Hb & _).
  unfold make_alert. rewrite !getitem_delete.
  rewrite (getitem_Some _ _ _ Hi), (getitem_Some _ _ _ Ht), (getitem_Some _ _ _ Hs),
    (getitem_Some _ _ _ Hp), (getitem_Some _ _ _ Hb).
  set_unfold in Hk.
  destruct Hk as [->|[->|[->|[->|[->|[]]]]]]; repeat case_decide; done.
Qed.

(** X6. A document that would yield an alert, but lacks one of the keys
    [id], [title], [source], [published_date] and [content], makes the loop
    body raise [KeyError] for that key, whatever the category; the check
    then ends with this exception and the alerts of the documents before it
    are lost. *)
Theorem missing_field_raises_key_error self category doc alert k before after alerts :
  classify self category doc = Ok (Some alert) →
  k ∈ ["id"; "title"; "source"; "published_date"; "content"] →
  Forall (fun d => ∃ o, classify self category d = Ok o) before →
  classify self category (delete k doc) = Raise (KeyError k) ∧
  for_documents (classify self category) (before ++ delete k doc :: after) alerts
    = Raise (KeyError k).
Proof.
  intros Hc Hk Hbefore.
  assert (Hraise : classify self category (delete k doc) = Raise (KeyError k)).
  { assert (Hscore : k ≠ "cvss_score").
    { set_unfold in Hk. by destruct Hk as [->|[->|[->|[->|[->|[]]]]]]. }
    destruct category; simpl in *.
    - unfold critical_vulnerability_doc, dict_get in *.
      rewrite lookup_delete_ne by done.
      destruct (py_ge _ _) as [[|]|]; simpl in *; try done.
      destruct (make_alert doc _ _ _) as [a|] eqn:Ha; simpl in *; [|done].
      by rewrite (make_alert_without_field _ _ _ _ _ _ Ha Hk).
    - unfold emergency_directive_doc in *. rewrite getitem_delete.
      destruct (getitem doc "title") as [t|] eqn:Ht; simpl in *; [|done].
      case_decide as Hkt; [by subst |]. simpl.
      destruct (py_lower t) as [l|]; simpl in *; [|done].
      destruct (Py.contains _ _); [|done].
      destruct (make_alert doc _ _ _) as [a|] eqn:Ha; simpl in *; [|done].
      by rewrite (make_alert_without_field _ _ _ _ _ _ Ha Hk).
    - unfold apt_activity_doc in *. rewrite getitem_delete.
      destruct (getitem doc "content") as [t|] eqn:Ht; simpl in *; [|done].
      case_decide as Hkt; [by subst |]. simpl.
      destruct (py_lower t) as [l|]; simpl in *; [|done].
      destruct (Py.any_in _ _); [|done].
      destruct (make_alert doc _ _ _) as [a|] eqn:Ha; simpl in *; [|done].
      by rewrite (make_alert_without_field _ _ _ _ _ _ Ha Hk).
    - unfold zeroday_activity_doc in *. rewrite getitem_delete.
      destruct (getitem doc "content") as [t|] eqn:Ht; simpl in *; [|done].
      case_decide as Hkt; [by subst |]. simpl.
      destruct (py_lower t) as [l|]; simpl in *; [|done].
      destruct (Py.contains _ _); [|done].
      destruct (make_alert doc _ _ _) as [a|] eqn:Ha; simpl in *; [|done].
      by rewrite (make_alert_without_field _ _ _ _ _ _ Ha Hk).
    - unfold infrastructure_threat_doc in *. rewrite getitem_delete.
      destruct (getitem doc "content") as [t|] eqn:Ht; simpl in *; [|done].
      case_decide as Hkt; [by subst |]. simpl.
      destruct (py_lower t) as [l|]; simpl in *; [|done].
      destruct (Py.any_in _ _); [|done].
      destruct (make_alert doc _ _ _) as [a|] eqn:Ha; simpl in *; [|done].
      by rewrite (make_alert_without_field _ _ _ _ _ _ Ha Hk). }
  split; [done |]. by apply for_documents_raise.
Qed.

Lemma missing_field_raises_key_error_witness :
  for_documents (classify (__init__ 0) zero_day)
    ([zeroday_doc] ++ zeroday_doc_without_id :: [zeroday_doc]) [] = Raise (KeyError "id").
Proof.
  refine (proj2 (missing_field_raises_key_error (__init__ 0) zero_day zeroday_doc
    (Alert.mk (VStr "AA24-001") (VStr "Exploitation of a browser engine") (VStr "CISA")
       "CRITICAL" (VNum 9.5) (VStr "2024-01-01T00:00:00")
       (VStr "A zero-day in a browser engine is exploited in the wild...")
       "URGENT - Implement defensive measures immediately")
    "id" [zeroday_doc] [zeroday_doc] [] eq_refl _ _)).
  - set_solver.
  - repeat constructor. eexists. reflexivity.
Defined.

End AlertFields.

(** ** The custom handler and the batch of a cycle *)

(** Membership in a list of literals. *)
Ltac in_literal :=
  rewrite ?elem_of_cons, ?elem_of_nil in *; intuition (try congruence; try discriminate).

(** X7. [handle_alerts] never fails; it appends the batch to the history
    and sends one notification for each alert, in the order of the batch:
    urgent for EMERGENCY and CRITICAL, standard for HIGH, a log entry for any
    other severity. *)
Theorem handle_alerts_routes_each (alert_history alerts : list ThreatAlert) :
  (handle_alerts alert_history alerts).2 = Ok () ∧
  (handle_alerts alert_history alerts).1.1 = alert_history ++ alerts ∧
  length (handle_alerts alert_history alerts).1.2 = length alerts ∧
  ∀ i alert, alerts !! i = Some alert →
    (Alert.severity alert ∈ ["EMERGENCY"; "CRITICAL"] →
     (handle_alerts alert_history alerts).1.2 !! i = Some (UrgentNotification alert)) ∧
    (Alert.severity alert = "HIGH" →
     (handle_alerts alert_history alerts).1.2 !! i = Some (StandardNotification alert)) ∧
    (Alert.severity alert ∉ ["EMERGENCY"; "CRITICAL"; "HIGH"] →
     (handle_alerts alert_history alerts).1.2 !! i = Some (LoggedAlert alert)).
Proof.
  revert alert_history.
  induction alerts as [|a alerts IH]; intros alert_history; simpl.
  - rewrite app_nil_r. split_and!; try done.
  - destruct (IH (alert_history ++ [a])) as (Hr & Hh & Hl & Hi).
    destruct (handle_alerts (alert_history ++ [a]) alerts) as [[h evs] r].
    simpl in *. split_and!; [done | by rewrite Hh, <- app_assoc | by rewrite Hl |].
    intros [|i] alert Hlook; simpl in *; [|by apply Hi].
    injection Hlook as ->. split_and!.
    + intros Hs. by rewrite bool_decide_eq_true_2.
    + intros Hs. rewrite bool_decide_eq_false_2; [|rewrite Hs; in_literal].
      by rewrite bool_decide_eq_true_2.
    + intros Hs. rewrite bool_decide_eq_false_2; [|in_literal].
      rewrite bool_decide_eq_false_2; [done | in_literal].
Qed.

(** Every notification of [handle_alerts] is for an alert of the batch, on
    the channel of its severity. *)
Lemma handle_alerts_events (alert_history alerts : list ThreatAlert) ev :
  ev ∈ (handle_alerts alert_history alerts).1.2 →
  ∃ a, a ∈ alerts ∧
    (ev = UrgentNotification a ∧ Alert.severity a ∈ ["EMERGENCY"; "CRITICAL"] ∨
     ev = StandardNotification a ∧ Alert.severity a = "HIGH" ∨
     ev = LoggedAlert a ∧ Alert.severity a ∉ ["EMERGENCY"; "CRITICAL"; "HIGH"]).
Proof.
  revert alert_history.
  induction alerts as [|a alerts IH]; intros alert_history; simpl.
  - by intros ?%elem_of_nil.
  - specialize (IH (alert_history ++ [a])).
    destruct (handle_alerts (alert_history ++ [a]) alerts) as [[h evs] r].
    simpl in *. intros [->|Hin]%elem_of_cons.
    + exists a. split; [by left |].
      case_bool_decide as Hu; [by left |].
      case_bool_decide as Hh; [right; by left |].
      right. right. split; [done |]. in_literal.
    + destruct (IH Hin) as (b & Hb & Hcases). exists b. split; [by right | done].
Qed.

Section Severity.

#[local] Arguments Py.any_in : simpl never.
#[local] Arguments Py.contains : simpl never.

(** The severity of an alert is fixed by its category. *)
Lemma classify_severity self category (doc : gmap string value) alert :
  classify self category doc = Ok (Some alert) →
  Alert.severity alert =
    match category with
    | critical_vulnerability | zero_day => "CRITICAL"
    | emergency_directive => "EMERGENCY"
    | apt_activity | infrastructure_threat => "HIGH"
    end.
Proof.
  destruct category; simpl.
  - unfold critical_vulnerability_doc.
    destruct (py_ge _ _) as [[|]|]; simpl; try done.
    destruct (make_alert _ _ _ _) as [a|] eqn:Ha; simpl; [|done].
    intros [= <-]. by destruct (make_alert_fields _ _ _ _ _ Ha) as [? _].
  - unfold emergency_directive_doc.
    destruct (getitem doc "title") as [t|]; simpl; [|done].
    destruct (py_lower t) as [l|]; simpl; [|done].
    destruct (Py.contains "emergency" l); [|done].
    destruct (make_alert _ _ _ _) as [a|] eqn:Ha; simpl; [|done].
    intros [= <-]. by destruct (make_alert_fields _ _ _ _ _ Ha) as [? _].
  - unfold apt_activity_doc.
    destruct (getitem doc "content") as [t|]; simpl; [|done].
    destruct (py_lower t) as [l|]; simpl; [|done].
    destruct (Py.any_in ["apt"; "nation-state"; "attribution"] l); [|done].
    destruct (make_alert _ _ _ _) as [a|] eqn:Ha; simpl; [|done].
    intros [= <-]. by destruct (make_alert_fields _ _ _ _ _ Ha) as [? _].
  - unfold zeroday_activity_doc.
    destruct (getitem doc "content") as [t|]; simpl; [|done].
    destruct (py_lower t) as [l|]; simpl; [|done].
    destruct (Py.contains "zero-day" l); [|done].
    destruct (make_alert _ _ _ _) as [a|] eqn:Ha; simpl; [|done].
    intros [= <-]. by destruct (make_alert_fields _ _ _ _ _ Ha) as [? _].
  - unfold infrastructure_threat_doc.
    destruct (getitem doc "content") as [t|]; simpl; [|done].
    destruct (py_lower t) as [l|]; simpl; [|done].
    destruct (Py.any_in ["energy"; "water"; "transportation"; "manufacturing"] l); [|done].
    destruct (make_alert _ _ _ _) as [a|] eqn:Ha; simpl; [|done].
    intros [= <-]. by destruct (make_alert_fields _ _ _ _ _ Ha) as [? _].
Qed.

End Severity.

(** What holds of every alert a loop body yields holds of the alerts of
    the loop. *)
Lemma for_documents_Forall (P : ThreatAlert → Prop) body
    (docs : list (gmap string value)) alerts out :
  (∀ doc a, body doc = Ok (Some a) → P a) →
  Forall P alerts →
  for_documents body docs alerts = Ok out →
  Forall P out.
Proof.
  intros Hbody. revert alerts.
  induction docs as [|doc docs IH]; intros alerts Hacc; simpl.
  - by intros [= <-].
  - destruct (body doc) as [[a|]|] eqn:Hb; [| by apply IH | done].
    apply IH. apply Forall_app. split; [done |]. repeat constructor. by eapply Hbody.
Qed.

Section Collected.

Variable search : Z → string → list string → string → result response.

Let collect := collect_alerts search.

(** The alerts of a cycle are those of the five checks, in the order of
    the checks. *)
Lemma collect_alerts_Ok (monitor : VeridanoThreatMonitor) now alerts :
  collect monitor now = Ok alerts →
  ∃ c em ap z i,
    _check_critical_vulnerabilities search monitor now = Ok c ∧
    _check_emergency_directives search now = Ok em ∧
    _check_apt_activity search now = Ok ap ∧
    _check_zeroday_activity search now = Ok z ∧
    _check_infrastructure_threats search now = Ok i ∧
    alerts = c ++ em ++ ap ++ z ++ i.
Proof.
  unfold collect, collect_alerts.
  destruct (_check_critical_vulnerabilities _ _ _) as [c|]; simpl; [|done].
  destruct (_check_emergency_directives _ _) as [em|]; simpl; [|done].
  destruct (_check_apt_activity _ _) as [ap|]; simpl; [|done].
  destruct (_check_zeroday_activity _ _) as [z|]; simpl; [|done].
  destruct (_check_infrastructure_threats _ _) as [i|]; simpl; [|done].
  intros [= <-]. exists c, em, ap, z, i. by rewrite <- !app_assoc.
Qed.

(** X9. Every alert the five checks produce has the severity EMERGENCY,
    CRITICAL or HIGH, so a [CustomAlertHandler] never routes an alert of the
    monitor to its log channel. *)
Theorem monitor_alerts_never_logged (monitor : VeridanoThreatMonitor) now alerts :
  collect monitor now = Ok alerts →
  Forall (fun a => Alert.severity a ∈ ["EMERGENCY"; "CRITICAL"; "HIGH"]) alerts ∧
  ∀ alert_history a, LoggedAlert a ∉ (handle_alerts alert_history alerts).1.2.
Proof.
  intros Hcol.
  assert (Hsev : Forall (fun a => Alert.severity a ∈ ["EMERGENCY"; "CRITICAL"; "HIGH"])
                   alerts).
  { destruct (collect_alerts_Ok _ _ _ Hcol) as (c & em & ap & z & i & Hc & Hem & Hap & Hz & Hi & ->).
    assert (Hcat : ∀ category docs out,
      for_documents (classify monitor category) docs [] = Ok out →
      Forall (fun a => Alert.severity a ∈ ["EMERGENCY"; "CRITICAL"; "HIGH"]) out).
    { intros category docs out. apply for_documents_Forall; [|done].
      intros doc a Ha. rewrite (classify_severity _ _ _ _ Ha).
      destruct category; in_literal. }
    unfold _check_critical_vulnerabilities, _check_emergency_directives,
      _check_apt_activity, _check_zeroday_activity, _check_infrastructure_threats in *.
    destruct (search now "critical vulnerability CVSS score 9.0" _ _); [|done].
    destruct (search now "emergency directive immediate action required" _ _); [|done].
    destruct (search now "advanced persistent threat nation-state attribution campaign" _ _);
      [|done].
    destruct (search now "zero-day exploit active exploitation in the wild" _ _); [|done].
    destruct (search now "critical infrastructure attack energy water transportation" _ _);
      [|done].
    simpl in *. rewrite !Forall_app. split_and!.
    - by apply (Hcat critical_vulnerability _ _ Hc).
    - by apply (Hcat emergency_directive _ _ Hem).
    - by apply (Hcat apt_activity _ _ Hap).
    - by apply (Hcat zero_day _ _ Hz).
    - by apply (Hcat infrastructure_threat _ _ Hi). }
  split; [done |].
  intros alert_history a Hin.
  destruct (handle_alerts_events _ _ _ Hin) as (b & Hb & [[? _]|[[? _]|[[= ->] Hn]]]);
    [done | done |].
  apply Hn. by apply (proj1 (Forall_forall _ _) Hsev).
Qed.

End Collected.

Section Batch.

#[local] Open Scope Z_scope.

Variable H : Type.
Variable search : Z → string → list string → string → result response.
Variable alert_callback : H → list ThreatAlert → H * list sink_event * result unit.

Let cycle := _monitoring_cycle H search alert_callback.
Let turn := loop_body H search alert_callback.
Let collect := collect_alerts search.

Implicit Types (w : world H) (e : exn).

(** X8. The batch a cycle hands to the callback is not ordered by
    severity: it holds the alerts of the critical-vulnerability check, then
    those of the emergency-directive, APT-activity, zero-day and
    infrastructure checks.  The callback is applied to that batch, on the
    state the sink had: the cycle ends with the state the callback returns
    and with its outcome, and its events are the hand-over of the batch
    followed by what the callback did. *)
Theorem batch_in_category_order w c em ap z i :
  _check_critical_vulnerabilities search (self w) (clock w) = Ok c →
  _check_emergency_directives search (clock w) = Ok em →
  _check_apt_activity search (clock w) = Ok ap →
  _check_zeroday_activity search (clock w) = Ok z →
  _check_infrastructure_threats search (clock w) = Ok i →
  c ++ em ++ ap ++ z ++ i ≠ [] →
  let batch := c ++ em ++ ap ++ z ++ i in
  let called := alert_callback (sink w) batch in
  dispatched (cycle w).1.2 = [batch] ∧
  sink (cycle w).1.1 = called.1.1 ∧
  (cycle w).1.2 = Dispatch batch :: map Sink called.1.2 ∧
  (cycle w).2 = called.2.
Proof.
  intros Hc Hem Hap Hz Hi Hne batch called.
  assert (Hcol : collect (self w) (clock w) = Ok batch).
  { unfold collect, collect_alerts. rewrite Hc, Hem, Hap, Hz, Hi. simpl.
    by rewrite <- !app_assoc. }
  split.
  - unfold cycle, collect in *. rewrite cycle_dispatched, Hcol.
    fold batch in Hne |- *. by destruct batch.
  - subst called. unfold cycle, _monitoring_cycle. unfold collect in Hcol. rewrite Hcol.
    fold batch in Hne. destruct batch as [|alert alerts]; [done |].
    by destruct (alert_callback (sink w) (alert :: alerts)) as [[h evs] [[]|e]].
Qed.

(** X10. [last_check] records the time of the last cycle that ended
    without an exception: a cycle that ends normally sets it to the time of
    the cycle, a cycle that raises leaves it as it was. *)
Theorem last_check_tracks_completed_cycles w :
  ((cycle w).2 = Ok () → last_check (self (cycle w).1.1) = clock w) ∧
  (∀ e, (cycle w).2 = Raise e → last_check (self (cycle w).1.1) = last_check (self w)).
Proof.
  unfold cycle, _monitoring_cycle.
  destruct (collect_alerts _ _ _) as [[|a l]|e0]; simpl; [done | | done].
  destruct (alert_callback _ _) as [[h evs] [[]|e1]]; simpl; done.
Qed.

(** X11. When the callback raises, the cycle raises the same exception
    after the batch was handed over: the sink keeps what the callback did,
    [last_check] is not updated, and the scheduler loop waits 60 seconds. *)
Theorem callback_failure_ends_cycle w alert alerts h evs e :
  collect (self w) (clock w) = Ok (alert :: alerts) →
  alert_callback (sink w) (alert :: alerts) = (h, evs, Raise e) →
  cycle w = (set_sink H h w, Dispatch (alert :: alerts) :: map Sink evs, Raise e) ∧
  last_check (self (cycle w).1.1) = last_check (self w) ∧
  ∀ interval_minutes,
    turn interval_minutes w =
    (sleep H 60 (set_sink H h w),
     (Dispatch (alert :: alerts) :: map Sink evs) ++ [MonitoringError e; Sleep 60]).
Proof.
  intros Hcol Hcb.
  assert (Hcycle : cycle w =
    (set_sink H h w, Dispatch (alert :: alerts) :: map Sink evs, Raise e)).
  { unfold cycle, _monitoring_cycle. unfold collect in Hcol. by rewrite Hcol, Hcb. }
  split_and!; [done | by rewrite Hcycle |].
  intros interval_minutes. unfold turn, loop_body. fold cycle. by rewrite Hcycle.
Qed.

(** X12. When every query is answered without documents, be it with an
    empty list or without the [documents] key, the cycle hands nothing to
    the callback, reports that there is no threat and ends normally. *)
Theorem no_documents_no_dispatch w :
  (∀ query sources timeframe, ∃ results,
     search (clock w) query sources timeframe = Ok results ∧
     (documents results = None ∨ documents results = Some [])) →
  cycle w = (set_last_check H w, [NoThreats], Ok ()) ∧
  dispatched (cycle w).1.2 = [].
Proof.
  intros Hsearch.
  assert (Hdocs : ∀ query sources timeframe body,
    (results ← search (clock w) query sources timeframe;
     for_documents body (default [] (documents results)) []) = Ok []).
  { intros query sources timeframe body.
    destruct (Hsearch query sources timeframe) as (results & Hs & Hd).
    rewrite Hs. simpl. by destruct Hd as [-> | ->]. }
  assert (Hcol : collect (self w) (clock w) = Ok []).
  { unfold collect, collect_alerts, _check_critical_vulnerabilities,
      _check_emergency_directives, _check_apt_activity, _check_zeroday_activity,
      _check_infrastructure_threats.
    by rewrite !Hdocs. }
  assert (Hcycle : cycle w = (set_last_check H w, [NoThreats], Ok ())).
  { unfold cycle, _monitoring_cycle. unfold collect in Hcol. by rewrite Hcol. }
  split; [done | by rewrite Hcycle].
Qed.

End Batch.

(** ** Severities the default handler does not know *)

Lemma severity_key_known (alert : ThreatAlert) :
  Alert.severity alert ∈ known_severities → (severity_key alert ≤ 4)%nat.
Proof.
  unfold known_severities, severity_key. intros Hs.
  rewrite !elem_of_cons, elem_of_nil in Hs.
  destruct Hs as [->|[->|[->|[->|[->|[]]]]]]; vm_compute; lia.
Qed.

Lemma severity_key_unknown (alert : ThreatAlert) :
  Alert.severity alert ∉ known_severities → severity_key alert = 5%nat.
Proof.
  unfold known_severities, severity_key, severity_order. intros Hs.
  rewrite !elem_of_cons, elem_of_nil in Hs.
  rewrite !lookup_insert_ne by (intros Heq; apply Hs; rewrite <- Heq; auto 10).
  by rewrite lookup_singleton_ne by (intros Heq; apply Hs; rewrite <- Heq; auto 10).
Qed.

(** X13. An alert whose severity is none of EMERGENCY, CRITICAL, HIGH,
    MEDIUM and LOW (the comparison is case-sensitive) is listed by the
    default handler after every alert of a known severity. *)
Theorem unknown_severity_listed_last {H : Type} (h : H) (alerts : list ThreatAlert)
    (a b : ThreatAlert) (l1 l2 l3 : list ThreatAlert) :
  Alert.severity a ∈ known_severities →
  Alert.severity b ∉ known_severities →
  shown (_default_alert_handler h alerts).1.2 ≠ l1 ++ b :: l2 ++ a :: l3.
Proof.
  intros Ha Hb Hshown.
  assert (Hl : shown (_default_alert_handler h alerts).1.2 = sorted severity_key alerts).
  { unfold _default_alert_handler. simpl. apply shown_imap. }
  rewrite Hl in Hshown.
  pose proof (sorted_sorted severity_key alerts) as Hsorted. rewrite Hshown in Hsorted.
  apply StronglySorted_app in Hsorted as (_ & _ & Hsorted).
  apply StronglySorted_cons in Hsorted as [Hall _].
  rewrite Forall_app, Forall_cons in Hall. destruct Hall as (_ & Hba & _).
  pose proof (severity_key_known a Ha). pose proof (severity_key_unknown b Hb). lia.
Qed.

(** ** Runs of the scheduler *)

Section Runs.

#[local] Open Scope Z_scope.

Variable H : Type.
Variable search : Z → string → list string → string → result response.
Variable alert_callback : H → list ThreatAlert → H * list sink_event * result unit.

Let cycle := _monitoring_cycle H search alert_callback.
Let turn := loop_body H search alert_callback.
Let loop := monitoring_loop H search alert_callback.

Implicit Types (w : world H) (e : exn).

Lemma sleeps_app (evs evs' : list event) : sleeps (evs ++ evs') = sleeps evs ++ sleeps evs'.
Proof. apply omap_app. Qed.

(** A cycle does not sleep. *)
Lemma cycle_no_sleep w : sleeps (cycle w).1.2 = [].
Proof.
  unfold cycle, _monitoring_cycle.
  destruct (collect_alerts _ _ _) as [[|a l]|]; simpl; try done.
  destruct (alert_callback _ _) as [[h sevs] r].
  assert (Hs : sleeps (map Sink sevs) = []).
  { clear. induction sevs as [|s sevs IH]; simpl; [done | exact IH]. }
  by destruct r.
Qed.

(** A turn sleeps once, for the interval after a cycle that ended normally
    and for 60 seconds after one that raised, and leaves the running flag
    alone. *)
Lemma turn_sleeps_once interval_minutes w :
  (sleeps (turn interval_minutes w).2 = [interval_minutes * 60] ∨
   sleeps (turn interval_minutes w).2 = [60]) ∧
  monitoring_active (self (turn interval_minutes w).1) = monitoring_active (self w).
Proof.
  pose proof (cycle_no_sleep w) as Hs.
  destruct (cycle_preserves H search alert_callback w) as (Hact & _ & _).
  unfold turn, loop_body. fold cycle in Hact |- *.
  destruct (cycle w) as [[w1 evs] [u|e]]; simpl in *;
    rewrite sleeps_app, Hs; simpl; split; auto.
Qed.

(** The turns during which nobody asks to stop: the loop goes through them
    one by one and comes to the rest of the schedule with the flag still
    set. *)
Lemma loop_through_quiet_turns interval_minutes (quiet : list bool) w :
  monitoring_active (self w) = true →
  Forall (fun stop => stop = false) quiet →
  ∃ w' evs,
    monitoring_active (self w') = true ∧
    length (sleeps evs) = length quiet ∧
    Forall (fun s => s = interval_minutes * 60 ∨ s = 60) (sleeps evs) ∧
    ∀ rest,
      loop interval_minutes (quiet ++ rest) w =
      ((loop interval_minutes rest w').1.1,
       evs ++ (loop interval_minutes rest w').1.2,
       (loop interval_minutes rest w').2).
Proof.
  intros Hactive Hquiet. revert w Hactive.
  induction Hquiet as [|stop quiet -> _ IH]; intros w Hactive.
  - exists w, []. split_and!; [done | done | done |].
    intros rest. simpl. by destruct (loop interval_minutes rest w) as [[? ?] ?].
  - destruct (turn_sleeps_once interval_minutes w) as [Hsleep Hact].
    rewrite Hactive in Hact.
    destruct (IH _ Hact) as (w' & evs & Hact' & Hlen & Hall & Hrest).
    exists w', ((turn interval_minutes w).2 ++ evs). split_and!.
    + done.
    + rewrite sleeps_app, length_app, Hlen. by destruct Hsleep as [-> | ->].
    + rewrite sleeps_app. apply Forall_app. split; [|done].
      destruct Hsleep as [-> | ->]; (constructor; [auto | constructor]).
    + intros rest. specialize (Hrest rest).
      unfold loop in *. simpl. rewrite Hactive. fold turn.
      destruct (turn interval_minutes w) as [w1 evs1]. simpl in *.
      rewrite Hrest. by rewrite <- app_assoc.
Qed.

(** A turn of the loop is a cycle, the report of its outcome and the wait
    that goes with the outcome. *)
Lemma turn_as_announced interval_minutes w :
  turn interval_minutes w =
  (sleep H (wait_after interval_minutes (cycle w).2) (cycle w).1.1,
   (cycle w).1.2 ++ [report_after interval_minutes (cycle w).2;
                     Sleep (wait_after interval_minutes (cycle w).2)]).
Proof.
  unfold turn, loop_body. fold cycle. by destruct (cycle w) as [[w1 evs] [u|e]].
Qed.

(** The turns during which nobody asks to stop are cycles in a row: the
    loop comes to the rest of the schedule in the state, and after the
    events, of continuous monitoring. *)
Lemma loop_continuous interval_minutes (quiet : list bool) w :
  monitoring_active (self w) = true →
  Forall (fun stop => stop = false) quiet →
  let monitored :=
    continuous_monitoring H search alert_callback interval_minutes (length quiet) w in
  monitoring_active (self monitored.1) = true ∧
  ∀ rest,
    loop interval_minutes (quiet ++ rest) w =
    ((loop interval_minutes rest monitored.1).1.1,
     monitored.2 ++ (loop interval_minutes rest monitored.1).1.2,
     (loop interval_minutes rest monitored.1).2).
Proof.
  intros Hactive Hquiet. revert w Hactive.
  induction Hquiet as [|stop quiet -> _ IH]; intros w Hactive.
  - simpl. split; [done |].
    intros rest. by destruct (loop interval_minutes rest w) as [[? ?] ?].
  - destruct (turn_sleeps_once interval_minutes w) as [_ Hact].
    rewrite Hactive in Hact. rewrite turn_as_announced in Hact. cbn [fst] in Hact.
    destruct (IH _ Hact) as [Hact' Hrest]. cbv zeta in Hact', Hrest.
    cbn [length continuous_monitoring]. fold cycle.
    destruct (cycle w) as [[w1 evs1] outcome] eqn:Hcycle. cbn [fst snd] in *.
    destruct (continuous_monitoring H search alert_callback interval_minutes
                (length quiet) (sleep H (wait_after interval_minutes outcome) w1))
      as [w2 evs2] eqn:Hcont. cbn [fst snd] in *.
    split; [done |].
    intros rest. specialize (Hrest rest).
    unfold loop in *. cbn [app monitoring_loop]. rewrite Hactive. fold turn.
    rewrite turn_as_announced, Hcycle. cbn [fst snd].
    rewrite Hrest. cbn [fst snd]. by rewrite <- !app_assoc.
Qed.

(** X14. As long as nobody asks to stop, the scheduler keeps running:
    against a schedule of [n] turns without a stop request the loop runs
    [n] cycles in a row, each one on the state the wait before it left and
    followed by the report of its outcome and by one wait, of the interval
    after a cycle that ended normally and of 60 seconds after one that
    raised; it is still running, with its flag set, when the schedule is
    used up. *)
Theorem scheduler_runs_until_stopped interval_minutes (stops : list bool) w :
  monitoring_active (self w) = true →
  Forall (fun stop => stop = false) stops →
  let monitored :=
    continuous_monitoring H search alert_callback interval_minutes (length stops) w in
  loop interval_minutes stops w = (monitored.1, monitored.2, StillRunning) ∧
  (∀ stops', stops = false :: stops' →
     (loop interval_minutes stops w).1.2 =
       (cycle w).1.2 ++
       [report_after interval_minutes (cycle w).2;
        Sleep (wait_after interval_minutes (cycle w).2)] ++
       (loop interval_minutes stops'
          (sleep H (wait_after interval_minutes (cycle w).2) (cycle w).1.1)).1.2) ∧
  (loop interval_minutes stops w).2 = StillRunning ∧
  monitoring_active (self (loop interval_minutes stops w).1.1) = true ∧
  length (sleeps (loop interval_minutes stops w).1.2) = length stops ∧
  Forall (fun s => s = interval_minutes * 60 ∨ s = 60)
    (sleeps (loop interval_minutes stops w).1.2).
Proof.
  intros Hactive Hquiet monitored.
  destruct (loop_continuous interval_minutes stops w Hactive Hquiet) as [Hflag Hcont].
  cbv zeta in Hflag, Hcont. fold monitored in Hflag, Hcont.
  assert (Hloop : loop interval_minutes stops w = (monitored.1, monitored.2, StillRunning)).
  { specialize (Hcont []). rewrite app_nil_r in Hcont. rewrite Hcont.
    unfold loop. simpl. rewrite Hflag. simpl. by rewrite app_nil_r. }
  destruct (loop_through_quiet_turns interval_minutes stops w Hactive Hquiet)
    as (w' & evs & Hact' & Hlen & Hall & Hrest).
  specialize (Hrest []). rewrite app_nil_r in Hrest.
  split; [done |]. split.
  - intros stops' ->.
    pose proof (loop_turn_no_stop H search alert_callback interval_minutes stops' w Hactive)
      as Hturn.
    fold loop turn in Hturn. rewrite Hturn, turn_as_announced. cbn [fst snd].
    by rewrite <- !app_assoc.
  - rewrite Hrest. unfold loop. simpl. rewrite Hact'. simpl. by rewrite app_nil_r.
Qed.

(** X15. A stop request takes effect at the end of the turn it falls in.
    After the cycles of the turns before it, the cycle in flight is
    completed, its outcome is reported and the wait that goes with the
    outcome is completed too; then the flag is cleared and
    [start_monitoring] returns.  No later turn of the schedule is taken, so
    no further cycle is run. *)
Theorem stop_takes_effect_after_turn interval_minutes (quiet later : list bool) w :
  monitoring_active (self w) = true →
  Forall (fun stop => stop = false) quiet →
  let before :=
    continuous_monitoring H search alert_callback interval_minutes (length quiet) w in
  let in_flight := cycle before.1 in
  let seconds := wait_after interval_minutes in_flight.2 in
  loop interval_minutes (quiet ++ true :: later) w =
    (stop_monitoring H (sleep H seconds in_flight.1.1),
     before.2 ++ in_flight.1.2 ++
       [report_after interval_minutes in_flight.2; Sleep seconds; StopRequested],
     Returned) ∧
  (loop interval_minutes (quiet ++ true :: later) w).2 = Returned ∧
  monitoring_active (self (loop interval_minutes (quiet ++ true :: later) w).1.1) = false ∧
  length (sleeps (loop interval_minutes (quiet ++ true :: later) w).1.2)
    = S (length quiet) ∧
  last (loop interval_minutes (quiet ++ true :: later) w).1.2 = Some StopRequested ∧
  loop interval_minutes (quiet ++ true :: later) w =
  loop interval_minutes (quiet ++ [true]) w.
Proof.
  intros Hactive Hquiet before in_flight seconds.
  destruct (loop_continuous interval_minutes quiet w Hactive Hquiet) as [Hflag Hcont].
  cbv zeta in Hflag, Hcont. fold before in Hflag, Hcont.
  assert (Hstop' : ∀ rest, loop interval_minutes (true :: rest) before.1 =
    (stop_monitoring H (sleep H seconds in_flight.1.1),
     in_flight.1.2 ++
       [report_after interval_minutes in_flight.2; Sleep seconds; StopRequested],
     Returned)).
  { intros rest. unfold loop. simpl. rewrite Hflag. fold turn.
    rewrite turn_as_announced. fold in_flight seconds. cbn [fst snd].
    destruct rest; simpl; by rewrite app_nil_r, <- app_assoc. }
  split; [by rewrite Hcont, Hstop' |].
  destruct (loop_through_quiet_turns interval_minutes quiet w Hactive Hquiet)
    as (w' & evs & Hact' & Hlen & Hall & Hrest).
  assert (Hstop : ∀ rest, loop interval_minutes (true :: rest) w' =
    (stop_monitoring H (turn interval_minutes w').1,
     (turn interval_minutes w').2 ++ [StopRequested], Returned)).
  { intros rest. unfold loop. simpl. rewrite Hact'. fold turn.
    destruct (turn interval_minutes w') as [w1 evs1]. simpl.
    destruct rest; simpl; by rewrite app_nil_r. }
  rewrite !Hrest, !Hstop. simpl. split_and!; try done.
  - rewrite !sleeps_app, !length_app, Hlen. simpl.
    destruct (turn_sleeps_once interval_minutes w') as [[-> | ->] _]; simpl; lia.
  - by rewrite !app_assoc, last_snoc.
Qed.

End Runs.

(** ** The further properties on example runs *)

Lemma batch_in_category_order_witness :
  ∃ c z,
    (_monitoring_cycle _ two_criticals_search handle_alerts fresh_custom_world).1.2 =
      Dispatch (c ++ [] ++ [] ++ z ++ []) ::
      map Sink (handle_alerts [] (c ++ [] ++ [] ++ z ++ [])).1.2 ∧
    Alert.severity <$> (c ++ z) = ["CRITICAL"; "CRITICAL"].
Proof.
  eexists _, _. split.
  - refine (proj1 (proj2 (proj2
      (batch_in_category_order _ two_criticals_search handle_alerts
         fresh_custom_world _ _ _ _ _ _ _ _ _ _ _)))).
    + vm_compute. reflexivity.
    + vm_compute. reflexivity.
    + vm_compute. reflexivity.
    + vm_compute. reflexivity.
    + vm_compute. reflexivity.
    + discriminate.
  - reflexivity.
Defined.

Lemma monitor_alerts_never_logged_witness :
  ∃ alerts,
    collect_alerts mock_search (__init__ 0) 0 = Ok alerts ∧
    Forall (fun a => Alert.severity a ∈ ["EMERGENCY"; "CRITICAL"; "HIGH"]) alerts.
Proof.
  eexists. split.
  - vm_compute. reflexivity.
  - refine (proj1 (monitor_alerts_never_logged mock_search (__init__ 0) 0 _ _)).
    vm_compute. reflexivity.
Defined.

Lemma callback_failure_ends_cycle_witness :
  ∃ batch,
    _monitoring_cycle _ mock_search failing_callback fresh_counting_world =
    (set_sink _ [4%nat] fresh_counting_world, [Dispatch batch],
     Raise (Exception "sink unreachable")).
Proof.
  eexists.
  refine (proj1 (callback_failure_ends_cycle _ mock_search failing_callback
                   fresh_counting_world _ _ [4%nat] [] (Exception "sink unreachable") _ _)).
  - vm_compute. reflexivity.
  - vm_compute. reflexivity.
Defined.

Lemma no_documents_no_dispatch_witness :
  _monitoring_cycle () no_documents_search _default_alert_handler fresh_world =
  (set_last_check () fresh_world, [NoThreats], Ok ()).
Proof.
  refine (proj1 (no_documents_no_dispatch () no_documents_search _default_alert_handler
                   fresh_world _)).
  intros query sources timeframe. eexists. split; [reflexivity | left; reflexivity].
Defined.

Lemma unknown_severity_listed_last_witness :
  shown (_default_alert_handler ()
           [sample_alert "A-5" "high" 9.9; sample_alert "A-3" "LOW" 2.0]).1.2
  ≠ [] ++ sample_alert "A-5" "high" 9.9 :: [] ++ sample_alert "A-3" "LOW" 2.0 :: [].
Proof.
  apply (unknown_severity_listed_last ()).
  - apply (bool_decide_unpack _). vm_compute. exact I.
  - apply (bool_decide_unpack _). vm_compute. exact I.
Defined.

Lemma scheduler_runs_until_stopped_witness :
  monitoring_loop () mock_search _default_alert_handler 15 [false; false; false]
    running_world =
  ((continuous_monitoring () mock_search _default_alert_handler 15 3 running_world).1,
   (continuous_monitoring () mock_search _default_alert_handler 15 3 running_world).2,
   StillRunning).
Proof.
  refine (proj1 (scheduler_runs_until_stopped () mock_search _default_alert_handler 15
                   [false; false; false] running_world _ _)).
  - reflexivity.
  - repeat constructor.
Defined.

(** Three turns on the mock search: three batches, each followed by a wait
    of a quarter of an hour. *)
Example three_quiet_turns :
  let run :=
    monitoring_loop () mock_search _default_alert_handler 15 [false; false; false]
      running_world in
  length (dispatched run.1.2) = 3%nat ∧
  sleeps run.1.2 = [900; 900; 900]%Z ∧
  clock run.1.1 = 2700%Z.
Proof. vm_compute. done. Qed.

Lemma stop_takes_effect_after_turn_witness :
  let before :=
    continuous_monitoring () mock_search _default_alert_handler 15 1 running_world in
  let in_flight := _monitoring_cycle () mock_search _default_alert_handler before.1 in
  monitoring_loop () mock_search _default_alert_handler 15
    ([false] ++ true :: [false; false]) running_world =
  (stop_monitoring () (sleep () (wait_after 15 in_flight.2) in_flight.1.1),
   before.2 ++ in_flight.1.2 ++
     [report_after 15 in_flight.2; Sleep (wait_after 15 in_flight.2); StopRequested],
   Returned).
Proof.
  refine (proj1 (stop_takes_effect_after_turn () mock_search _default_alert_handler 15
                   [false] [false; false] running_world _ _)).
  - reflexivity.
  - repeat constructor.
Defined.

(** * Properties of the basic agent *)

Section BasicAgentFacts.

Import BasicAgent Assess.

#[local] Arguments Py.any_in : simpl never.
#[local] Arguments Py.contains : simpl never.

Implicit Types (d first : gmap string value) (docs rest : list (gmap string value)).

Lemma Qle_bool_false (x y : Q) : Qle_bool x y = false ↔ (y < x)%Q.
Proof.
  split.
  - intros Hf. apply Qnot_le_lt. intros Hle. apply Qle_bool_iff in Hle. congruence.
  - intros Hlt. destruct (Qle_bool x y) eqn:Hb; [|done].
    apply Qle_bool_iff in Hb. by destruct (Qlt_not_le _ _ Hlt).
Qed.

(** X16. [_assess_vulnerability_severity] looks at the score of the
    first document only and grades it in four bands: CRITICAL from 9.0,
    HIGH from 7.0, MEDIUM from 4.0 and LOW below. *)
Theorem vulnerability_severity_bands first rest (q : Q) :
  as_number (dict_get first "cvss_score" (VNum 0)) = Ok q →
  (_assess_vulnerability_severity (first :: rest) = Ok "CRITICAL" ↔ (9.0 <= q)%Q) ∧
  (_assess_vulnerability_severity (first :: rest) = Ok "HIGH" ↔
   (7.0 <= q)%Q ∧ (q < 9.0)%Q) ∧
  (_assess_vulnerability_severity (first :: rest) = Ok "MEDIUM" ↔
   (4.0 <= q)%Q ∧ (q < 7.0)%Q) ∧
  (_assess_vulnerability_severity (first :: rest) = Ok "LOW" ↔ (q < 4.0)%Q) ∧
  _assess_vulnerability_severity (first :: rest) = _assess_vulnerability_severity [first].
Proof.
  intros Hq. unfold _assess_vulnerability_severity, py_ge. rewrite Hq. simpl.
  destruct (Qle_bool 9.0 q) eqn:H9; [|destruct (Qle_bool 7.0 q) eqn:H7;
    [|destruct (Qle_bool 4.0 q) eqn:H4]];
    rewrite ?Qle_bool_iff, ?Qle_bool_false in *;
    split_and!; try done;
    (split;
     [intros Heq; first [done | split; lra | lra]
     |intros Hb; first [done | destruct Hb; lra | lra]]).
Qed.

Lemma exploitation_flag (exploit_docs : list (gmap string value)) :
  bool_decide (0 < length exploit_docs)%nat = true ↔ exploit_docs ≠ [].
Proof.
  rewrite bool_decide_eq_true. destruct exploit_docs; simpl; split; try done; lia.
Qed.

(** X17. [_calculate_priority] grades the score of the first document of
    the lookup (0 when the lookup is empty) together with the presence of
    exploitation intelligence: EMERGENCY needs a score from 9.0 and
    exploitation, HIGH a score from 7.0 and exploitation; without
    exploitation the priority is MEDIUM from 7.0 and LOW below, never more. *)
Theorem priority_rules (nvd_docs exploit_docs : list (gmap string value)) (q : Q) :
  as_number (cvss_of nvd_docs) = Ok q →
  (_calculate_priority nvd_docs exploit_docs = Ok "EMERGENCY" ↔
   (9.0 <= q)%Q ∧ exploit_docs ≠ []) ∧
  (_calculate_priority nvd_docs exploit_docs = Ok "HIGH" ↔
   (7.0 <= q)%Q ∧ (q < 9.0)%Q ∧ exploit_docs ≠ []) ∧
  (_calculate_priority nvd_docs exploit_docs = Ok "MEDIUM" ↔
   ((7.0 <= q)%Q ∧ exploit_docs = []) ∨ ((q < 7.0)%Q ∧ exploit_docs ≠ [])) ∧
  (_calculate_priority nvd_docs exploit_docs = Ok "LOW" ↔
   (q < 7.0)%Q ∧ exploit_docs = []).
Proof.
  intros Hq. unfold _calculate_priority, py_ge. fold (cvss_of nvd_docs).
  rewrite Hq. simpl.
  pose proof (exploitation_flag exploit_docs) as Hflag.
  destruct (bool_decide (0 < length exploit_docs)%nat) eqn:Hex.
  - assert (Hne : exploit_docs ≠ []) by by apply Hflag.
    destruct (Qle_bool 9.0 q) eqn:H9; [|destruct (Qle_bool 7.0 q) eqn:H7];
      rewrite ?Qle_bool_iff, ?Qle_bool_false in *; simpl;
      intuition (try done; try lra; try congruence).
  - assert (He : exploit_docs = []).
    { destruct exploit_docs; [done |]. by destruct (proj2 Hflag). }
    destruct (Qle_bool 9.0 q) eqn:H9; destruct (Qle_bool 7.0 q) eqn:H7;
      rewrite ?Qle_bool_iff, ?Qle_bool_false in *; simpl;
      intuition (try done; try lra; try congruence).
Qed.

(** X18. The two gradings [analyze_vulnerability] puts side by side in
    its report agree: a priority EMERGENCY goes with the severity CRITICAL
    and a priority HIGH with the severity HIGH, a CRITICAL vulnerability
    under exploitation has priority EMERGENCY, and one helper raises exactly
    when the other does.  Only on an empty lookup do they part: the
    severity is UNKNOWN while the priority is computed from a score of 0. *)
Theorem priority_agrees_with_severity (nvd_docs exploit_docs : list (gmap string value)) :
  (_calculate_priority nvd_docs exploit_docs = Ok "EMERGENCY" →
   _assess_vulnerability_severity nvd_docs = Ok "CRITICAL") ∧
  (_calculate_priority nvd_docs exploit_docs = Ok "HIGH" →
   _assess_vulnerability_severity nvd_docs = Ok "HIGH") ∧
  (_assess_vulnerability_severity nvd_docs = Ok "CRITICAL" → exploit_docs ≠ [] →
   _calculate_priority nvd_docs exploit_docs = Ok "EMERGENCY") ∧
  (∀ e, _calculate_priority nvd_docs exploit_docs = Raise e ↔
        _assess_vulnerability_severity nvd_docs = Raise e) ∧
  (_assess_vulnerability_severity nvd_docs = Ok "UNKNOWN" →
   (exploit_docs = [] → _calculate_priority nvd_docs exploit_docs = Ok "LOW") ∧
   (exploit_docs ≠ [] → _calculate_priority nvd_docs exploit_docs = Ok "MEDIUM")).
Proof.
  pose proof (exploitation_flag exploit_docs) as Hflag.
  unfold _calculate_priority, _assess_vulnerability_severity, py_ge.
  destruct nvd_docs as [|first rest].
  - simpl. destruct (bool_decide (0 < length exploit_docs)%nat);
      intuition (try done; try congruence).
  - destruct (as_number (dict_get first "cvss_score" (VNum 0))) as [q|e0]; simpl.
    + destruct (bool_decide (0 < length exploit_docs)%nat);
        destruct (Qle_bool 9.0 q) eqn:H9; destruct (Qle_bool 7.0 q) eqn:H7;
        destruct (Qle_bool 4.0 q) eqn:H4;
        rewrite ?Qle_bool_iff, ?Qle_bool_false in *; simpl;
        intuition (try done; try lra; try congruence).
    + intuition (try done; try congruence).
Qed.

(** *** Counting documents *)

Lemma is_recent_text d : date_is_text d → is_recent d = Ok (published_in_2024 d).
Proof. intros [date Hd]. unfold is_recent, published_in_2024. by rewrite Hd. Qed.

Lemma is_recent_raise d e : is_recent d = Raise e → e = TypeError.
Proof.
  unfold is_recent. destruct (dict_get d "published_date" (VStr "")); simpl; congruence.
Qed.

Lemma mentions_critical_text d :
  content_is_text d → mentions_critical d = Ok (critical_wording d).
Proof. intros [body Hd]. unfold mentions_critical, critical_wording. by rewrite Hd. Qed.

Lemma mentions_critical_raise d e : mentions_critical d = Raise e → e = AttributeError.
Proof.
  unfold mentions_critical.
  destruct (dict_get d "content" (VStr "")); simpl; congruence.
Qed.

(** A comprehension whose test does not raise keeps the documents that
    pass the test. *)
Lemma filter_docs_Ok (p : gmap string value → result bool) (b : gmap string value → bool)
    docs :
  Forall (fun d => p d = Ok (b d)) docs →
  filter_docs p docs = Ok (filter (fun d => b d = true) docs).
Proof.
  induction 1 as [|d docs Hd _ IH]; simpl; [done |].
  rewrite Hd, IH. simpl. rewrite filter_cons.
  destruct (b d); by case_decide.
Qed.

(** The outcome of a comprehension does not depend on the order of the
    documents, when its test can raise one exception only. *)
Lemma filter_docs_perm (p : gmap string value → result bool) (e0 : exn) docs docs' :
  (∀ d e, p d = Raise e → e = e0) →
  docs ≡ₚ docs' →
  match filter_docs p docs, filter_docs p docs' with
  | Ok kept, Ok kept' => kept ≡ₚ kept'
  | Raise e, Raise e' => e = e'
  | _, _ => False
  end.
Proof.
  intros Hraise Hperm.
  induction Hperm as [|x l l' _ IH|x y l|l l' l'' _ IH1 _ IH2]; simpl.
  - done.
  - destruct (p x) as [b|e]; simpl; [|done].
    destruct (filter_docs p l), (filter_docs p l'); simpl; try done.
    destruct b; [by constructor | done].
  - destruct (p x) as [bx|ex] eqn:Hx, (p y) as [by_|ey] eqn:Hy; simpl.
    + destruct (filter_docs p l); simpl; [|done].
      destruct bx, by_; try done. apply perm_swap.
    + done.
    + done.
    + by rewrite (Hraise _ _ Hx), (Hraise _ _ Hy).
  - destruct (filter_docs p l), (filter_docs p l'), (filter_docs p l''); try done.
    + by etrans.
    + congruence.
Qed.

(** X19. The threat level and the sector risk do not depend on the order
    in which the search returned the documents, whether the helper ends with
    a grade or with an exception. *)
Theorem assessments_ignore_order docs docs' :
  docs ≡ₚ docs' →
  _assess_threat_level docs = _assess_threat_level docs' ∧
  _assess_sector_risk docs = _assess_sector_risk docs'.
Proof.
  intros Hperm.
  pose proof (filter_docs_perm is_recent TypeError docs docs' is_recent_raise Hperm) as Hrecent.
  destruct docs as [|d docs], docs' as [|d' docs'];
    [done | by apply Permutation_nil_cons in Hperm
    | symmetry in Hperm; by apply Permutation_nil_cons in Hperm |].
  unfold _assess_threat_level, _assess_sector_risk.
  destruct (filter_docs is_recent (d :: docs)) as [kept|e],
           (filter_docs is_recent (d' :: docs')) as [kept'|e']; try done; simpl.
  - pose proof (filter_docs_perm mentions_critical AttributeError kept kept'
                  mentions_critical_raise Hrecent) as Hcritical.
    rewrite (Permutation_length Hrecent). split; [done |].
    destruct (filter_docs mentions_critical kept) as [c|e],
             (filter_docs mentions_critical kept') as [c'|e']; try done; simpl.
    + by rewrite (Permutation_length Hcritical).
    + by rewrite Hcritical.
  - by rewrite Hrecent.
Qed.

(** X20. On documents whose publication date is a string or is missing,
    [_assess_threat_level] grades the number of documents with "2024" in
    their date: HIGH from five, MEDIUM from two, LOW below; a document
    without a date counts as not recent. *)
Theorem threat_level_bands docs :
  docs ≠ [] →
  Forall date_is_text docs →
  let recent := length (filter (fun d => published_in_2024 d = true) docs) in
  (_assess_threat_level docs = Ok "HIGH" ↔ (5 ≤ recent)%nat) ∧
  (_assess_threat_level docs = Ok "MEDIUM" ↔ (2 ≤ recent < 5)%nat) ∧
  (_assess_threat_level docs = Ok "LOW" ↔ (recent < 2)%nat) ∧
  _assess_threat_level docs ≠ Ok "UNKNOWN".
Proof.
  intros Hne Hdates recent.
  assert (Hf : filter_docs is_recent docs
               = Ok (filter (fun d => published_in_2024 d = true) docs)).
  { apply filter_docs_Ok. eapply Forall_impl; [exact Hdates |]. apply is_recent_text. }
  unfold _assess_threat_level. destruct docs as [|d docs]; [done |].
  rewrite Hf. unfold mbind, result_bind. fold recent.
  destruct (5 <=? recent)%nat eqn:H5; [|destruct (2 <=? recent)%nat eqn:H2];
    rewrite ?Nat.leb_le, ?Nat.leb_gt in *;
    intuition (try done; try lia; try congruence).
Qed.

(** X21. On documents whose publication date is a string or is missing,
    [_assess_sector_risk] counts the documents of 2024 and, among them, those
    whose body has a critical keyword: CRITICAL from three such documents,
    HIGH from one of them or from five documents of 2024, MEDIUM from two
    documents of 2024, LOW otherwise.  The body of a document that is not of
    2024 is not looked at. *)
Theorem sector_risk_bands docs :
  docs ≠ [] →
  Forall date_is_text docs →
  Forall (fun d => published_in_2024 d = true → content_is_text d) docs →
  let recent := length (filter (fun d => published_in_2024 d = true) docs) in
  let critical :=
    length (filter (fun d => published_in_2024 d = true ∧ critical_wording d = true) docs) in
  (_assess_sector_risk docs = Ok "CRITICAL" ↔ (3 ≤ critical)%nat) ∧
  (_assess_sector_risk docs = Ok "HIGH" ↔
   (critical < 3)%nat ∧ ((1 ≤ critical)%nat ∨ (5 ≤ recent)%nat)) ∧
  (_assess_sector_risk docs = Ok "MEDIUM" ↔ critical = 0%nat ∧ (2 ≤ recent < 5)%nat) ∧
  (_assess_sector_risk docs = Ok "LOW" ↔ critical = 0%nat ∧ (recent < 2)%nat).
Proof.
  intros Hne Hdates Hbodies recent critical.
  assert (Hf : filter_docs is_recent docs
               = Ok (filter (fun d => published_in_2024 d = true) docs)).
  { apply filter_docs_Ok. eapply Forall_impl; [exact Hdates |]. apply is_recent_text. }
  assert (Hc : filter_docs mentions_critical
                 (filter (fun d => published_in_2024 d = true) docs)
               = Ok (filter (fun d => critical_wording d = true)
                       (filter (fun d => published_in_2024 d = true) docs))).
  { apply filter_docs_Ok. apply Forall_forall. intros d Hd.
    apply list_elem_of_filter in Hd as [Hrecent Hd].
    apply mentions_critical_text. by apply (proj1 (Forall_forall _ _) Hbodies). }
  rewrite list_filter_filter in Hc.
  unfold _assess_sector_risk. destruct docs as [|d docs]; [done |].
  rewrite Hf. unfold mbind, result_bind. rewrite Hc. fold recent.
  assert (Hcount :
    length (filter (fun d0 => critical_wording d0 = true ∧ published_in_2024 d0 = true)
              (d :: docs)) = critical).
  { unfold critical. f_equal. apply list_filter_iff. intros x. tauto. }
  rewrite Hcount.
  destruct (3 <=? critical)%nat eqn:H3; [|destruct (1 <=? critical)%nat eqn:H1;
    [|destruct (5 <=? recent)%nat eqn:H5; [|destruct (2 <=? recent)%nat eqn:H2]]];
    rewrite ?Nat.leb_le, ?Nat.leb_gt in *; cbn [orb];
    intuition (try done; try lia; try congruence).
Qed.

End BasicAgentFacts.

(** ** The helpers that write text *)

Section BasicAgentText.

Import BasicAgent Assess.

#[local] Arguments Py.any_in : simpl never.
#[local] Arguments Py.contains : simpl never.

Variable str_of_number : Q → string.

Implicit Types (d : gmap string value) (docs : list (gmap string value)).

(** *** The loop of a helper *)

(** A loop that ends normally found no document on which its body raises,
    and appended the items of the others in order. *)
Lemma for_each_Ok {A : Type} (body : gmap string value → result (option A))
    docs (items out : list A) :
  for_each body docs items = Ok out →
  Forall (fun d => ∃ o, body d = Ok o) docs ∧
  out = items ++ omap (fun d => match body d with Ok o => o | Raise _ => None end) docs.
Proof.
  revert items. induction docs as [|d docs IH]; intros items; simpl.
  - intros [= <-]. by rewrite app_nil_r.
  - destruct (body d) as [[item|]|e] eqn:Hb; [| |done].
    + intros Hout. destruct (IH _ Hout) as [Hall ->].
      split; [constructor; eauto |]. by rewrite <- app_assoc.
    + intros Hout. destruct (IH _ Hout) as [Hall ->].
      split; [constructor; eauto | done].
Qed.

Lemma length_omap_le {A B : Type} (f : A → option B) (l : list A) :
  (length (omap f l) ≤ length l)%nat.
Proof. induction l as [|x l IH]; csimpl; [done |]. destruct (f x); csimpl; lia. Qed.

Lemma length_omap_filter {A B : Type} (f : A → option B) (b : A → bool) (l : list A) :
  (∀ x, is_Some (f x) ↔ b x = true) →
  length (omap f l) = length (filter (fun x => b x = true) l).
Proof.
  intros Hfb. induction l as [|x l IH]; csimpl; [done |].
  rewrite filter_cons. pose proof (Hfb x) as Hx.
  destruct (f x) as [y|]; case_decide as Hbx; csimpl.
  - by rewrite IH.
  - destruct Hbx. apply Hx. eauto.
  - apply Hx in Hbx. by destruct Hbx.
  - done.
Qed.

(** *** Sentences *)

Lemma contains_nil_r (sub : string) : Py.contains sub "" = Py.startswith sub "".
Proof. unfold Py.contains. by rewrite orb_false_r. Qed.

Lemma contains_cons (sub : string) (c : ascii) (s : string) :
  Py.contains sub (String c s) = Py.startswith sub (String c s) || Py.contains sub s.
Proof. reflexivity. Qed.

Lemma no_period_cons (c : ascii) (s : string) :
  no_period (String c s) ↔ c ≠ "."%char ∧ no_period s.
Proof.
  unfold no_period. rewrite contains_cons. simpl.
  rewrite orb_false_iff, andb_true_r, bool_decide_eq_false.
  split; intros [Hc ?]; (split; [intros Heq; apply Hc; by rewrite Heq | done]).
Qed.

Lemma split_dot_cons (c : ascii) (s : string) :
  split_dot (String c s) =
  if bool_decide (c = "."%char) then "" :: split_dot s
  else match split_dot s with
       | [] => [String c ""]
       | piece :: pieces => String c piece :: pieces
       end.
Proof. reflexivity. Qed.

(** The first piece of a split is the text before the first period. *)
Lemma head_split_dot (s : string) :
  ∃ first,
    head (split_dot s) = Some first ∧ no_period first ∧
    (s = first ∨ ∃ rest, s = first +:+ "." +:+ rest).
Proof.
  induction s as [|c s (first & Hhead & Hno & Hs)].
  - exists "". split_and!; [done | done | by left].
  - rewrite split_dot_cons. case_bool_decide as Hc.
    + subst c. exists "". split_and!; [done | done |]. right. by exists s.
    + destruct (split_dot s) as [|piece pieces]; [done |].
      injection Hhead as ->. exists (String c first). split_and!.
      * done.
      * by apply no_period_cons.
      * destruct Hs as [-> | [rest ->]]; [by left |]. right. by exists rest.
Qed.

Lemma lower_ascii_period (c : ascii) :
  bool_decide (Py.lower_ascii c = "."%char) = bool_decide (c = "."%char).
Proof. destruct c as [[] [] [] [] [] [] [] []]; reflexivity. Qed.

(** Lower-casing commutes with the split. *)
Lemma split_dot_lower (s : string) :
  split_dot (Py.lower s) = Py.lower <$> split_dot s.
Proof.
  induction s as [|c s IH]; [done |].
  simpl Py.lower. rewrite !split_dot_cons, lower_ascii_period, IH.
  case_bool_decide; [done |]. by destruct (split_dot s).
Qed.

(** A text without a period that starts the string starts its first
    piece. *)
Lemma startswith_first_piece (sub s : string) :
  no_period sub → Py.startswith sub s = true →
  ∃ piece pieces, split_dot s = piece :: pieces ∧ Py.startswith sub piece = true.
Proof.
  revert s. induction sub as [|a sub IH]; intros s Hno Hstart.
  - destruct (head_split_dot s) as (first & Hhead & _).
    destruct (split_dot s) as [|piece pieces]; [done |]. by exists piece, pieces.
  - apply no_period_cons in Hno as [Ha Hno].
    destruct s as [|c s]; [done |]. simpl in Hstart.
    apply andb_true_iff in Hstart as [Hac Hstart]. apply bool_decide_eq_true in Hac.
    subst c. destruct (IH s Hno Hstart) as (piece & pieces & Hsplit & Hp).
    rewrite split_dot_cons, Hsplit. rewrite bool_decide_eq_false_2 by done.
    exists (String a piece), pieces. split; [done |]. simpl.
    by rewrite bool_decide_eq_true_2.
Qed.

(** A text without a period that occurs in the string occurs in one of its
    pieces. *)
Lemma contains_in_piece (sub s : string) :
  no_period sub → Py.contains sub s = true →
  ∃ piece, piece ∈ split_dot s ∧ Py.contains sub piece = true.
Proof.
  intros Hno. induction s as [|c s IH]; intros Hc.
  - exists "". split; [by left | done].
  - rewrite contains_cons in Hc. apply orb_true_iff in Hc as [Hstart | Hc].
    + destruct (startswith_first_piece _ _ Hno Hstart) as (piece & pieces & -> & Hp).
      exists piece. split; [by left |].
      destruct piece; unfold Py.contains; by rewrite Hp.
    + destruct (IH Hc) as (piece & Hin & Hp). rewrite split_dot_cons.
      case_bool_decide; [exists piece; split; [by right | done] |].
      destruct (split_dot s) as [|p0 pieces]; [by apply elem_of_nil in Hin |].
      apply elem_of_cons in Hin as [-> | Hin].
      * exists (String c p0). split; [by left |].
        rewrite contains_cons, Hp. by rewrite orb_true_r.
      * exists piece. split; [by right | done].
Qed.

(** A body that mentions a recommendation has a sentence that does. *)
Lemma recommending_sentence (body : string) :
  Py.contains "recommend" (Py.lower body) = true →
  ∃ i sentence,
    list_find (fun sentence => Py.contains "recommend" (Py.lower sentence) = true)
      (split_dot body) = Some (i, sentence).
Proof.
  intros Hc.
  destruct (contains_in_piece "recommend" (Py.lower body)) as (piece & Hin & Hp);
    [done | done |].
  rewrite split_dot_lower in Hin. apply list_elem_of_fmap in Hin as (sentence & -> & Hin).
  destruct (list_find_elem_of
              (fun sentence => Py.contains "recommend" (Py.lower sentence) = true)
              (split_dot body) sentence Hin Hp) as [[i x] Hfind].
  by exists i, x.
Qed.

(** *** Sector priorities *)

(** The body of the loop yields a priority for every document on which it
    does not raise. *)
Lemma sector_priority_Some d o :
  sector_priority str_of_number d = Ok o → ∃ p, o = Some p.
Proof.
  unfold sector_priority.
  destruct (py_lower (dict_get d "title" (VStr ""))) as [t|]; simpl; [|done].
  destruct (Py.contains "emergency" t).
  - destruct (getitem d "source"); simpl; [|done]. intros [= <-]. eauto.
  - destruct (py_lower (dict_get d "content" (VStr ""))) as [c|]; simpl; [|done].
    destruct (Py.contains "critical" c);
      (destruct (getitem d "source"); simpl; [|done]); intros [= <-]; eauto.
Qed.

Lemma omap_all_Some {A B : Type} (f : A → result (option B)) (l : list A) :
  Forall (fun x => ∃ y, f x = Ok (Some y)) l →
  Forall2 (fun x y => f x = Ok (Some y)) l
    (omap (fun x => match f x with Ok o => o | Raise _ => None end) l).
Proof.
  induction 1 as [|x l [y Hy] _ IH]; csimpl; [constructor |].
  rewrite Hy. csimpl. by constructor.
Qed.

(** X22. [_identify_sector_priorities] writes one priority for each of
    the first three documents, in their order, and reads no document after
    the third: what follows three documents cannot change the outcome. *)
Theorem sector_priorities_first_three docs priorities :
  _identify_sector_priorities str_of_number docs = Ok priorities →
  length priorities = (3 `min` length docs)%nat ∧
  (∀ i p, priorities !! i = Some p →
     ∃ d, docs !! i = Some d ∧ sector_priority str_of_number d = Ok (Some p)) ∧
  ((3 ≤ length docs)%nat →
   ∀ later, _identify_sector_priorities str_of_number (docs ++ later) = Ok priorities).
Proof.
  unfold _identify_sector_priorities. intros Hout.
  destruct (for_each_Ok _ _ _ _ Hout) as [Hall Heq]. simpl in Heq.
  assert (Hsome : Forall (fun d => ∃ p, sector_priority str_of_number d = Ok (Some p))
                    (take 3 docs)).
  { eapply Forall_impl; [exact Hall |]. intros d [o Ho].
    destruct (sector_priority_Some _ _ Ho) as [p ->]. eauto. }
  pose proof (omap_all_Some _ _ Hsome) as Hpairs. rewrite <- Heq in Hpairs.
  split_and!.
  - by rewrite <- (Forall2_length _ _ _ Hpairs), length_take.
  - intros i p Hp.
    destruct (Forall2_lookup_r _ _ _ _ _ Hpairs Hp) as (d & Hd & Hbody).
    apply lookup_take_Some in Hd as [Hd _]. eauto.
  - intros Hlen later. by rewrite take_app_le.
Qed.

(** X23. An emergency in the title takes precedence: the priority is
    URGENT whatever the body is, even one that is not a string; otherwise a
    body that mentions "critical" gives HIGH, and any other body MEDIUM. *)
Theorem emergency_title_takes_precedence d title source :
  dict_get d "title" (VStr "") = VStr title →
  d !! "source" = Some source →
  (contains_ignoring_case "emergency" title →
   sector_priority str_of_number d =
   Ok (Some ("URGENT: Review " +:+ py_str str_of_number source
             +:+ " emergency guidance - " +:+ title))) ∧
  (∀ body, ¬ contains_ignoring_case "emergency" title →
     dict_get d "content" (VStr "") = VStr body →
     (contains_ignoring_case "critical" body →
      sector_priority str_of_number d =
      Ok (Some ("HIGH: Implement " +:+ py_str str_of_number source
                +:+ " security recommendations"))) ∧
     (¬ contains_ignoring_case "critical" body →
      sector_priority str_of_number d =
      Ok (Some ("MEDIUM: Monitor " +:+ py_str str_of_number source
                +:+ " threat developments")))).
Proof.
  intros Htitle Hsource. unfold sector_priority, contains_ignoring_case.
  rewrite Htitle, (getitem_Some _ _ _ Hsource). simpl.
  setoid_rewrite <- PyFacts.contains_lower_spec.
  split.
  - by intros ->.
  - intros body Hno Hbody. rewrite Hbody. simpl.
    apply not_true_is_false in Hno. rewrite Hno. split.
    + by intros ->.
    + intros Hc. apply not_true_is_false in Hc. by rewrite Hc.
Qed.

(** *** Key findings *)

Lemma key_finding_Some d finding :
  key_finding str_of_number d = Ok (Some finding) →
  ∃ source body first,
    d !! "source" = Some source ∧
    d !! "content" = Some (VStr body) ∧ body ≠ "" ∧
    finding = py_str str_of_number source +:+ ": " +:+ first +:+ "." ∧
    no_period first ∧
    (body = first ∨ ∃ rest, body = first +:+ "." +:+ rest).
Proof.
  unfold key_finding, dict_get.
  destruct (d !! "content") as [[| b | q | body]|] eqn:Hc; simpl; try done.
  - by destruct b.
  - by destruct (negb (Qeq_bool q 0)).
  - case_bool_decide as Hb; simpl; [done |].
    destruct (getitem d "source") as [source|] eqn:Hs; simpl; [|done].
    intros [= <-].
    destruct (head_split_dot body) as (first & Hhead & Hno & Hbody).
    exists source, body, first. rewrite Hhead. simpl.
    split_and!; try done. by apply getitem_Ok.
Qed.

(** X24. [_extract_key_findings] writes at most five findings, from the
    first five documents: each is the source of a document with a non-empty
    body, a colon, and the body up to its first period, closed by one
    period. *)
Theorem key_findings_are_first_sentences docs findings :
  _extract_key_findings str_of_number docs = Ok findings →
  (length findings ≤ 5)%nat ∧
  ∀ finding, finding ∈ findings →
    ∃ d source body first,
      d ∈ take 5 docs ∧
      d !! "source" = Some source ∧
      d !! "content" = Some (VStr body) ∧ body ≠ "" ∧
      finding = py_str str_of_number source +:+ ": " +:+ first +:+ "." ∧
      no_period first ∧
      (body = first ∨ ∃ rest, body = first +:+ "." +:+ rest).
Proof.
  unfold _extract_key_findings. intros Hout.
  destruct (for_each_Ok _ _ _ _ Hout) as [Hall Heq]. simpl in Heq. subst findings.
  split.
  - etrans; [apply length_omap_le |]. rewrite length_take. lia.
  - intros finding Hin. apply list_elem_of_omap in Hin as (d & Hd & Hf).
    destruct (key_finding str_of_number d) as [o|] eqn:Hk; [|done]. subst o.
    destruct (key_finding_Some _ _ Hk) as (source & body & first & ?).
    by exists d, source, body, first.
Qed.

(** *** Recommendations *)

(** On a body that is a string, the loop body yields a recommendation
    exactly when the body mentions one: the inner loop always finds its
    sentence. *)
Lemma recommendation_text d body :
  dict_get d "content" (VStr "") = VStr body →
  (recommends d = true →
   ∃ i sentence,
     list_find (fun sentence => Py.contains "recommend" (Py.lower sentence) = true)
       (split_dot body) = Some (i, sentence) ∧
     recommendation d = Ok (Some (strip sentence +:+ "."))) ∧
  (recommends d = false → recommendation d = Ok None).
Proof.
  intros Hbody. unfold recommends, recommendation. rewrite Hbody. simpl. split.
  - intros Hc. rewrite Hc.
    destruct (recommending_sentence body Hc) as (i & sentence & Hfind).
    exists i, sentence. by rewrite Hfind.
  - by intros ->.
Qed.

Lemma recommendation_is_Some d :
  is_Some (match recommendation d with Ok o => o | Raise _ => None end) ↔
  recommends d = true.
Proof.
  destruct (dict_get d "content" (VStr "")) as [| b | q | body] eqn:Hbody.
  1-3: unfold recommends, recommendation; rewrite Hbody; simpl;
       split; [by intros [? ?] | done].
  destruct (recommendation_text d body Hbody) as [Hyes Hno].
  destruct (recommends d) eqn:Hr.
  - destruct (Hyes eq_refl) as (i & sentence & _ & ->). split; [done | eauto].
  - rewrite (Hno eq_refl). split; [by intros [? ?] | done].
Qed.

(** X25. [_generate_recommendations] writes exactly one recommendation
    for each of the first three documents whose body mentions "recommend"
    (up to case), so at most three: the sentence search inside a mentioning
    body never comes back empty.  The recommendation is the first sentence
    of the body with the mention, stripped of surrounding white space and
    closed by a period. *)
Theorem one_recommendation_per_mention docs recommendations :
  _generate_recommendations docs = Ok recommendations →
  length recommendations
    = length (filter (fun d => recommends d = true) (take 3 docs)) ∧
  (length recommendations ≤ 3)%nat ∧
  ∀ r, r ∈ recommendations →
    ∃ d body i sentence,
      d ∈ take 3 docs ∧
      dict_get d "content" (VStr "") = VStr body ∧
      split_dot body !! i = Some sentence ∧
      contains_ignoring_case "recommend" sentence ∧
      (∀ j earlier, split_dot body !! j = Some earlier → (j < i)%nat →
         ¬ contains_ignoring_case "recommend" earlier) ∧
      r = strip sentence +:+ ".".
Proof.
  unfold _generate_recommendations. intros Hout.
  destruct (for_each_Ok _ _ _ _ Hout) as [Hall Heq]. simpl in Heq. subst recommendations.
  split_and!.
  - apply length_omap_filter. apply recommendation_is_Some.
  - etrans; [apply length_omap_le |]. rewrite length_take. lia.
  - intros r Hin. apply list_elem_of_omap in Hin as (d & Hd & Hr).
    destruct (dict_get d "content" (VStr "")) as [| b | q | body] eqn:Hbody.
    1-3: by unfold recommendation in Hr; rewrite Hbody in Hr.
    destruct (recommendation_text d body Hbody) as [Hyes Hno].
    destruct (recommends d) eqn:Hrec; [|by rewrite (Hno eq_refl) in Hr].
    destruct (Hyes eq_refl) as (i & sentence & Hfind & Hrd).
    rewrite Hrd in Hr. injection Hr as <-.
    apply list_find_Some in Hfind as (Hi & Hs & Hmin).
    exists d, body, i, sentence. split_and!; try done.
    + by apply PyFacts.contains_lower_spec.
    + intros j earlier Hj Hlt Hc. apply (Hmin j earlier Hj Hlt).
      by apply PyFacts.contains_lower_spec.
Qed.

End BasicAgentText.

(** ** The basic agent on example documents *)

Lemma vulnerability_severity_bands_witness :
  BasicAgent._assess_vulnerability_severity [cve_doc] = Ok "CRITICAL" ↔ (9.0 <= 9.8)%Q.
Proof.
  exact (proj1 (vulnerability_severity_bands cve_doc [] 9.8%Q eq_refl)).
Defined.

Lemma priority_rules_witness :
  BasicAgent._calculate_priority [cve_doc] [ransomware_doc] = Ok "EMERGENCY" ↔
  (9.0 <= 9.8)%Q ∧ [ransomware_doc] ≠ [].
Proof.
  exact (proj1 (priority_rules [cve_doc] [ransomware_doc] 9.8%Q eq_refl)).
Defined.

(** The scenario of the agent's own mock lookup: CVE-2024-38063, score 9.8,
    with exploitation intelligence. *)
Example analyze_vulnerability_scenario :
  BasicAgent._assess_vulnerability_severity [cve_doc] = Ok "CRITICAL" ∧
  BasicAgent._calculate_priority [cve_doc] [ransomware_doc] = Ok "EMERGENCY" ∧
  BasicAgent._calculate_priority [cve_doc] [] = Ok "MEDIUM" ∧
  BasicAgent._calculate_priority [null_score_doc] [] = Raise TypeError.
Proof. vm_compute. done. Qed.

Lemma assessments_ignore_order_witness :
  BasicAgent._assess_threat_level [ransomware_doc; undated_doc] =
  BasicAgent._assess_threat_level [undated_doc; ransomware_doc].
Proof.
  refine (proj1 (assessments_ignore_order [ransomware_doc; undated_doc]
                   [undated_doc; ransomware_doc] _)).
  apply perm_swap.
Defined.

Lemma threat_level_bands_witness :
  BasicAgent._assess_threat_level [ransomware_doc; undated_doc] = Ok "LOW" ↔
  (length (filter (fun d => Assess.published_in_2024 d = true)
             [ransomware_doc; undated_doc]) < 2)%nat.
Proof.
  refine (proj1 (proj2 (proj2 (threat_level_bands [ransomware_doc; undated_doc] _ _)))).
  - discriminate.
  - repeat constructor; eexists; reflexivity.
Defined.

Lemma sector_risk_bands_witness :
  BasicAgent._assess_sector_risk [ransomware_doc; undated_doc] = Ok "HIGH" ↔
  (length (filter (fun d => Assess.published_in_2024 d = true
                            ∧ Assess.critical_wording d = true)
             [ransomware_doc; undated_doc]) < 3)%nat ∧
  ((1 ≤ length (filter (fun d => Assess.published_in_2024 d = true
                                 ∧ Assess.critical_wording d = true)
                  [ransomware_doc; undated_doc]))%nat ∨
   (5 ≤ length (filter (fun d => Assess.published_in_2024 d = true)
                  [ransomware_doc; undated_doc]))%nat).
Proof.
  refine (proj1 (proj2 (sector_risk_bands [ransomware_doc; undated_doc] _ _ _))).
  - discriminate.
  - repeat constructor; eexists; reflexivity.
  - constructor; [intros _; eexists; reflexivity |].
    constructor; [intros Hf; vm_compute in Hf; discriminate | constructor].
Defined.

Lemma sector_priorities_first_three_witness :
  length ["URGENT: Review CISA emergency guidance - CISA Emergency Directive 24-02";
          "HIGH: Implement CISA security recommendations"]
  = (3 `min` length [directive_doc; ransomware_doc])%nat.
Proof.
  refine (proj1 (sector_priorities_first_three str_of_number_example
                   [directive_doc; ransomware_doc] _ _)).
  vm_compute. reflexivity.
Defined.

Lemma emergency_title_takes_precedence_witness :
  BasicAgent.sector_priority str_of_number_example undated_doc =
  Ok (Some "URGENT: Review FBI emergency guidance - Emergency bulletin").
Proof.
  refine (proj1 (emergency_title_takes_precedence str_of_number_example undated_doc
                   "Emergency bulletin" (VStr "FBI") _ _) _).
  - reflexivity.
  - reflexivity.
  - exists "", "Emergency", " bulletin". split; reflexivity.
Defined.

Lemma key_findings_are_first_sentences_witness :
  (length ["CISA: Comprehensive analysis of ransomware trends."] ≤ 5)%nat.
Proof.
  refine (proj1 (key_findings_are_first_sentences str_of_number_example
                   [ransomware_doc; undated_doc] _ _)).
  vm_compute. reflexivity.
Defined.

Lemma one_recommendation_per_mention_witness :
  length ["CISA Recommends offline backups.";
          "Agencies should follow the Recommendations of CISA."]
  = length (filter (fun d => Assess.recommends d = true)
              (take 3 [ransomware_doc; guidance_doc; directive_doc])).
Proof.
  refine (proj1 (one_recommendation_per_mention
                   [ransomware_doc; guidance_doc; directive_doc] _ _)).
  vm_compute. reflexivity.
Defined.

(** * Properties of the MCP client *)

Section McpClientFacts.

Import McpClient.

Variable post : gmap string json → reply.
Variable dumps : json → string.

Implicit Types (arguments payload : gmap string json) (tool : string).

Lemma call_tool_semantic_search arguments :
  call_tool post dumps "semantic_search" arguments
  = request post dumps (semantic_search_payload arguments).
Proof. reflexivity. Qed.

Lemma call_tool_get_cve_details arguments :
  call_tool post dumps "get_cve_details" arguments
  = request post dumps (get_cve_details_payload arguments).
Proof. reflexivity. Qed.

Lemma call_tool_threat_intelligence_summary arguments :
  call_tool post dumps "threat_intelligence_summary" arguments
  = request post dumps (threat_intelligence_summary_payload arguments).
Proof. reflexivity. Qed.

Lemma call_tool_unknown tool arguments :
  tool ∉ name <$> list_tools →
  call_tool post dumps tool arguments
  = ([], [ {| content_type := "text"; text := "Unknown tool: " +:+ tool |} ]).
Proof.
  intros Hn. unfold call_tool. simpl in Hn.
  rewrite !not_elem_of_cons in Hn. destruct Hn as (? & ? & ? & _).
  by rewrite !bool_decide_eq_false_2.
Qed.

(** The keys of the payload of a search. *)
Lemma semantic_search_payload_lookup arguments k :
  semantic_search_payload arguments !! k =
  if decide (k = "sources") then
    (if truthy (get arguments "sources" (JList []))
     then Some (get arguments "sources" (JList [])) else None)
  else if decide (k = "action") then Some (JStr "semantic_search")
  else if decide (k = "query") then Some (get arguments "query" (JStr ""))
  else if decide (k = "top_k") then Some (get arguments "top_k" (JNum 5))
  else if decide (k = "min_score") then Some (get arguments "min_score" (JNum 0.6))
  else None.
Proof.
  unfold semantic_search_payload.
  destruct (truthy (get arguments "sources" (JList []))); repeat case_decide; subst;
    by simplify_map_eq.
Qed.

(** X26. A search posts one payload with the action "semantic_search",
    the query, [top_k] and [min_score] of the arguments (or "", 5 and 0.6),
    and the sources only when the argument is given and is not empty; no
    other key of the arguments reaches the endpoint, and an [action] among
    the arguments cannot replace the action. *)
Theorem semantic_search_posts_known_keys arguments :
  ∃ payload,
    (call_tool post dumps "semantic_search" arguments).1 = [payload] ∧
    payload !! "action" = Some (JStr "semantic_search") ∧
    payload !! "query" = Some (get arguments "query" (JStr "")) ∧
    payload !! "top_k" = Some (get arguments "top_k" (JNum 5)) ∧
    payload !! "min_score" = Some (get arguments "min_score" (JNum 0.6)) ∧
    (∀ sources, arguments !! "sources" = Some sources → truthy sources = true →
       payload !! "sources" = Some sources) ∧
    (∀ sources, arguments !! "sources" = Some sources → truthy sources = false →
       payload !! "sources" = None) ∧
    (arguments !! "sources" = None → payload !! "sources" = None) ∧
    (∀ k, k ∉ ["action"; "query"; "top_k"; "min_score"; "sources"] →
       payload !! k = None).
Proof.
  exists (semantic_search_payload arguments).
  rewrite call_tool_semantic_search. split; [done |].
  rewrite !semantic_search_payload_lookup. split_and!; try done.
  - intros sources Hs Ht. unfold get. rewrite Hs. simpl. by rewrite Ht.
  - intros sources Hs Ht. unfold get. rewrite Hs. simpl. by rewrite Ht.
  - intros Hs. unfold get. by rewrite Hs.
  - intros k Hk. rewrite semantic_search_payload_lookup.
    rewrite !not_elem_of_cons in Hk. destruct Hk as (? & ? & ? & ? & ? & _).
    by repeat case_decide.
Qed.

Lemma get_cve_details_payload_lookup arguments k :
  get_cve_details_payload arguments !! k =
  if decide (k = "action") then Some (JStr "get_cve_details")
  else if decide (k = "cve_id") then Some (get arguments "cve_id" (JStr ""))
  else None.
Proof.
  unfold get_cve_details_payload. repeat case_decide; subst; by simplify_map_eq.
Qed.

Lemma threat_intelligence_summary_payload_lookup arguments k :
  threat_intelligence_summary_payload arguments !! k =
  if decide (k = "action") then Some (JStr "threat_intelligence_summary")
  else if decide (k = "threat_type") then Some (get arguments "threat_type" (JStr ""))
  else if decide (k = "time_range")
  then Some (get arguments "time_range" (JStr "30_days"))
  else None.
Proof.
  unfold threat_intelligence_summary_payload.
  repeat case_decide; subst; by simplify_map_eq.
Qed.

(** The tools of [list_tools], one by one. *)
Lemma listed_tool (t : Tool) :
  t ∈ list_tools →
  name t = "semantic_search" ∨ name t = "get_cve_details" ∨
  name t = "threat_intelligence_summary".
Proof.
  unfold list_tools. rewrite !elem_of_cons, elem_of_nil.
  intros [-> | [-> | [-> | []]]]; auto.
Qed.

(** X27. [call_tool] handles exactly the tools [list_tools] announces:
    for a listed name it posts one payload, whose action is the name of the
    tool and whose other keys are properties of the tool's input schema; for
    any other name it posts nothing and answers "Unknown tool". *)
Theorem listed_tools_are_handled tool arguments :
  (tool ∈ name <$> list_tools ↔
   ∃ payload, (call_tool post dumps tool arguments).1 = [payload]) ∧
  (tool ∉ name <$> list_tools →
   call_tool post dumps tool arguments
   = ([], [ {| content_type := "text"; text := "Unknown tool: " +:+ tool |} ])) ∧
  (∀ t payload,
     t ∈ list_tools → tool = name t →
     (call_tool post dumps tool arguments).1 = [payload] →
     payload !! "action" = Some (JStr (name t)) ∧
     ∀ k, is_Some (payload !! k) → k = "action" ∨ k ∈ property <$> properties t).
Proof.
  split_and!.
  - split.
    + simpl. rewrite !elem_of_cons, elem_of_nil.
      intros [-> | [-> | [-> | []]]]; eexists; reflexivity.
    + intros [payload Hp]. destruct (decide (tool ∈ name <$> list_tools)) as [|Hn]; [done |].
      by rewrite (call_tool_unknown _ _ Hn) in Hp.
  - apply call_tool_unknown.
  - intros t payload Ht -> Hp. unfold list_tools in Ht.
    rewrite !elem_of_cons, elem_of_nil in Ht.
    destruct Ht as [-> | [-> | [-> | []]]]; simpl in Hp; injection Hp as <-; simpl.
    + split; [by rewrite semantic_search_payload_lookup |].
      intros k. rewrite semantic_search_payload_lookup, !elem_of_cons.
      repeat case_decide; subst; auto 10. by intros [? ?].
    + split; [by rewrite get_cve_details_payload_lookup |].
      intros k. rewrite get_cve_details_payload_lookup, !elem_of_cons.
      repeat case_decide; subst; auto 10. by intros [? ?].
    + split; [by rewrite threat_intelligence_summary_payload_lookup |].
      intros k. rewrite threat_intelligence_summary_payload_lookup, !elem_of_cons.
      repeat case_decide; subst; auto 10. by intros [? ?].
Qed.

(** The side conditions of a property of a schema. *)
Ltac schema_case :=
  try done;
  try (by intros ?%list_elem_of_singleton);
  try (by intros d [= <-]);
  try (intros _ Hn; destruct Hn; by left).

(** X28. What [call_tool] posts for a property of the schema: an
    argument that is given is forwarded unchanged (the sources only when
    not empty); for one that is missing, the default the schema declares is
    posted, an empty string takes the place of a required argument, which
    is not insisted on, and a property that is neither is left out. *)
Theorem schema_properties_in_payload (t : Tool) (p : Property) arguments payload :
  t ∈ list_tools →
  p ∈ properties t →
  (call_tool post dumps (name t) arguments).1 = [payload] →
  (∀ v, arguments !! property p = Some v →
     property p ≠ "sources" ∨ truthy v = true →
     payload !! property p = Some v) ∧
  (arguments !! property p = None →
   (∀ d, default_value p = Some d → payload !! property p = Some d) ∧
   (property p ∈ required t → payload !! property p = Some (JStr "")) ∧
   (default_value p = None → property p ∉ required t → payload !! property p = None)).
Proof.
  intros Ht Hp Hpost. unfold list_tools in Ht.
  rewrite !elem_of_cons, elem_of_nil in Ht.
  assert (Hcase : ∀ (given : option json) (sent : option json → option json)
                    (declared : option json) (needed : Prop) (free : Prop),
    (∀ v, free ∨ truthy v = true → sent (Some v) = Some v) →
    (∀ d, declared = Some d → sent None = Some d) →
    (needed → sent None = Some (JStr "")) →
    (declared = None → ¬ needed → sent None = None) →
    (∀ v, given = Some v → free ∨ truthy v = true → sent given = Some v) ∧
    (given = None →
     (∀ d, declared = Some d → sent given = Some d) ∧
     (needed → sent given = Some (JStr "")) ∧
     (declared = None → ¬ needed → sent given = None))).
  { intros given sent declared needed free Hgiven Hdeclared Hneeded Hleft. split.
    - intros v -> Hor. by apply Hgiven.
    - by intros ->. }
  destruct Ht as [-> | [-> | [-> | []]]]; simpl in Hp, Hpost;
    rewrite !elem_of_cons, elem_of_nil in Hp; injection Hpost as <-.
  - rewrite semantic_search_payload_lookup.
    destruct Hp as [-> | [-> | [-> | [-> | []]]]]; simpl; unfold get;
      repeat case_decide; try done.
    + apply (Hcase (arguments !! "query") (fun o => Some (default (JStr "") o))
               None ("query" ∈ ["query"]) ("query" ≠ "sources")); schema_case.
    + apply (Hcase (arguments !! "top_k") (fun o => Some (default (JNum 5) o))
               (Some (JNum 5)) ("top_k" ∈ ["query"]) ("top_k" ≠ "sources")); schema_case.
    + apply (Hcase (arguments !! "min_score") (fun o => Some (default (JNum 0.6) o))
               (Some (JNum 0.6)) ("min_score" ∈ ["query"]) ("min_score" ≠ "sources"));
        schema_case.
    + apply (Hcase (arguments !! "sources")
               (fun o => if truthy (default (JList []) o)
                         then Some (default (JList []) o) else None)
               None ("sources" ∈ ["query"]) ("sources" ≠ "sources")); schema_case.
      intros v [? | Hv]; [done |]. simpl. by rewrite Hv.
  - rewrite get_cve_details_payload_lookup.
    destruct Hp as [-> | []]; simpl; unfold get; repeat case_decide; try done.
    apply (Hcase (arguments !! "cve_id") (fun o => Some (default (JStr "") o))
             None ("cve_id" ∈ ["cve_id"]) ("cve_id" ≠ "sources")); schema_case.
  - rewrite threat_intelligence_summary_payload_lookup.
    destruct Hp as [-> | [-> | []]]; simpl; unfold get; repeat case_decide; try done.
    + apply (Hcase (arguments !! "threat_type") (fun o => Some (default (JStr "") o))
               None ("threat_type" ∈ ["threat_type"]) ("threat_type" ≠ "sources"));
        schema_case.
    + apply (Hcase (arguments !! "time_range")
               (fun o => Some (default (JStr "30_days") o))
               (Some (JStr "30_days")) ("time_range" ∈ ["threat_type"])
               ("time_range" ≠ "sources")); schema_case.
Qed.

(** X29. [call_tool] never raises: it returns one text, which is the
    dump of the JSON answer after a status 200, "Error <status>: <body>"
    after any other status, and "Error connecting to Veridano: <message>"
    when the request, or the reading of the answer, raises. *)
Theorem call_tool_always_answers tool arguments :
  ∃ answer,
    (call_tool post dumps tool arguments).2
    = [ {| content_type := "text"; text := answer |} ] ∧
    (length (call_tool post dumps tool arguments).1 ≤ 1)%nat ∧
    ∀ payload, (call_tool post dumps tool arguments).1 = [payload] →
      (∀ message, post payload = Refused message →
         answer = "Error connecting to Veridano: " +:+ message) ∧
      (∀ r result, post payload = Received r → status r = 200%Z →
         json_body r = inr result → answer = dumps result) ∧
      (∀ r message, post payload = Received r → status r = 200%Z →
         json_body r = inl message →
         answer = "Error connecting to Veridano: " +:+ message) ∧
      (∀ r error_text, post payload = Received r → status r ≠ 200%Z →
         text_body r = inr error_text →
         answer = "Error " +:+ pretty (status r) +:+ ": " +:+ error_text).
Proof.
  assert (Hreq : ∀ payload0, ∃ answer,
    (request post dumps payload0).2 = [ {| content_type := "text"; text := answer |} ] ∧
    (∀ message, post payload0 = Refused message →
       answer = "Error connecting to Veridano: " +:+ message) ∧
    (∀ r result, post payload0 = Received r → status r = 200%Z →
       json_body r = inr result → answer = dumps result) ∧
    (∀ r message, post payload0 = Received r → status r = 200%Z →
       json_body r = inl message →
       answer = "Error connecting to Veridano: " +:+ message) ∧
    (∀ r error_text, post payload0 = Received r → status r ≠ 200%Z →
       text_body r = inr error_text →
       answer = "Error " +:+ pretty (status r) +:+ ": " +:+ error_text)).
  { intros payload0. unfold request, connection_error. simpl.
    destruct (post payload0) as [message | r].
    - eexists. split; [done |]. split_and!; intros; simplify_eq; first [done | congruence].
    - case_bool_decide as Hs.
      + destruct (json_body r) as [message | result] eqn:Hj;
          (eexists; split; [done |]); split_and!; intros; simplify_eq; first [done | congruence].
      + destruct (text_body r) as [message | error_text] eqn:Ht;
          (eexists; split; [done |]); split_and!; intros; simplify_eq; first [done | congruence]. }
  unfold call_tool.
  repeat case_bool_decide.
  1-3: match goal with |- context [request post dumps ?p] =>
         destruct (Hreq p) as (answer & Ha & Hcases) end;
       exists answer; (split; [done |]); (split; [simpl; lia |]);
       intros payload [= <-]; exact Hcases.
  eexists. split; [done |]. split; [simpl; lia |]. by intros payload [=].
Qed.

End McpClientFacts.

(** ** The MCP client on an example call *)

Lemma schema_properties_in_payload_witness :
  McpClient.semantic_search_payload search_arguments !! "top_k"
  = Some (McpClient.JNum 5).
Proof.
  refine (proj1 (proj2 (schema_properties_in_payload failing_endpoint dumps_example
    McpClient.semantic_search_tool McpClient.top_k_property search_arguments
    (McpClient.semantic_search_payload search_arguments) _ _ _) _) _ eq_refl).
  - unfold McpClient.list_tools. rewrite elem_of_cons. by left.
  - simpl. rewrite !elem_of_cons. right. by left.
  - reflexivity.
  - reflexivity.
Defined.

(** A search against an endpoint that answers 503: the query and the
    sources are posted, [top_k] and [min_score] get their defaults, the
    stray arguments stay behind, and the answer reports the status. *)
Example search_against_failing_endpoint :
  ∃ payload,
    McpClient.call_tool failing_endpoint dumps_example "semantic_search" search_arguments
    = ([payload],
       [ {| McpClient.content_type := "text";
            McpClient.text := "Error 503: Service Unavailable" |} ]) ∧
    payload !! "action" = Some (McpClient.JStr "semantic_search") ∧
    payload !! "sources" = Some (McpClient.JList [McpClient.JStr "CISA"]) ∧
    payload !! "top_k" = Some (McpClient.JNum 5) ∧
    payload !! "limit" = None.
Proof. eexists. split; [reflexivity |]. by vm_compute. Qed.
